(** * airobot: the joint-command layer of [SingleArmPybullet]

    A shallow embedding of [src/airobot/arm/single_arm_pybullet.py]: the
    methods that command joint positions, velocities and torques, switch the
    torque mode of the joints and sequence a straight-line end-effector move.

    The simulator (pybullet) and the helpers of [airobot.utils] that the class
    calls are outside the class.  Every call that leaves the class is recorded,
    oldest first, in a trace; what such a call answers is given by an
    [environment], as a function of the calls made before it. *)

From Stdlib Require Import ZArith Floats.
From stdpp Require Import base option list gmap strings pretty.

Set Warnings "-inexact-float,-register-all".

Set Default Proof Using "Type".

(** ** Python values and exceptions *)

(** The exceptions raised by the class and by the Python operations it uses. *)
Inductive exn :=
  | ValueError | TypeError | RuntimeError | AssertionError
  | KeyError | IndexError.

Inductive outcome (A : Type) :=
  | Returns (a : A)
  | Raises (e : exn).
Arguments Returns {A} a.
Arguments Raises {A} e.

(** A goal is documented as "float or list". *)
Inductive pyval :=
  | PyFloat (x : float)
  | PyList (xs : list float).

(** [len(v)]: a float has no length. *)
Definition len (v : pyval) : outcome nat :=
  match v with
  | PyList xs => Returns (length xs)
  | PyFloat _ => Raises TypeError
  end.

(** [l.index(x)]: the first position of [x]. *)
Fixpoint index (l : list string) (x : string) : option nat :=
  match l with
  | [] => None
  | y :: l' => if decide (y = x) then Some 0 else S <$> index l' x
  end.

(** [all(l)] on a list of booleans. *)
Definition all (l : list bool) : bool := forallb (fun b => b) l.

(** ** Calls that leave the class *)

Inductive control_mode := POSITION_CONTROL | VELOCITY_CONTROL | TORQUE_CONTROL.

(** The two readers handed to the convergence waiter. *)
Inductive getter := get_jpos | get_jvel.

Inductive call :=
  | p_setJointMotorControlArray (bodyUniqueId : option Z) (jointIndices : list Z)
      (controlMode : control_mode) (targets : option pyval) (forces : pyval)
  | p_setJointMotorControl2 (bodyUniqueId : option Z) (jointIndex : Z)
      (controlMode : control_mode) (target : option pyval) (force : pyval)
  | p_resetJointState (bodyUniqueId : option Z) (jointIndex : Z)
      (targetValue targetVelocity : pyval)
  | p_getLinkState (bodyUniqueId : option Z) (linkIndex : Z)
  | p_calculateInverseKinematics (bodyUniqueId : option Z) (linkIndex : Z)
      (pos : list float) (ori : option (list float)) (jointDamping : list float)
  | arm_util_wait_to_reach_jnt_goal (goal : pyval) (joint_name : option string)
      (get_func : getter) (get_func_derv : option getter)
      (timeout max_error : float).

(** A call of the convergence waiter. *)
Definition is_wait (c : call) : bool :=
  match c with
  | arm_util_wait_to_reach_jnt_goal _ _ _ _ _ _ => true
  | _ => false
  end.

(** ** The object and the world around it *)

Record cfgs_ARM := {
  TIMEOUT_LIMIT : float;
  MAX_JOINT_ERROR : float;
  MAX_JOINT_VEL_ERROR : float
}.

(** The attributes of [self] that the methods below read or write. *)
Record SingleArmPybullet := {
  cfgs : cfgs_ARM;
  robot_id : option Z;
  arm_jnt_names : list string;
  _max_torques : list float;
  _ik_jds : list float;
  jnt_to_id : gmap string Z;
  ee_link_id : Z;
  arm_jnt_ids : list Z;
  _step_sim_mode : bool;
  _in_torque_mode : list bool
}.

(** [_init_consts] sets both from [arm_jnt_names]; nothing reassigns them. *)
Definition arm_dof (s : SingleArmPybullet) : nat := length (arm_jnt_names s).
Definition arm_jnt_names_set (s : SingleArmPybullet) : gset string :=
  list_to_set (arm_jnt_names s).

Record world := World {
  self : SingleArmPybullet;
  trace : list call
}.

(** What the collaborators answer, given the calls made so far. *)
Record environment := {
  (** [info[4]] and [info[5]] of [p.getLinkState] *)
  getLinkState : list call -> option Z -> Z -> list float * list float;
  calculateInverseKinematics :
    list call -> option Z -> Z -> list float -> option (list float) ->
    list float -> list float;
  (** [airobot.utils.arm_util.wait_to_reach_jnt_goal] *)
  wait_to_reach_jnt_goal :
    list call -> pyval -> option string -> getter -> option getter ->
    float -> float -> bool;
  (** [airobot.utils.common]: pure helpers *)
  linear_interpolate_path :
    list float -> list float -> float -> outcome (list (list float));
  quat2rot : list float -> list (list float);
  quat2euler : list float -> list float;
  to_quat : list float -> list float
}.

(** ** A state and exception monad

    A raised exception keeps the effects that came before it. *)
Definition M (A : Type) : Type := world -> outcome A * world.

Definition ret {A} (a : A) : M A := fun w => (Returns a, w).
Definition raise {A} (e : exn) : M A := fun w => (Raises e, w).
Definition bind {A B} (m : M A) (k : A -> M B) : M B :=
  fun w =>
    match m w with
    | (Returns a, w') => k a w'
    | (Raises e, w') => (Raises e, w')
    end.

#[global] Instance M_ret : MRet M := @ret.
#[global] Instance M_bind : MBind M := fun A B k m => bind m k.

Definition lift {A} (o : outcome A) : M A := fun w => (o, w).
Definition get_self : M SingleArmPybullet := fun w => (Returns (self w), w).
Definition history : M (list call) := fun w => (Returns (trace w), w).
Definition emit (c : call) : M unit :=
  fun w => (Returns tt, World (self w) (trace w ++ [c])).

(** [self._in_torque_mode = flags] *)
Definition with__in_torque_mode (s : SingleArmPybullet) (flags : list bool)
  : SingleArmPybullet :=
  {| cfgs := cfgs s; robot_id := robot_id s;
     arm_jnt_names := arm_jnt_names s;
     _max_torques := _max_torques s; _ik_jds := _ik_jds s;
     jnt_to_id := jnt_to_id s; ee_link_id := ee_link_id s;
     arm_jnt_ids := arm_jnt_ids s;
     _step_sim_mode := _step_sim_mode s;
     _in_torque_mode := flags |}.

Definition set__in_torque_mode (flags : list bool) : M unit :=
  fun w => (Returns tt, World (with__in_torque_mode (self w) flags) (trace w)).

(** [d[k]], [l[i]] and [l[i] = v] with their exceptions. *)
Definition getitem_dict (d : gmap string Z) (k : string) : M Z :=
  match d !! k with Some v => ret v | None => raise KeyError end.
Definition getitem {A} (l : list A) (i : nat) : M A :=
  match l !! i with Some v => ret v | None => raise IndexError end.
Definition index_of (l : list string) (x : string) : M nat :=
  match index l x with Some i => ret i | None => raise ValueError end.
Definition setitem__in_torque_mode (i : nat) (v : bool) : M unit :=
  s ← get_self;
  if decide (i < length (_in_torque_mode s))
  then set__in_torque_mode (<[i := v]> (_in_torque_mode s))
  else raise IndexError.

(** [for idx, x in enumerate(l): body(idx, x)], counting from [idx]. *)
Fixpoint for_enumerate {A} (body : nat -> A -> M unit) (idx : nat) (l : list A)
  : M unit :=
  match l with
  | [] => ret tt
  | x :: l' => body idx x ;; for_enumerate body (S idx) l'
  end.

(** [for x in l: out.append(f(x))]. *)
Fixpoint for_append {A B} (f : A -> M B) (l : list A) : M (list B) :=
  match l with
  | [] => ret []
  | x :: l' => y ← f x; ys ← for_append f l'; ret (y :: ys)
  end.

(** [for x in l: acc = f(x)]. *)
Fixpoint for_assign {A B} (f : A -> M B) (acc : B) (l : list A) : M B :=
  match l with
  | [] => ret acc
  | x :: l' => y ← f x; for_assign f y l'
  end.

(** ** The methods *)

Section Methods.
Context (env : environment).

Definition call_wait (goal : pyval) (joint_name : option string)
    (get_func : getter) (get_func_derv : option getter)
    (timeout max_error : float) : M bool :=
  h ← history;
  emit (arm_util_wait_to_reach_jnt_goal goal joint_name get_func
          get_func_derv timeout max_error);;
  ret (wait_to_reach_jnt_goal env h goal joint_name get_func get_func_derv
         timeout max_error).

Definition set_jvel (velocity : pyval) (joint_name : option string)
    (wait : bool) : M bool :=
  let success := false in
  match joint_name with
  | None =>
      n ← lift (len velocity);
      s ← get_self;
      if decide (n <> arm_dof s) then raise ValueError
      else
        emit (p_setJointMotorControlArray (robot_id s) (arm_jnt_ids s)
                VELOCITY_CONTROL (Some velocity) (PyList (_max_torques s)))
  | Some name =>
      s ← get_self;
      if decide (name ∉ arm_jnt_names_set s) then raise TypeError
      else
        arm_jnt_idx ← index_of (arm_jnt_names s) name;
        max_torque ← getitem (_max_torques s) arm_jnt_idx;
        jnt_id ← getitem_dict (jnt_to_id s) name;
        emit (p_setJointMotorControl2 (robot_id s) jnt_id
                VELOCITY_CONTROL (Some velocity) (PyFloat max_torque))
  end;;
  s ← get_self;
  if negb (_step_sim_mode s) then
    if wait then
      call_wait velocity joint_name get_jvel None
        (TIMEOUT_LIMIT (cfgs s)) (MAX_JOINT_VEL_ERROR (cfgs s))
    else ret true
  else ret success.

Definition reset_joint_state (jnt_name : string) (jpos : pyval)
    (jvel : pyval) : M unit :=
  s ← get_self;
  jnt_id ← getitem_dict (jnt_to_id s) jnt_name;
  emit (p_resetJointState (robot_id s) jnt_id jpos jvel).

(** the default [jvel=0] of [reset_joint_state] *)
Definition jvel_default : pyval := PyFloat 0%float.

Definition set_jpos (position : pyval) (joint_name : option string)
    (wait ignore_physics : bool) : M bool :=
  let success := false in
  success ←
    match joint_name with
    | None =>
        n ← lift (len position);
        s ← get_self;
        if decide (n <> arm_dof s) then raise ValueError
        else
          let tgt_pos := position in
          if ignore_physics then
            set_jvel (PyList (replicate (arm_dof s) 0%float)) None false;;
            for_enumerate
              (fun idx jnt =>
                 tgt ← match tgt_pos with
                        | PyList xs => getitem xs idx
                        | PyFloat _ => raise TypeError
                        end;
                 reset_joint_state jnt (PyFloat tgt) jvel_default)
              0 (arm_jnt_names s);;
            ret true
          else
            emit (p_setJointMotorControlArray (robot_id s) (arm_jnt_ids s)
                    POSITION_CONTROL (Some tgt_pos)
                    (PyList (_max_torques s)));;
            ret success
    | Some name =>
        s ← get_self;
        if decide (name ∉ arm_jnt_names_set s) then raise TypeError
        else
          let tgt_pos := position in
          arm_jnt_idx ← index_of (arm_jnt_names s) name;
          max_torque ← getitem (_max_torques s) arm_jnt_idx;
          jnt_id ← getitem_dict (jnt_to_id s) name;
          if ignore_physics then
            set_jvel (PyFloat 0%float) (Some name) false;;
            reset_joint_state name tgt_pos jvel_default;;
            ret true
          else
            emit (p_setJointMotorControl2 (robot_id s) jnt_id
                    POSITION_CONTROL (Some tgt_pos) (PyFloat max_torque));;
            ret success
    end;
  s ← get_self;
  if negb (_step_sim_mode s) && wait && negb ignore_physics then
    call_wait position joint_name get_jpos (Some get_jvel)
      (TIMEOUT_LIMIT (cfgs s)) (MAX_JOINT_ERROR (cfgs s))
  else ret success.

Definition _is_in_torque_mode (joint_name : option string) : M bool :=
  s ← get_self;
  match joint_name with
  | None => ret (all (_in_torque_mode s))
  | Some name =>
      jnt_id ← index_of (arm_jnt_names s) name;
      getitem (_in_torque_mode s) jnt_id
  end.

Definition set_jtorq (torque : pyval) (joint_name : option string)
    (wait : bool) : M bool :=
  ok ← _is_in_torque_mode joint_name;
  if negb ok then raise RuntimeError
  else
    s ← get_self;
    match joint_name with
    | None =>
        n ← lift (len torque);
        if decide (n <> arm_dof s) then raise ValueError
        else
          emit (p_setJointMotorControlArray (robot_id s) (arm_jnt_ids s)
                  TORQUE_CONTROL None torque)
    | Some name =>
        if decide (name ∉ arm_jnt_names_set s) then raise ValueError
        else
          jnt_id ← getitem_dict (jnt_to_id s) name;
          emit (p_setJointMotorControl2 (robot_id s) jnt_id
                  TORQUE_CONTROL None torque)
    end;;
    ret true.

Definition enable_torque_control (joint_name : option string) : M unit :=
  s ← get_self;
  match joint_name with
  | None =>
      let tgt_vels := replicate (arm_dof s) 0%float in
      let forces := replicate (arm_dof s) 0%float in
      emit (p_setJointMotorControlArray (robot_id s) (arm_jnt_ids s)
              VELOCITY_CONTROL (Some (PyList tgt_vels)) (PyList forces));;
      set__in_torque_mode (replicate (arm_dof s) true)
  | Some name =>
      jnt_id ← getitem_dict (jnt_to_id s) name;
      emit (p_setJointMotorControl2 (robot_id s) jnt_id
              VELOCITY_CONTROL (Some (PyFloat 0%float)) (PyFloat 0%float));;
      arm_jnt_id ← index_of (arm_jnt_names s) name;
      setitem__in_torque_mode arm_jnt_id true
  end.

Definition disable_torque_control (joint_name : option string) : M unit :=
  s ← get_self;
  match joint_name with
  | None =>
      set_jvel (PyList (replicate (arm_dof s) 0%float)) None false;;
      set__in_torque_mode (replicate (arm_dof s) false)
  | Some name =>
      set_jvel (PyFloat 0%float) (Some name) false;;
      arm_jnt_id ← index_of (arm_jnt_names s) name;
      setitem__in_torque_mode arm_jnt_id false
  end.

Definition get_ee_pose
  : M (list float * list float * list (list float) * list float) :=
  s ← get_self;
  h ← history;
  emit (p_getLinkState (robot_id s) (ee_link_id s));;
  let info := getLinkState env h (robot_id s) (ee_link_id s) in
  let pos := info.1 in
  let quat := info.2 in
  let rot_mat := quat2rot env quat in
  let euler := quat2euler env quat in
  ret (pos, quat, rot_mat, euler).

Definition compute_ik (pos : list float) (ori : option (list float))
  : M (list float) :=
  s ← get_self;
  h ← history;
  let ori := to_quat env <$> ori in
  emit (p_calculateInverseKinematics (robot_id s) (ee_link_id s) pos ori
          (_ik_jds s));;
  let jnt_poss :=
    calculateInverseKinematics env h (robot_id s) (ee_link_id s) pos ori
      (_ik_jds s) in
  ret (take (arm_dof s) jnt_poss).

Definition move_ee_xyz (delta_xyz : list float) (eef_step : float) : M bool :=
  s ← get_self;
  if _step_sim_mode s then raise AssertionError
  else
    pose ← get_ee_pose;
    let '(pos, quat, rot_mat, euler) := pose in
    let cur_pos := pos in
    waypoints ← lift (linear_interpolate_path env cur_pos delta_xyz
                         eef_step);
    way_jnt_positions ←
      for_append (fun w => compute_ik w (Some quat)) waypoints;
    let success := false in
    for_assign (fun jnt_poss => set_jpos (PyList jnt_poss) None true false)
      success way_jnt_positions.

End Methods.

(** ** Vocabulary of the statements *)

(** What [_build_jnt_id] leaves behind: it reads [jnt_to_id[jnt]] for every
    joint name of the arm, in order, into [arm_jnt_ids]. *)
Definition built (s : SingleArmPybullet) : Prop :=
  Forall2 (fun jnt id => jnt_to_id s !! jnt = Some id)
    (arm_jnt_names s) (arm_jnt_ids s).

Definition velocity_array (s : SingleArmPybullet) (velocity : pyval) : call :=
  p_setJointMotorControlArray (robot_id s) (arm_jnt_ids s) VELOCITY_CONTROL
    (Some velocity) (PyList (_max_torques s)).

Definition position_array (s : SingleArmPybullet) (position : pyval) : call :=
  p_setJointMotorControlArray (robot_id s) (arm_jnt_ids s) POSITION_CONTROL
    (Some position) (PyList (_max_torques s)).

Definition reset_call (s : SingleArmPybullet) (id : Z) (x : float) : call :=
  p_resetJointState (robot_id s) id (PyFloat x) jvel_default.

Definition wait_jpos (s : SingleArmPybullet) (position : pyval)
    (joint_name : option string) : call :=
  arm_util_wait_to_reach_jnt_goal position joint_name get_jpos (Some get_jvel)
    (TIMEOUT_LIMIT (cfgs s)) (MAX_JOINT_ERROR (cfgs s)).

(** ** Points along a displacement *)

Module CartesianPathPlanner.

(** The point at the fraction [t] of the displacement. *)
Definition offset (origin displacement : list float) (t : float)
  : list float :=
  zip_with (fun o d => o + t * d)%float origin displacement.

Definition endpoint (origin displacement : list float) : list float :=
  zip_with PrimFloat.add origin displacement.

End CartesianPathPlanner.

(** ** A two-joint arm and a scripted simulator *)

Definition two_joint_arm (step_sim : bool) (flags : list bool)
  : SingleArmPybullet :=
  {| cfgs := {| TIMEOUT_LIMIT := 5; MAX_JOINT_ERROR := 0.01;
                MAX_JOINT_VEL_ERROR := 0.05 |};
     robot_id := Some 0%Z;
     arm_jnt_names := ["shoulder_pan_joint"; "elbow_joint"]%string;
     _max_torques := [150; 28]%float;
     _ik_jds := [0.0005; 0.0005; 0.0005]%float;
     jnt_to_id :=
       <["shoulder_pan_joint"%string := 1%Z]>
         (<["elbow_joint"%string := 3%Z]>
            (<["ee_tip"%string := 6%Z]> ∅));
     ee_link_id := 6%Z;
     arm_jnt_ids := [1; 3]%Z;
     _step_sim_mode := step_sim;
     _in_torque_mode := flags |}.

(** The simulator reports a fixed pose, solves inverse kinematics by a fixed
    three-joint answer, and the waiter reports convergence only once five
    calls have been made. *)
Definition scripted : environment :=
  {| getLinkState := fun _ _ _ => ([0.3; 0; 0.5], [0; 0; 0; 1])%float;
     calculateInverseKinematics :=
       fun _ _ _ pos _ _ => (pos ++ [0; 0])%float;
     wait_to_reach_jnt_goal :=
       fun h _ _ _ _ _ _ => bool_decide (5 <= length h);
     linear_interpolate_path :=
       fun origin delta _ =>
         Returns [CartesianPathPlanner.offset origin delta 0.5%float;
                  CartesianPathPlanner.endpoint origin delta];
     quat2rot := fun _ => [];
     quat2euler := fun _ => [];
     to_quat := fun q => q |}.

(** The arm before any call has been made. *)
Definition at_rest (step_sim : bool) (flags : list bool) : world :=
  World (two_joint_arm step_sim flags) [].

(** Whether a call commands zero velocity with zero force. *)
Definition all_zero (v : pyval) : bool :=
  match v with
  | PyFloat x => PrimFloat.is_zero x
  | PyList xs => forallb PrimFloat.is_zero xs
  end.

Definition zero_velocity_zero_force (c : call) : bool :=
  match c with
  | p_setJointMotorControlArray _ _ VELOCITY_CONTROL (Some v) f
  | p_setJointMotorControl2 _ _ VELOCITY_CONTROL (Some v) f =>
      all_zero v && all_zero f
  | _ => false
  end.

(** ** The rest of the class *)

(** [self._step_sim_mode = mode] *)
Definition with__step_sim_mode (s : SingleArmPybullet) (mode : bool)
  : SingleArmPybullet :=
  {| cfgs := cfgs s; robot_id := robot_id s;
     arm_jnt_names := arm_jnt_names s;
     _max_torques := _max_torques s; _ik_jds := _ik_jds s;
     jnt_to_id := jnt_to_id s; ee_link_id := ee_link_id s;
     arm_jnt_ids := arm_jnt_ids s;
     _step_sim_mode := mode;
     _in_torque_mode := _in_torque_mode s |}.

(** [self.jnt_to_id = d] *)
Definition with_jnt_to_id (s : SingleArmPybullet) (d : gmap string Z)
  : SingleArmPybullet :=
  {| cfgs := cfgs s; robot_id := robot_id s;
     arm_jnt_names := arm_jnt_names s;
     _max_torques := _max_torques s; _ik_jds := _ik_jds s;
     jnt_to_id := d; ee_link_id := ee_link_id s;
     arm_jnt_ids := arm_jnt_ids s;
     _step_sim_mode := _step_sim_mode s;
     _in_torque_mode := _in_torque_mode s |}.

(** [self.ee_link_id = id] *)
Definition with_ee_link_id (s : SingleArmPybullet) (id : Z)
  : SingleArmPybullet :=
  {| cfgs := cfgs s; robot_id := robot_id s;
     arm_jnt_names := arm_jnt_names s;
     _max_torques := _max_torques s; _ik_jds := _ik_jds s;
     jnt_to_id := jnt_to_id s; ee_link_id := id;
     arm_jnt_ids := arm_jnt_ids s;
     _step_sim_mode := _step_sim_mode s;
     _in_torque_mode := _in_torque_mode s |}.

(** [self.arm_jnt_ids = ids] *)
Definition with_arm_jnt_ids (s : SingleArmPybullet) (ids : list Z)
  : SingleArmPybullet :=
  {| cfgs := cfgs s; robot_id := robot_id s;
     arm_jnt_names := arm_jnt_names s;
     _max_torques := _max_torques s; _ik_jds := _ik_jds s;
     jnt_to_id := jnt_to_id s; ee_link_id := ee_link_id s;
     arm_jnt_ids := ids;
     _step_sim_mode := _step_sim_mode s;
     _in_torque_mode := _in_torque_mode s |}.

Definition set_self (s : SingleArmPybullet) : M unit :=
  fun w => (Returns tt, World s (trace w)).

(** [_build_jnt_id].  [infos] is what [p.getJointInfo(self.robot_id, i)]
    answers for [i] in [range(p.getNumJoints(self.robot_id))]: the joint index
    [info[0]] and the decoded name [info[1]]; [ee_link_jnt] is
    [self.ee_link_jnt].  A later joint of the same name replaces an earlier
    one in the dictionary. *)
Definition _build_jnt_id (infos : list (Z * string)) (ee_link_jnt : string)
  : M unit :=
  s ← get_self;
  set_self
    (with_jnt_to_id s
       (foldl (fun d info => <[info.2 := info.1]> d) ∅ infos));;
  s ← get_self;
  ee ← getitem_dict (jnt_to_id s) ee_link_jnt;
  set_self (with_ee_link_id s ee);;
  s ← get_self;
  ids ← for_append (fun jnt => getitem_dict (jnt_to_id s) jnt)
          (arm_jnt_names s);
  set_self (with_arm_jnt_ids s ids).

Section MoreMethods.
Context (env : environment).

Definition set_ee_pose (pos ori : option (list float)) (wait : bool)
  : M bool :=
  pos ← match pos with
        | None => pose ← get_ee_pose env; ret pose.1.1.1
        | Some pos => ret pos
        end;
  jnt_pos ← compute_ik env pos ori;
  set_jpos env (PyList jnt_pos) None wait false.

End MoreMethods.

(** ** [airobot.utils.pb_util]: the simulation mode *)

Module pb_util.

(** The shape types of pybullet that [load_geom] knows. *)
Inductive geom :=
  | GEOM_SPHERE | GEOM_BOX | GEOM_CAPSULE | GEOM_CYLINDER | GEOM_MESH.

(** A Python value handed to [load_geom], or put by it among the keyword
    arguments of a call.  [OGeom g] is the constant [p.GEOM_...] of pybullet
    for the shape type [g], a positive int. *)
Inductive pyobj :=
  | ONone
  | OFloat (x : float)
  | OInt (z : Z)
  | OStr (s : string)
  | OList (l : list pyobj)
  | OGeom (g : geom).

(** The calls to pybullet made by the functions of the module modelled here.
    [p_configureDebugVisualizer_RENDERING enable] is
    [p.configureDebugVisualizer(p.COV_ENABLE_RENDERING, enable)]. *)
Inductive pb_call :=
  | p_setRealTimeSimulation (enableRealTimeSimulation : Z)
      (physicsClientId : option Z)
  | p_loadURDF (fileName : string) (basePosition baseOrientation : list float)
      (globalScaling : float) (physicsClientId : option Z)
  | p_loadSDF (sdfFileName : string) (globalScaling : float)
      (physicsClientId : option Z)
  | p_loadMJCF (mjcfFileName : string) (physicsClientId : option Z)
  | p_setGravity (gravX gravY gravZ : float) (physicsClientId : option Z)
  | p_configureDebugVisualizer_RENDERING (enable : Z)
      (physicsClientId : option Z)
  | p_createVisualShape (kwargs : gmap string pyobj)
  | p_createCollisionShape (kwargs : gmap string pyobj)
  | p_createMultiBody (baseMass : pyobj)
      (baseInertialFramePosition baseInertialFrameOrientation : pyobj)
      (baseCollisionShapeIndex baseVisualShapeIndex : Z)
      (basePosition baseOrientation : pyobj) (physicsClientId : option Z)
  | p_loadTexture (textureFilename : string)
  | p_changeVisualShape_textureUniqueId
      (objectUniqueId linkIndex textureUniqueId : Z)
  | p_changeVisualShape_rgbaColor (objectUniqueId linkIndex : Z)
      (rgbaColor : pyobj) (physicsClientId : option Z)
  | p_changeTexture (textureUniqueId : Z) (pixels : list Z) (width height : Z)
      (physicsClientId : option Z).

(** The module's globals and the calls it has made, oldest first. *)
Record state := State {
  PB_CLIENT : option Z;
  STEP_SIM_MODE : bool;
  RENDER : bool;
  calls : list pb_call
}.

Definition GRAVITY_CONST : float := (-9.8)%float.

Definition set_step_sim (step_mode : bool) (st : state) : state :=
  let st :=
    State (PB_CLIENT st) step_mode (RENDER st) (calls st) in
  if RENDER st then
    if step_mode then
      State (PB_CLIENT st) (STEP_SIM_MODE st) (RENDER st)
        (calls st ++ [p_setRealTimeSimulation 0 (PB_CLIENT st)])
    else
      State (PB_CLIENT st) (STEP_SIM_MODE st) (RENDER st)
        (calls st ++ [p_setRealTimeSimulation 1 (PB_CLIENT st)])
  else st.

(** [load_urdf], [load_sdf] and [load_mjcf], without extra keyword arguments.
    [loaded] is the body id that pybullet answers. *)
Definition set_gravity (st : state) : state :=
  State (PB_CLIENT st) (STEP_SIM_MODE st) (RENDER st)
    (calls st ++ [p_setGravity 0 0 GRAVITY_CONST (PB_CLIENT st)]).

Definition called (c : pb_call) (st : state) : state :=
  State (PB_CLIENT st) (STEP_SIM_MODE st) (RENDER st) (calls st ++ [c]).

Definition load_urdf (loaded : list pb_call -> Z) (filename : string)
    (base_pos base_ori : option (list float)) (scaling : float) (st : state)
  : outcome Z * state :=
  if (scaling <=? 0)%float then (Raises ValueError, st)
  else
    let base_pos := default [0; 0; 0]%float base_pos in
    let base_ori := default [0; 0; 0; 1]%float base_ori in
    let body_id := loaded (calls st) in
    let st := called (p_loadURDF filename base_pos base_ori scaling
                        (PB_CLIENT st)) st in
    (Returns body_id, set_gravity st).

Definition load_sdf (loaded : list pb_call -> Z) (filename : string)
    (scaling : float) (st : state) : outcome Z * state :=
  if (scaling <=? 0)%float then (Raises ValueError, st)
  else
    let body_id := loaded (calls st) in
    let st := called (p_loadSDF filename scaling (PB_CLIENT st)) st in
    (Returns body_id, set_gravity st).

Definition load_mjcf (loaded : list pb_call -> Z) (filename : string)
    (st : state) : outcome Z * state :=
  let body_id := loaded (calls st) in
  let st := called (p_loadMJCF filename (PB_CLIENT st)) st in
  (Returns body_id, set_gravity st).

(** ** [load_geom] *)

Definition pb_shape_types : gmap string geom :=
  <["sphere"%string := GEOM_SPHERE]>
    (<["box"%string := GEOM_BOX]>
       (<["capsule"%string := GEOM_CAPSULE]>
          (<["cylinder"%string := GEOM_CYLINDER]>
             (<["mesh"%string := GEOM_MESH]> ∅)))).

Definition is_None (o : pyobj) : bool :=
  match o with ONone => true | _ => false end.

(** [isinstance(o, float)], [isinstance(o, list)], [isinstance(o, str)] and
    [isinstance(o, Number)] *)
Definition is_float (o : pyobj) : bool :=
  match o with OFloat _ => true | _ => false end.
Definition is_list (o : pyobj) : bool :=
  match o with OList _ => true | _ => false end.
Definition is_str (o : pyobj) : bool :=
  match o with OStr _ => true | _ => false end.
Definition is_Number (o : pyobj) : bool :=
  match o with OFloat _ | OInt _ | OGeom _ => true | _ => false end.

(** [o > 0] and [o <= 0.0] on numbers. *)
Definition gt_0 (o : pyobj) : bool :=
  match o with
  | OFloat x => (0 <? x)%float
  | OInt z => (0 <? z)%Z
  | OGeom _ => true
  | _ => false
  end.
Definition le_0 (o : pyobj) : bool :=
  match o with
  | OFloat x => (x <=? 0)%float
  | OInt z => (z <=? 0)%Z
  | _ => false
  end.

(** [len(o)], the items and [o[i]] of a list. *)
Definition items (o : pyobj) : list pyobj :=
  match o with OList l => l | _ => [] end.
Definition olen (o : pyobj) : nat := length (items o).
Definition oget (o : pyobj) (i : nat) : pyobj := default ONone (items o !! i).

(** [PB_CLIENT] as a keyword argument. *)
Definition client_obj (client : option Z) : pyobj :=
  match client with Some c => OInt c | None => ONone end.

(** The part of [load_geom] before its first call to pybullet: the checks of
    the arguments, and the keyword arguments [collision_args] and
    [visual_args] as they are built on the way. *)
Definition load_geom_args (shape_type : string)
    (size visualfile collifile mesh_scale : pyobj)
  : outcome (gmap string pyobj * gmap string pyobj) :=
  match pb_shape_types !! shape_type with
  | None => Raises TypeError
  | Some g =>
      let collision_args : gmap string pyobj :=
        <["shapeType"%string := OGeom g]> ∅ in
      let visual_args : gmap string pyobj :=
        <["shapeType"%string := OGeom g]> ∅ in
      if decide (shape_type = "sphere"%string) then
        if negb (is_None size) && negb (is_float size && gt_0 size)
        then Raises TypeError
        else
          let radius := if is_None size then OFloat 0.5 else size in
          let collision_args := <["radius"%string := radius]> collision_args in
          let visual_args := <["radius"%string := radius]> visual_args in
          Returns (collision_args, visual_args)
      else if decide (shape_type = "box"%string) then
        let checked : outcome pyobj :=
          if is_float size then Returns (OList [size; size; size])
          else if is_list size then
            if decide (olen size <> 3) then Raises ValueError
            else Returns size
          else if negb (is_None size) then Raises TypeError
          else Returns size in
        match checked with
        | Raises e => Raises e
        | Returns size =>
            let halfExtents :=
              if is_None size then OList [OInt 1; OInt 1; OInt 1] else size in
            let collision_args :=
              <["halfExtents"%string := halfExtents]> collision_args in
            let visual_args :=
              <["halfExtents"%string := halfExtents]> visual_args in
            Returns (collision_args, visual_args)
        end
      else if decide (shape_type ∈ ["capsule"; "cylinder"]%string) then
        if negb (is_None size) &&
           (negb (is_list size) || bool_decide (olen size <> 2))
        then Raises TypeError
        else if negb (is_None size) &&
                existsb (fun si => negb (is_Number si) || le_0 si) (items size)
        then Raises TypeError
        else
          let radius := if is_None size then OFloat 0.5 else oget size 0 in
          let height := if is_None size then OFloat 1 else oget size 1 in
          let collision_args := <["radius"%string := radius]> collision_args in
          let visual_args := <["radius"%string := radius]> visual_args in
          let collision_args := <["height"%string := height]> collision_args in
          let visual_args := <["length"%string := height]> visual_args in
          Returns (collision_args, visual_args)
      else if decide (shape_type = "mesh"%string) then
        if is_None visualfile && is_None collifile then Raises ValueError
        else
          let files :=
            if is_None visualfile then (collifile, collifile)
            else if is_None collifile then (visualfile, visualfile)
            else (visualfile, collifile) in
          let visualfile := files.1 in
          let collifile := files.2 in
          if negb (is_str visualfile) then Raises TypeError
          else if negb (is_str collifile) then Raises TypeError
          else
            let collision_args :=
              <["fileName"%string := collifile]> collision_args in
            let visual_args :=
              <["fileName"%string := visualfile]> visual_args in
            let checked : outcome pyobj :=
              if is_float mesh_scale
              then Returns (OList [mesh_scale; mesh_scale; mesh_scale])
              else if is_list mesh_scale then
                if decide (olen mesh_scale <> 3) then Raises ValueError
                else Returns mesh_scale
              else if negb (is_None mesh_scale) then Raises TypeError
              else Returns mesh_scale in
            match checked with
            | Raises e => Raises e
            | Returns mesh_scale =>
                let meshScale :=
                  if is_None mesh_scale then OList [OInt 1; OInt 1; OInt 1]
                  else mesh_scale in
                let collision_args :=
                  <["meshScale"%string := meshScale]> collision_args in
                let visual_args :=
                  <["meshScale"%string := meshScale]> visual_args in
                Returns (collision_args, visual_args)
            end
      else Raises TypeError
  end.

(** [load_geom].  [created] is the id that pybullet answers to a call that
    creates a shape or a body, given the calls made before it. *)
Definition load_geom (created : list pb_call -> Z) (shape_type : string)
    (size mass visualfile collifile mesh_scale rgba specular shift_pos
       shift_ori base_pos base_ori : pyobj) (st : state)
  : outcome Z * state :=
  match load_geom_args shape_type size visualfile collifile mesh_scale with
  | Raises e => (Raises e, st)
  | Returns (collision_args, visual_args) =>
      let visual_args := <["rgbaColor"%string := rgba]> visual_args in
      let visual_args := <["specularColor"%string := specular]> visual_args in
      let collision_args :=
        <["collisionFramePosition"%string := shift_pos]> collision_args in
      let collision_args :=
        <["collisionFrameOrientation"%string := shift_ori]> collision_args in
      let visual_args :=
        <["visualFramePosition"%string := shift_pos]> visual_args in
      let visual_args :=
        <["visualFrameOrientation"%string := shift_ori]> visual_args in
      let collision_args :=
        <["physicsClientId"%string := client_obj (PB_CLIENT st)]>
          collision_args in
      let visual_args :=
        <["physicsClientId"%string := client_obj (PB_CLIENT st)]>
          visual_args in
      let st :=
        called (p_configureDebugVisualizer_RENDERING 0 (PB_CLIENT st)) st in
      let vs_id := created (calls st) in
      let st := called (p_createVisualShape visual_args) st in
      let cs_id := created (calls st) in
      let st := called (p_createCollisionShape collision_args) st in
      let body_id := created (calls st) in
      let st :=
        called (p_createMultiBody mass shift_pos shift_ori cs_id vs_id
                  base_pos base_ori (PB_CLIENT st)) st in
      let st :=
        called (p_configureDebugVisualizer_RENDERING 1 (PB_CLIENT st)) st in
      (Returns body_id, set_gravity st)
  end.

(** A run [r] of [load_geom] from [st] returned, and these are the keyword
    arguments of the visual and of the collision shape it created. *)
Definition shapes_created (st : state) (r : outcome Z * state)
    (visual_args collision_args : gmap string pyobj) : Prop :=
  (exists id, r.1 = Returns id) /\
  calls r.2 !! (length (calls st) + 1)
    = Some (p_createVisualShape visual_args) /\
  calls r.2 !! (length (calls st) + 2)
    = Some (p_createCollisionShape collision_args).

End pb_util.

(** The arm together with its end-effector tool and the [pb_util] module.
    [HAS_EETOOL] is [cfgs.HAS_EETOOL]; [eetool__step_sim_mode] is
    [self.eetool._step_sim_mode]. *)
Record session := Session {
  arm : world;
  HAS_EETOOL : bool;
  eetool__step_sim_mode : bool;
  pb : pb_util.state
}.

Definition realtime_simulation (on : bool) (ss : session) : session :=
  let mode := negb on in
  Session
    (World (with__step_sim_mode (self (arm ss)) mode) (trace (arm ss)))
    (HAS_EETOOL ss)
    (if HAS_EETOOL ss then mode else eetool__step_sim_mode ss)
    (pb_util.set_step_sim mode (pb ss)).

(** [w'] has the attributes of [w] and its trace with calls added. *)
Definition extends (w w' : world) : Prop :=
  self w' = self w /\ exists issued, trace w' = trace w ++ issued.

(** A computation that leaves the attributes alone and only adds calls,
    whether it returns or raises. *)
Definition keeps_self {A} (m : M A) : Prop := forall w, extends w (m w).2.

(** [s'] has the attributes of [s], but for the torque-mode flags. *)
Definition same_but_flags (s s' : SingleArmPybullet) : Prop :=
  with__in_torque_mode s' (_in_torque_mode s) = s.

(** A world reached from [w] by switching torque mode: only the flags may
    differ, there is still one flag per joint if there was, and calls were
    only added. *)
Definition switched (w w' : world) : Prop :=
  same_but_flags (self w) (self w') /\
  (length (_in_torque_mode (self w)) = arm_dof (self w) ->
   length (_in_torque_mode (self w')) = arm_dof (self w')) /\
  exists issued, trace w' = trace w ++ issued.

(** A call that asks for inverse kinematics. *)
Definition is_solve (c : call) : bool :=
  match c with
  | p_calculateInverseKinematics _ _ _ _ _ => true
  | _ => false
  end.

(** A position command to the whole arm, or a call of the waiter. *)
Definition is_motion (c : call) : bool :=
  match c with
  | p_setJointMotorControlArray _ _ POSITION_CONTROL _ _ => true
  | arm_util_wait_to_reach_jnt_goal _ _ _ _ _ _ => true
  | _ => false
  end.

(** The scripted simulator with a solver that answers one joint value,
    whatever is asked. *)
Definition one_value_solver : environment :=
  {| getLinkState := getLinkState scripted;
     calculateInverseKinematics := fun _ _ _ _ _ _ => [0.1]%float;
     wait_to_reach_jnt_goal := wait_to_reach_jnt_goal scripted;
     linear_interpolate_path := linear_interpolate_path scripted;
     quat2rot := quat2rot scripted;
     quat2euler := quat2euler scripted;
     to_quat := to_quat scripted |}.

(** The scripted simulator with a planner that answers [plan], whatever is
    asked. *)
Definition scripted_plan (plan : outcome (list (list float))) : environment :=
  {| getLinkState := getLinkState scripted;
     calculateInverseKinematics := calculateInverseKinematics scripted;
     wait_to_reach_jnt_goal := wait_to_reach_jnt_goal scripted;
     linear_interpolate_path := fun _ _ _ => plan;
     quat2rot := quat2rot scripted;
     quat2euler := quat2euler scripted;
     to_quat := to_quat scripted |}.

(** ** [airobot.utils.pb_util.TextureModder] *)

Module TextureModder.

(** What the libraries answer.  Reads of pybullet are given the calls made
    so far.  [imread file] is [img.shape[0]] and [img.shape[1]] of the image
    that [cv2.imread] reads, the file being taken as readable.
    [getBodyInfo_succeeds] tells whether [p.getBodyInfo] returns rather than
    raises.  [gradient_pixels] is the flattened array that [set_gradient]
    computes with numpy from the colours, the direction, the height and the
    width; [noise_pixels] the one that [set_noise] computes from the
    colours, the fraction (which it clamps), the height and the width, with
    random numbers. *)
Record libraries := {
  imread : string -> Z * Z;
  loadTexture : list pb_util.pb_call -> string -> Z;
  getNumBodies : list pb_util.pb_call -> Z;
  getBodyInfo_succeeds : list pb_util.pb_call -> Z -> bool;
  getNumJoints : list pb_util.pb_call -> Z -> Z;
  gradient_pixels : list float -> list float -> bool -> Z -> Z -> list Z;
  noise_pixels :
    list pb_util.pb_call -> list float -> list float -> float -> Z -> Z ->
    outcome (list Z)
}.

(** The object and the module around it.  [texture_dict] is
    [{body_id: {link_id: [texture_id, height, width]}}]. *)
Record scene := Scene {
  texture_dict : gmap Z (gmap Z (Z * Z * Z));
  module : pb_util.state
}.

Definition __init__ (st : pb_util.state) : scene := Scene ∅ st.

(** [rgba=[1, 1, 1, 1]] *)
Definition white : pb_util.pyobj :=
  pb_util.OList
    [pb_util.OInt 1; pb_util.OInt 1; pb_util.OInt 1; pb_util.OInt 1].

(** [range(start, stop)] *)
Definition range (start stop : Z) : list Z := seqZ start (stop - start).

Section Methods.
Context (lib : libraries).

Definition set_texture (body_id link_id : Z) (texture_file : string)
    (sc : scene) : scene :=
  let shape := imread lib texture_file in
  let width := shape.2 in
  let height := shape.1 in
  let tex_id := loadTexture lib (pb_util.calls (module sc)) texture_file in
  let st := pb_util.called (pb_util.p_loadTexture texture_file) (module sc) in
  let st :=
    pb_util.called
      (pb_util.p_changeVisualShape_textureUniqueId body_id link_id tex_id)
      st in
  let d := texture_dict sc in
  let d := if decide (d !! body_id = None) then <[body_id := ∅]> d else d in
  let d :=
    <[body_id := <[link_id := (tex_id, height, width)]>
                   (default ∅ (d !! body_id))]> d in
  Scene d st.

Definition _check_link_has_tex (body_id link_id : Z) (sc : scene) : bool :=
  match texture_dict sc !! body_id with
  | None => false
  | Some links => if decide (links !! link_id = None) then false else true
  end.

Definition _check_body_exist (body_id : Z) (sc : scene) : bool :=
  getBodyInfo_succeeds lib (pb_util.calls (module sc)) body_id.

Definition set_rgba (body_id link_id : Z) (rgba : pb_util.pyobj)
    (sc : scene) : scene :=
  Scene (texture_dict sc)
    (pb_util.called
       (pb_util.p_changeVisualShape_rgbaColor body_id link_id rgba
          (pb_util.PB_CLIENT (module sc)))
       (module sc)).

(** [self.texture_dict[body_id][link_id]] *)
Definition getitem_texture (body_id link_id : Z) (sc : scene)
  : outcome (Z * Z * Z) :=
  match texture_dict sc !! body_id with
  | None => Raises KeyError
  | Some links =>
      match links !! link_id with
      | None => Raises KeyError
      | Some entry => Returns entry
      end
  end.

(** [np.array(rgb).reshape(1, 3)] raises [ValueError] unless [rgb] has three
    components. *)
Definition set_gradient (body_id link_id : Z) (rgb1 rgb2 : list float)
    (vertical : bool) (sc : scene) : outcome unit * scene :=
  if decide (length rgb1 <> 3) then (Raises ValueError, sc)
  else if decide (length rgb2 <> 3) then (Raises ValueError, sc)
  else if negb (_check_link_has_tex body_id link_id sc) then (Returns tt, sc)
  else
    match getitem_texture body_id link_id sc with
    | Raises e => (Raises e, sc)
    | Returns (tex_id, height, width) =>
        let new_color := gradient_pixels lib rgb1 rgb2 vertical height width in
        (Returns tt,
         Scene (texture_dict sc)
           (pb_util.called
              (pb_util.p_changeTexture tex_id new_color width height
                 (pb_util.PB_CLIENT (module sc)))
              (module sc)))
    end.

Definition set_noise (body_id link_id : Z) (rgb1 rgb2 : list float)
    (fraction : float) (sc : scene) : outcome unit * scene :=
  if negb (_check_link_has_tex body_id link_id sc) then (Returns tt, sc)
  else
    match getitem_texture body_id link_id sc with
    | Raises e => (Raises e, sc)
    | Returns (tex_id, height, width) =>
        match noise_pixels lib (pb_util.calls (module sc)) rgb1 rgb2 fraction
                height width with
        | Raises e => (Raises e, sc)
        | Returns new_color =>
            (Returns tt,
             Scene (texture_dict sc)
               (pb_util.called
                  (pb_util.p_changeTexture tex_id new_color width height
                     (pb_util.PB_CLIENT (module sc)))
                  (module sc)))
        end
    end.

(** The loop over the links of one body, in [whiten_materials]. *)
Definition whiten_links (body_id : Z) (sc : scene) : scene :=
  let num_jnts := getNumJoints lib (pb_util.calls (module sc)) body_id in
  let start := if decide (num_jnts = 0%Z) then (-1)%Z else 0%Z in
  foldl (fun sc i => set_rgba body_id i white sc) sc (range start num_jnts).

Definition whiten_materials (body_id link_id : option Z) (sc : scene)
  : scene :=
  match body_id with
  | None =>
      let body_num := getNumBodies lib (pb_util.calls (module sc)) in
      foldl
        (fun sc body_idx =>
           if negb (_check_body_exist body_idx sc) then sc
           else whiten_links body_idx sc)
        sc (range 0 body_num)
  | Some body_id =>
      match link_id with
      | None => whiten_links body_id sc
      | Some link_id => set_rgba body_id link_id white sc
      end
  end.

End Methods.

(** Whether a call changes the colour of a link of the body [body_id]. *)
Definition on_body (body_id : Z) (c : pb_util.pb_call) : bool :=
  match c with
  | pb_util.p_changeVisualShape_rgbaColor b _ _ _ => bool_decide (b = body_id)
  | _ => false
  end.

(** A call that whitens a link of a body below [body_num]. *)
Definition whitens (client : option Z) (body_num : Z) (c : pb_util.pb_call)
  : Prop :=
  exists body_id link_id,
    c = pb_util.p_changeVisualShape_rgbaColor body_id link_id white client /\
    (0 <= body_id < body_num)%Z.

End TextureModder.

(** Libraries that read every image as 480 by 640, number the textures by
    the calls made, and know two bodies without joints, the second of which
    has been removed. *)
Definition studio : TextureModder.libraries :=
  {| TextureModder.imread := fun _ => (480, 640)%Z;
     TextureModder.loadTexture := fun h _ => Z.of_nat (length h);
     TextureModder.getNumBodies := fun _ => 2%Z;
     TextureModder.getBodyInfo_succeeds := fun _ b => bool_decide (b = 0%Z);
     TextureModder.getNumJoints := fun _ _ => 0%Z;
     TextureModder.gradient_pixels := fun _ _ _ _ _ => [];
     TextureModder.noise_pixels := fun _ _ _ _ _ _ => Returns [] |}.

(** ** [airobot.utils.urscript_util]: URScript programs *)

Module urscript_util.
Import Stdlib.Strings.Ascii.

(** A value handed to [str.format]: a string or an integer. *)
Inductive value :=
  | Str (s : string)
  | Int (z : Z).

(** ["{}".format(v)] *)
Definition format (v : value) : string :=
  match v with
  | Str s => s
  | Int z => pretty z
  end.

(** The characters that the literals of the module escape. *)
Definition nl : string := String "010"%char EmptyString.
Definition tab : string := String "009"%char EmptyString.
Definition dq : string := String "034"%char EmptyString.

(** The fields of [URScript] but for the logger. *)
Record URScript := {
  header : string;
  program : string
}.

Definition __init__ : URScript :=
  {| header := EmptyString; program := EmptyString |}.

Definition __call__ (self : URScript) : string :=
  if decide (program self = EmptyString) then EmptyString
  else
    let myprog := "def myProg():" +:+ program self +:+ nl +:+ "end" in
    let script := EmptyString in
    let script :=
      if decide (header self <> EmptyString)
      then header self +:+ nl +:+ nl
      else script in
    script +:+ myprog.

Definition reset (self : URScript) : URScript :=
  {| header := EmptyString; program := EmptyString |}.

Definition _add_header_to_program (header_line : string) (self : URScript)
  : URScript :=
  {| header := header self +:+ nl +:+ header_line; program := program self |}.

Definition _add_line_to_program (new_line : string) (self : URScript)
  : URScript :=
  {| header := header self;
     program := program self +:+ nl +:+ tab +:+ new_line |}.

Definition constrain_unsigned_char (value : value) : outcome Z :=
  match value with
  | Int value =>
      if (value <? 0)%Z then Returns 0%Z
      else if (value >? 255)%Z then Returns 255%Z
      else Returns value
  | Str _ => Raises AssertionError
  end.

Definition sync (self : URScript) : URScript :=
  let msg := "sync()" in
  _add_line_to_program msg self.

Definition sleep (value : value) (self : URScript) : URScript :=
  let msg := "sleep(" +:+ format value +:+ ")" in
  _add_line_to_program msg self.

Definition socket_open (socket_host socket_port socket_name : value)
    (self : URScript) : URScript :=
  let msg :=
    "socket_open(" +:+ dq +:+ format socket_host +:+ dq +:+ "," +:+
    format socket_port +:+ "," +:+ dq +:+ format socket_name +:+ dq +:+ ")" in
  _add_line_to_program msg self.

Definition socket_close (socket_name : value) (self : URScript) : URScript :=
  let msg := "socket_close(" +:+ dq +:+ format socket_name +:+ dq +:+ ")" in
  _add_line_to_program msg self.

Definition socket_get_var (var socket_name : value) (self : URScript)
  : URScript :=
  let msg :=
    "socket_get_var(" +:+ dq +:+ format var +:+ dq +:+ "," +:+
    dq +:+ format socket_name +:+ dq +:+ ")" in
  sync (_add_line_to_program msg self).

Definition socket_set_var (var value socket_name : value) (self : URScript)
  : URScript :=
  let msg :=
    "socket_set_var(" +:+ dq +:+ format var +:+ dq +:+ "," +:+
    format value +:+ "," +:+ dq +:+ format socket_name +:+ dq +:+ ")" in
  sync (_add_line_to_program msg self).

Definition socket_read_byte_list (nbytes socket_name : value)
    (self : URScript) : URScript :=
  let msg :=
    "global var_value = socket_read_byte_list(" +:+ format nbytes +:+ "," +:+
    dq +:+ format socket_name +:+ dq +:+ ")" in
  sync (_add_line_to_program msg self).

Definition socket_send_string (message socket_name : value)
    (self : URScript) : URScript :=
  let msg :=
    "socket_send_string(" +:+ dq +:+ format message +:+ dq +:+ "," +:+
    dq +:+ format socket_name +:+ dq +:+ ")" in
  sync (_add_line_to_program msg self).

(** [Robotiq2F140URScript]: the fields it adds, and the [URScript] it is. *)
Record Robotiq2F140URScript := {
  socket_host : value;
  socket_port : value;
  socket_name : value;
  script : URScript
}.

Definition with_script (self : Robotiq2F140URScript) (s : URScript)
  : Robotiq2F140URScript :=
  {| socket_host := socket_host self; socket_port := socket_port self;
     socket_name := socket_name self; script := s |}.

(** [Robotiq2F140URScript.__init__] *)
Definition Robotiq2F140URScript__init__
    (socket_host socket_port socket_name : value) : Robotiq2F140URScript :=
  {| socket_host := socket_host; socket_port := socket_port;
     socket_name := socket_name;
     script :=
       socket_open socket_host socket_port socket_name
         (socket_close socket_name __init__) |}.

Definition set_activate (self : Robotiq2F140URScript)
  : Robotiq2F140URScript :=
  with_script self
    (socket_set_var (Str "ACT") (Int 1) (socket_name self) (script self)).

Definition set_gripper_position (position : value)
    (self : Robotiq2F140URScript) : outcome Robotiq2F140URScript :=
  match constrain_unsigned_char position with
  | Returns position =>
      Returns (with_script self
                 (socket_set_var (Str "POS") (Int position)
                    (socket_name self) (script self)))
  | Raises e => Raises e
  end.

Definition set_gripper_speed (speed : value)
    (self : Robotiq2F140URScript) : outcome Robotiq2F140URScript :=
  match constrain_unsigned_char speed with
  | Returns speed =>
      Returns (with_script self
                 (socket_set_var (Str "SPE") (Int speed)
                    (socket_name self) (script self)))
  | Raises e => Raises e
  end.

Definition set_gripper_force (force : value)
    (self : Robotiq2F140URScript) : outcome Robotiq2F140URScript :=
  match constrain_unsigned_char force with
  | Returns force =>
      Returns (with_script self
                 (socket_set_var (Str "FOR") (Int force)
                    (socket_name self) (script self)))
  | Raises e => Raises e
  end.

(** The text that a list of lines adds to a program. *)
Definition lines_text (lines : list string) : string :=
  foldr (fun line text => nl +:+ tab +:+ line +:+ text) EmptyString lines.

(** The line that sets a variable of the gripper. *)
Definition set_var_line (var : string) (z : Z) (socket_name : value)
  : string :=
  "socket_set_var(" +:+ dq +:+ var +:+ dq +:+ "," +:+ pretty z +:+ "," +:+
  dq +:+ format socket_name +:+ dq +:+ ")".

End urscript_util.

(** ** Running the monad *)

Ltac unfold_M :=
  unfold mbind, M_bind, bind, mret, M_ret, ret, raise, lift, get_self,
    history, emit, getitem, getitem_dict, index_of in *.

Ltac run_M := repeat progress (unfold_M; cbv beta iota).

Lemma bind_returns {A B} (m : M A) (k : A -> M B) w a w' :
  m w = (Returns a, w') -> (m ≫= k) w = k a w'.
Proof. intros H. unfold mbind, M_bind, bind. by rewrite H. Qed.

Lemma world_eta w : World (self w) (trace w) = w.
Proof. by destruct w. Qed.

(** ** [index] and the set of joint names *)

Lemma index_Some_lt l x i : index l x = Some i -> i < length l.
Proof.
  revert i. induction l as [|y l IH]; intros i; simpl; [done|].
  destruct (decide (y = x)); intros H.
  - injection H as <-. lia.
  - destruct (index l x) as [j|]; simpl in H; [|done].
    injection H as <-. specialize (IH j eq_refl). lia.
Qed.

Lemma index_Some_elem_of l x i : index l x = Some i -> x ∈ l.
Proof.
  revert i. induction l as [|y l IH]; intros i; simpl; [done|].
  destruct (decide (y = x)) as [->|]; intros H; [by left|].
  destruct (index l x) as [j|]; simpl in H; [|done].
  right. by eapply IH.
Qed.

Lemma elem_of_index l x : x ∈ l -> is_Some (index l x).
Proof.
  induction l as [|y l IH]; intros H; [by apply elem_of_nil in H|].
  simpl. destruct (decide (y = x)) as [|Hne]; [done|].
  apply elem_of_cons in H as [->|H]; [done|].
  destruct (IH H) as [j ->]. done.
Qed.

Lemma elem_of_arm_jnt_names_set s x :
  x ∈ arm_jnt_names_set s <-> x ∈ arm_jnt_names s.
Proof. unfold arm_jnt_names_set. by rewrite elem_of_list_to_set. Qed.

Lemma all_false_elem_of l : false ∈ l -> all l = false.
Proof.
  unfold all. induction l as [|b l IH]; intros H; [by apply elem_of_nil in H|].
  simpl. apply elem_of_cons in H as [<-|H]; [done|].
  rewrite (IH H). by destruct b.
Qed.

Lemma all_replicate_false n : 0 < n -> all (replicate n false) = false.
Proof. destruct n; [lia|done]. Qed.

Lemma all_true_iff l : all l = true <-> (forall b, b ∈ l -> b = true).
Proof.
  unfold all. rewrite forallb_forall. split; intros H b Hb; apply H.
  - by apply list_elem_of_In.
  - by apply list_elem_of_In.
Qed.

(** ** The torque guard *)

Section TorqueGuard.
Lemma _is_in_torque_mode_all w :
  _is_in_torque_mode None w = (Returns (all (_in_torque_mode (self w))), w).
Proof. done. Qed.

Lemma _is_in_torque_mode_named w name i b :
  index (arm_jnt_names (self w)) name = Some i ->
  _in_torque_mode (self w) !! i = Some b ->
  _is_in_torque_mode (Some name) w = (Returns b, w).
Proof.
  intros Hi Hb. unfold _is_in_torque_mode. run_M.
  rewrite Hi. run_M. by rewrite Hb.
Qed.

Lemma set_jtorq_refused torque joint_name wait w :
  _is_in_torque_mode joint_name w = (Returns false, w) ->
  set_jtorq torque joint_name wait w = (Raises RuntimeError, w).
Proof. intros H. unfold set_jtorq. by rewrite (bind_returns _ _ _ _ _ H). Qed.

Lemma set_jtorq_all_issued xs wait w :
  all (_in_torque_mode (self w)) = true ->
  length xs = arm_dof (self w) ->
  set_jtorq (PyList xs) None wait w =
    (Returns true,
     World (self w)
       (trace w ++ [p_setJointMotorControlArray (robot_id (self w))
                      (arm_jnt_ids (self w)) TORQUE_CONTROL None
                      (PyList xs)])).
Proof.
  intros Hall Hlen. unfold set_jtorq.
  rewrite (bind_returns _ _ _ _ _ (_is_in_torque_mode_all w)), Hall.
  run_M. simpl. rewrite decide_False by (by intros []). by run_M.
Qed.

Lemma set_jtorq_named_issued torque name i jid wait w :
  index (arm_jnt_names (self w)) name = Some i ->
  _in_torque_mode (self w) !! i = Some true ->
  jnt_to_id (self w) !! name = Some jid ->
  set_jtorq torque (Some name) wait w =
    (Returns true,
     World (self w)
       (trace w ++ [p_setJointMotorControl2 (robot_id (self w)) jid
                      TORQUE_CONTROL None torque])).
Proof.
  intros Hi Hb Hid. unfold set_jtorq.
  rewrite (bind_returns _ _ _ _ _ (_is_in_torque_mode_named w name i true Hi Hb)).
  run_M. simpl. rewrite decide_False.
  - rewrite Hid. by run_M.
  - intros Hn. apply Hn, elem_of_arm_jnt_names_set.
    by eapply index_Some_elem_of.
Qed.

(** C1. [set_jtorq] raises [RuntimeError] and leaves the world as it was,
    so issues no command, when a joint it addresses is not flagged in torque
    mode: for the whole arm when some flag is [False] (the check is [all]
    of the flags), for a named joint when its own flag is [False].  When the
    check passes and the goal is valid (a list of [arm_dof] torques for the
    whole arm, a joint of the arm otherwise) it issues the one
    torque-control command and returns [True]. *)
Theorem set_jtorq_mode_guard w :
  _is_in_torque_mode None w = (Returns (all (_in_torque_mode (self w))), w) /\
  (forall torque wait,
     false ∈ _in_torque_mode (self w) ->
     set_jtorq torque None wait w = (Raises RuntimeError, w)) /\
  (forall torque name i wait,
     index (arm_jnt_names (self w)) name = Some i ->
     _in_torque_mode (self w) !! i = Some false ->
     set_jtorq torque (Some name) wait w = (Raises RuntimeError, w)) /\
  (forall xs wait,
     (forall b, b ∈ _in_torque_mode (self w) -> b = true) ->
     length xs = arm_dof (self w) ->
     set_jtorq (PyList xs) None wait w =
       (Returns true,
        World (self w)
          (trace w ++ [p_setJointMotorControlArray (robot_id (self w))
                         (arm_jnt_ids (self w)) TORQUE_CONTROL None
                         (PyList xs)]))) /\
  (forall torque name i jid wait,
     index (arm_jnt_names (self w)) name = Some i ->
     _in_torque_mode (self w) !! i = Some true ->
     jnt_to_id (self w) !! name = Some jid ->
     set_jtorq torque (Some name) wait w =
       (Returns true,
        World (self w)
          (trace w ++ [p_setJointMotorControl2 (robot_id (self w)) jid
                         TORQUE_CONTROL None torque]))).
Proof.
  split; [done|]. split; [|split; [|split]].
  - intros torque wait Hf. apply set_jtorq_refused.
    rewrite _is_in_torque_mode_all. by rewrite all_false_elem_of.
  - intros torque name i wait Hi Hb. apply set_jtorq_refused.
    by eapply _is_in_torque_mode_named.
  - intros xs wait Hall Hlen. apply set_jtorq_all_issued; [|done].
    by apply all_true_iff.
  - intros torque name i jid wait. apply set_jtorq_named_issued.
Qed.

End TorqueGuard.

(** ** Velocity and position commands *)

Section Commands.
Context (env : environment).

Lemma set_jvel_all_issued xs w :
  length xs = arm_dof (self w) ->
  set_jvel env (PyList xs) None false w =
    (Returns (negb (_step_sim_mode (self w))),
     World (self w) (trace w ++ [velocity_array (self w) (PyList xs)])).
Proof.
  intros Hlen. unfold set_jvel. run_M. simpl.
  rewrite decide_False by (by intros []). run_M. simpl.
  by destruct (_step_sim_mode (self w)).
Qed.

Lemma set_jvel_named_issued velocity name i max_torque jid w :
  index (arm_jnt_names (self w)) name = Some i ->
  _max_torques (self w) !! i = Some max_torque ->
  jnt_to_id (self w) !! name = Some jid ->
  set_jvel env velocity (Some name) false w =
    (Returns (negb (_step_sim_mode (self w))),
     World (self w)
       (trace w ++ [p_setJointMotorControl2 (robot_id (self w)) jid
                      VELOCITY_CONTROL (Some velocity)
                      (PyFloat max_torque)])).
Proof.
  intros Hi Hmt Hid. unfold set_jvel. run_M.
  rewrite decide_False.
  2:{ intros Hn. apply Hn, elem_of_arm_jnt_names_set.
      by eapply index_Some_elem_of. }
  rewrite Hi. run_M. rewrite Hmt. run_M. rewrite Hid. run_M. simpl.
  by destruct (_step_sim_mode (self w)).
Qed.

(** C2. A whole-arm goal whose length is not [arm_dof] makes [set_jpos] and
    [set_jvel] raise [ValueError] with the world, and so the trace of
    calls, as it was: nothing was commanded and no joint was reset. *)
Theorem wrong_length_goal_rejected xs wait ignore_physics w :
  length xs <> arm_dof (self w) ->
  set_jpos env (PyList xs) None wait ignore_physics w
    = (Raises ValueError, w) /\
  set_jvel env (PyList xs) None wait w = (Raises ValueError, w).
Proof.
  intros Hlen. split.
  - unfold set_jpos. run_M. simpl. rewrite decide_True by done. by run_M.
  - unfold set_jvel. run_M. simpl. rewrite decide_True by done. by run_M.
Qed.

(** C5, as the code has it.  With [wait=False] and a valid goal, [set_jvel]
    issues the velocity command and returns [not self._step_sim_mode]:
    [True] in realtime simulation, [False] in step simulation. *)
Theorem set_jvel_no_wait_returns w :
  (forall xs,
     length xs = arm_dof (self w) ->
     set_jvel env (PyList xs) None false w =
       (Returns (negb (_step_sim_mode (self w))),
        World (self w) (trace w ++ [velocity_array (self w) (PyList xs)]))) /\
  (forall velocity name i max_torque jid,
     index (arm_jnt_names (self w)) name = Some i ->
     _max_torques (self w) !! i = Some max_torque ->
     jnt_to_id (self w) !! name = Some jid ->
     set_jvel env velocity (Some name) false w =
       (Returns (negb (_step_sim_mode (self w))),
        World (self w)
          (trace w ++ [p_setJointMotorControl2 (robot_id (self w)) jid
                         VELOCITY_CONTROL (Some velocity)
                         (PyFloat max_torque)]))).
Proof.
  split.
  - intros xs. apply set_jvel_all_issued.
  - intros velocity name i max_torque jid. apply set_jvel_named_issued.
Qed.

(** ** Leaving torque mode *)

Lemma disable_torque_control_all w :
  disable_torque_control env None w =
    (Returns tt,
     World (with__in_torque_mode (self w) (replicate (arm_dof (self w)) false))
       (trace w ++ [velocity_array (self w)
                      (PyList (replicate (arm_dof (self w)) 0%float))])).
Proof.
  unfold disable_torque_control. run_M.
  rewrite set_jvel_all_issued by apply length_replicate. by run_M.
Qed.

Lemma disable_torque_control_named name i max_torque jid w :
  index (arm_jnt_names (self w)) name = Some i ->
  _max_torques (self w) !! i = Some max_torque ->
  jnt_to_id (self w) !! name = Some jid ->
  i < length (_in_torque_mode (self w)) ->
  disable_torque_control env (Some name) w =
    (Returns tt,
     World (with__in_torque_mode (self w)
              (<[i := false]> (_in_torque_mode (self w))))
       (trace w ++ [p_setJointMotorControl2 (robot_id (self w)) jid
                      VELOCITY_CONTROL (Some (PyFloat 0%float))
                      (PyFloat max_torque)])).
Proof.
  intros Hi Hmt Hid Hlt. unfold disable_torque_control. run_M.
  rewrite (set_jvel_named_issued _ _ _ _ _ w Hi Hmt Hid).
  run_M. simpl. rewrite Hi. run_M.
  unfold setitem__in_torque_mode. run_M. simpl.
  by rewrite decide_True by done.
Qed.

(** C4, as the code has it.  [disable_torque_control] clears the flag of the
    joint it names, or of every joint, after commanding velocity control with
    target velocity zero; the force of that command is the configured maximum
    torque of the joint(s), [self._max_torques], as in every [set_jvel]. *)
Theorem disable_torque_control_velocity_mode w :
  (exists w',
     disable_torque_control env None w = (Returns tt, w') /\
     _in_torque_mode (self w') = replicate (arm_dof (self w)) false /\
     trace w' =
       trace w ++ [p_setJointMotorControlArray (robot_id (self w))
                     (arm_jnt_ids (self w)) VELOCITY_CONTROL
                     (Some (PyList (replicate (arm_dof (self w)) 0%float)))
                     (PyList (_max_torques (self w)))]) /\
  (forall name i max_torque jid,
     index (arm_jnt_names (self w)) name = Some i ->
     _max_torques (self w) !! i = Some max_torque ->
     jnt_to_id (self w) !! name = Some jid ->
     i < length (_in_torque_mode (self w)) ->
     exists w',
       disable_torque_control env (Some name) w = (Returns tt, w') /\
       _in_torque_mode (self w') !! i = Some false /\
       trace w' =
         trace w ++ [p_setJointMotorControl2 (robot_id (self w)) jid
                       VELOCITY_CONTROL (Some (PyFloat 0%float))
                       (PyFloat max_torque)]).
Proof.
  split.
  - eexists. split; [apply disable_torque_control_all|]. done.
  - intros name i max_torque jid Hi Hmt Hid Hlt.
    eexists. split; [by eapply disable_torque_control_named|].
    split; [|done]. simpl. by apply list_lookup_insert_eq.
Qed.

(** ** Hard reset of the joints *)

Lemma for_enumerate_reset xs names ids idx w :
  Forall2 (fun jnt id => jnt_to_id (self w) !! jnt = Some id) names ids ->
  idx + length names <= length xs ->
  for_enumerate
    (fun idx jnt =>
       tgt ← getitem xs idx; reset_joint_state jnt (PyFloat tgt) jvel_default)
    idx names w =
  (Returns tt,
   World (self w)
     (trace w ++ zip_with (reset_call (self w)) ids (drop idx xs))).
Proof.
  revert ids idx w.
  induction names as [|jnt names IH]; intros ids idx w Hids Hlen.
  - apply Forall2_nil_inv_l in Hids as ->. simpl. run_M.
    by rewrite app_nil_r, world_eta.
  - apply Forall2_cons_inv_l in Hids as (id & ids' & Hid & Hids & ->).
    simpl in Hlen.
    destruct (lookup_lt_is_Some_2 xs idx) as [x Hx]; [lia|].
    rewrite (drop_S _ _ _ Hx). cbn [for_enumerate].
    unfold reset_joint_state. run_M. rewrite Hx. run_M. rewrite Hid. run_M.
    rewrite (IH ids'); [|exact Hids|simpl; lia]. cbn [self trace].
    by rewrite <- app_assoc.
Qed.

Lemma set_jpos_all_ignore_physics xs wait w :
  length xs = arm_dof (self w) ->
  built (self w) ->
  set_jpos env (PyList xs) None wait true w =
    (Returns true,
     World (self w)
       (trace w ++
        velocity_array (self w) (PyList (replicate (arm_dof (self w)) 0%float))
        :: zip_with (reset_call (self w)) (arm_jnt_ids (self w)) xs)).
Proof.
  intros Hlen Hbuilt. unfold set_jpos. run_M. simpl.
  rewrite decide_False by (by intros []). run_M.
  rewrite set_jvel_all_issued by apply length_replicate. run_M.
  rewrite (for_enumerate_reset xs _ (arm_jnt_ids (self w)));
    [|exact Hbuilt|]; cbn [self trace].
  2:{ unfold arm_dof in Hlen. lia. }
  rewrite andb_false_r. rewrite drop_0. by rewrite <- app_assoc.
Qed.

Lemma set_jpos_named_ignore_physics position name i max_torque jid wait w :
  index (arm_jnt_names (self w)) name = Some i ->
  _max_torques (self w) !! i = Some max_torque ->
  jnt_to_id (self w) !! name = Some jid ->
  set_jpos env position (Some name) wait true w =
    (Returns true,
     World (self w)
       (trace w ++
        [p_setJointMotorControl2 (robot_id (self w)) jid VELOCITY_CONTROL
           (Some (PyFloat 0%float)) (PyFloat max_torque);
         p_resetJointState (robot_id (self w)) jid position jvel_default])).
Proof.
  intros Hi Hmt Hid. unfold set_jpos. run_M.
  rewrite decide_False.
  2:{ intros Hn. apply Hn, elem_of_arm_jnt_names_set.
      by eapply index_Some_elem_of. }
  rewrite Hi. run_M. rewrite Hmt. run_M. rewrite Hid. run_M.
  rewrite (set_jvel_named_issued _ _ _ _ _ w Hi Hmt Hid). run_M.
  unfold reset_joint_state. run_M. cbn [self trace]. rewrite Hid. run_M.
  cbn [self trace]. rewrite andb_false_r. by rewrite <- app_assoc.
Qed.

(** C9. With [ignore_physics=True] and a valid goal, [set_jpos] first commands
    zero velocity, then resets each addressed joint to its target with
    [p.resetJointState], calls the convergence waiter not at all, and returns
    [True], whatever [wait] and the simulation mode are. *)
Theorem set_jpos_ignore_physics wait w :
  (forall xs,
     length xs = arm_dof (self w) ->
     built (self w) ->
     exists issued,
       set_jpos env (PyList xs) None wait true w =
         (Returns true, World (self w) (trace w ++ issued)) /\
       issued =
         velocity_array (self w)
           (PyList (replicate (arm_dof (self w)) 0%float))
         :: zip_with (reset_call (self w)) (arm_jnt_ids (self w)) xs /\
       forallb (fun c => negb (is_wait c)) issued = true) /\
  (forall position name i max_torque jid,
     index (arm_jnt_names (self w)) name = Some i ->
     _max_torques (self w) !! i = Some max_torque ->
     jnt_to_id (self w) !! name = Some jid ->
     exists issued,
       set_jpos env position (Some name) wait true w =
         (Returns true, World (self w) (trace w ++ issued)) /\
       issued =
         [p_setJointMotorControl2 (robot_id (self w)) jid VELOCITY_CONTROL
            (Some (PyFloat 0%float)) (PyFloat max_torque);
          p_resetJointState (robot_id (self w)) jid position jvel_default] /\
       forallb (fun c => negb (is_wait c)) issued = true).
Proof.
  split.
  - intros xs Hlen Hbuilt. eexists. split; [|split; [reflexivity|]].
    + by apply set_jpos_all_ignore_physics.
    + simpl. clear Hlen Hbuilt. generalize (arm_jnt_ids (self w)) as ids.
      induction xs as [|x xs' IH]; intros [|id ids]; simpl; by auto.
  - intros position name i max_torque jid Hi Hmt Hid.
    eexists. split; [|split; [reflexivity|done]].
    by eapply set_jpos_named_ignore_physics.
Qed.

(** ** The physics path of [set_jpos] *)

Lemma set_jpos_all_physics xs wait w :
  length xs = arm_dof (self w) ->
  set_jpos env (PyList xs) None wait false w =
    let w1 :=
      World (self w) (trace w ++ [position_array (self w) (PyList xs)]) in
    if negb (_step_sim_mode (self w)) && wait
    then
      (Returns (wait_to_reach_jnt_goal env (trace w1) (PyList xs) None get_jpos
                  (Some get_jvel) (TIMEOUT_LIMIT (cfgs (self w)))
                  (MAX_JOINT_ERROR (cfgs (self w)))),
       World (self w) (trace w1 ++ [wait_jpos (self w) (PyList xs) None]))
    else (Returns false, w1).
Proof.
  intros Hlen. unfold set_jpos. run_M. simpl.
  rewrite decide_False by (by intros []). run_M. cbn [self trace].
  rewrite andb_true_r.
  destruct (negb (_step_sim_mode (self w)) && wait); [|done].
  unfold call_wait. by run_M.
Qed.

Lemma set_jpos_named_physics position name i max_torque jid wait w :
  index (arm_jnt_names (self w)) name = Some i ->
  _max_torques (self w) !! i = Some max_torque ->
  jnt_to_id (self w) !! name = Some jid ->
  set_jpos env position (Some name) wait false w =
    let w1 :=
      World (self w)
        (trace w ++ [p_setJointMotorControl2 (robot_id (self w)) jid
                       POSITION_CONTROL (Some position)
                       (PyFloat max_torque)]) in
    if negb (_step_sim_mode (self w)) && wait
    then
      (Returns (wait_to_reach_jnt_goal env (trace w1) position (Some name)
                  get_jpos (Some get_jvel) (TIMEOUT_LIMIT (cfgs (self w)))
                  (MAX_JOINT_ERROR (cfgs (self w)))),
       World (self w) (trace w1 ++ [wait_jpos (self w) position (Some name)]))
    else (Returns false, w1).
Proof.
  intros Hi Hmt Hid. unfold set_jpos. run_M.
  rewrite decide_False.
  2:{ intros Hn. apply Hn, elem_of_arm_jnt_names_set.
      by eapply index_Some_elem_of. }
  rewrite Hi. run_M. rewrite Hmt. run_M. rewrite Hid. run_M.
  cbn [self trace]. rewrite andb_true_r.
  destruct (negb (_step_sim_mode (self w)) && wait); [|done].
  unfold call_wait. by run_M.
Qed.

Lemma set_jpos_physics_true position joint_name wait w w' :
  set_jpos env position joint_name wait false w = (Returns true, w') ->
  wait = true /\ _step_sim_mode (self w) = false /\
  exists h,
    trace w' = h ++ [wait_jpos (self w) position joint_name] /\
    wait_to_reach_jnt_goal env h position joint_name get_jpos (Some get_jvel)
      (TIMEOUT_LIMIT (cfgs (self w))) (MAX_JOINT_ERROR (cfgs (self w))) = true.
Proof.
  destruct joint_name as [name|].
  - destruct (decide (name ∉ arm_jnt_names_set (self w))) as [Hn|Hn].
    { unfold set_jpos. run_M. rewrite decide_True by done. by run_M. }
    destruct (index (arm_jnt_names (self w)) name) as [i|] eqn:Hi.
    2:{ unfold set_jpos. run_M. rewrite decide_False by done.
        rewrite Hi. by run_M. }
    destruct (_max_torques (self w) !! i) as [max_torque|] eqn:Hmt.
    2:{ unfold set_jpos. run_M. rewrite decide_False by done.
        rewrite Hi. run_M. rewrite Hmt. by run_M. }
    destruct (jnt_to_id (self w) !! name) as [jid|] eqn:Hid.
    2:{ unfold set_jpos. run_M. rewrite decide_False by done.
        rewrite Hi. run_M. rewrite Hmt. run_M. rewrite Hid. by run_M. }
    rewrite (set_jpos_named_physics _ _ _ _ _ _ _ Hi Hmt Hid). cbv zeta.
    destruct (_step_sim_mode (self w)), wait; simpl; try done.
    intros [= Hres <-]. repeat split. eexists. by split.
  - destruct position as [x|xs].
    { unfold set_jpos. by run_M. }
    destruct (decide (length xs = arm_dof (self w))) as [Hlen|Hlen].
    2:{ unfold set_jpos. run_M. simpl. rewrite decide_True by done.
        by run_M. }
    rewrite (set_jpos_all_physics _ _ _ Hlen). cbv zeta.
    destruct (_step_sim_mode (self w)), wait; simpl; try done.
    intros [= Hres <-]. repeat split. eexists. by split.
Qed.

(** C10. On the physics path ([ignore_physics=False]) a valid goal makes
    [set_jpos] issue the position-control command and return [False] when
    [wait=False] or the simulator is in step mode.  [True] comes only from the
    [ignore_physics] branch or from the convergence waiter: when [set_jpos]
    returns [True] with [ignore_physics=False], the waiter was the last call
    made and [True] is what it answered. *)
Theorem set_jpos_true_only_from_waiter w :
  (forall xs wait,
     length xs = arm_dof (self w) ->
     wait = false \/ _step_sim_mode (self w) = true ->
     set_jpos env (PyList xs) None wait false w =
       (Returns false,
        World (self w) (trace w ++ [position_array (self w) (PyList xs)]))) /\
  (forall position name i max_torque jid wait,
     index (arm_jnt_names (self w)) name = Some i ->
     _max_torques (self w) !! i = Some max_torque ->
     jnt_to_id (self w) !! name = Some jid ->
     wait = false \/ _step_sim_mode (self w) = true ->
     set_jpos env position (Some name) wait false w =
       (Returns false,
        World (self w)
          (trace w ++ [p_setJointMotorControl2 (robot_id (self w)) jid
                         POSITION_CONTROL (Some position)
                         (PyFloat max_torque)]))) /\
  (forall position joint_name wait ignore_physics w',
     set_jpos env position joint_name wait ignore_physics w
       = (Returns true, w') ->
     ignore_physics = true \/
     (wait = true /\ _step_sim_mode (self w) = false /\
      exists h,
        trace w' = h ++ [wait_jpos (self w) position joint_name] /\
        wait_to_reach_jnt_goal env h position joint_name get_jpos
          (Some get_jvel) (TIMEOUT_LIMIT (cfgs (self w)))
          (MAX_JOINT_ERROR (cfgs (self w))) = true)).
Proof.
  split; [|split].
  - intros xs wait Hlen Hnw. rewrite (set_jpos_all_physics _ _ _ Hlen).
    cbv zeta. destruct Hnw as [-> | ->]; [|done]. by rewrite andb_false_r.
  - intros position name i max_torque jid wait Hi Hmt Hid Hnw.
    rewrite (set_jpos_named_physics _ _ _ _ _ _ _ Hi Hmt Hid).
    cbv zeta. destruct Hnw as [-> | ->]; [|done]. by rewrite andb_false_r.
  - intros position joint_name wait [|] w' Hres; [by left|right].
    by apply set_jpos_physics_true.
Qed.

(** ** The round trip through torque mode *)

Lemma enable_torque_control_all w :
  enable_torque_control None w =
    (Returns tt,
     World (with__in_torque_mode (self w) (replicate (arm_dof (self w)) true))
       (trace w ++
        [p_setJointMotorControlArray (robot_id (self w)) (arm_jnt_ids (self w))
           VELOCITY_CONTROL
           (Some (PyList (replicate (arm_dof (self w)) 0%float)))
           (PyList (replicate (arm_dof (self w)) 0%float))])).
Proof. done. Qed.

(** C6. From any state of an arm, [enable_torque_control()] followed by
    [disable_torque_control()] both return and leave [False] in every
    per-joint flag; a [set_jtorq] that follows, for the whole arm (of at
    least one joint) or for a joint of the arm, raises [RuntimeError] and
    leaves the world as it was: no torque command is issued. *)
Theorem torque_mode_round_trip torque joint_name wait w :
  match joint_name with
  | None => arm_jnt_names (self w) <> []
  | Some name => name ∈ arm_jnt_names (self w)
  end ->
  exists w1 w2,
    enable_torque_control None w = (Returns tt, w1) /\
    disable_torque_control env None w1 = (Returns tt, w2) /\
    _in_torque_mode (self w2) = replicate (arm_dof (self w)) false /\
    set_jtorq torque joint_name wait w2 = (Raises RuntimeError, w2).
Proof.
  intros Haddr. do 2 eexists.
  split; [apply enable_torque_control_all|].
  split; [apply disable_torque_control_all|].
  split; [done|].
  apply set_jtorq_refused. destruct joint_name as [name|].
  - destruct (elem_of_index _ _ Haddr) as [i Hi].
    apply (_is_in_torque_mode_named _ name i); [done|].
    cbn. apply lookup_replicate_2. by eapply index_Some_lt.
  - rewrite _is_in_torque_mode_all. cbn.
    rewrite all_replicate_false; [done|].
    unfold arm_dof. destruct (arm_jnt_names (self w)); [done|simpl; lia].
Qed.

(** ** Straight-line moves of the end effector *)

(** C7. In step simulation [move_ee_xyz] raises [AssertionError] at once,
    with the world as it was: the pose is not read, no inverse kinematics is
    asked for and no joint is commanded. *)
Theorem move_ee_xyz_step_sim delta_xyz eef_step w :
  _step_sim_mode (self w) = true ->
  move_ee_xyz env delta_xyz eef_step w = (Raises AssertionError, w).
Proof. intros Hmode. unfold move_ee_xyz. run_M. by rewrite Hmode. Qed.

Lemma get_ee_pose_returns w :
  get_ee_pose env w =
    (let info := getLinkState env (trace w) (robot_id (self w))
                   (ee_link_id (self w)) in
     Returns (info.1, info.2, quat2rot env info.2, quat2euler env info.2),
     World (self w)
       (trace w ++ [p_getLinkState (robot_id (self w)) (ee_link_id (self w))])).
Proof. done. Qed.

Lemma compute_ik_returns pos ori w :
  compute_ik env pos ori w =
    (Returns
       (take (arm_dof (self w))
          (calculateInverseKinematics env (trace w) (robot_id (self w))
             (ee_link_id (self w)) pos (to_quat env <$> ori)
             (_ik_jds (self w)))),
     World (self w)
       (trace w ++ [p_calculateInverseKinematics (robot_id (self w))
                      (ee_link_id (self w)) pos (to_quat env <$> ori)
                      (_ik_jds (self w))])).
Proof. done. Qed.

Lemma for_append_compute_ik ori wps w :
  exists js w1,
    for_append (fun wp => compute_ik env wp ori) wps w = (Returns js, w1) /\
    self w1 = self w /\
    length js = length wps /\
    ((forall h r l pos o jd,
        arm_dof (self w) <= length (calculateInverseKinematics env h r l pos o jd)) ->
     Forall (fun j => length j = arm_dof (self w)) js).
Proof.
  revert w. induction wps as [|wp wps IH]; intros w.
  - exists [], w. by repeat split.
  - pose (w0 := World (self w)
                  (trace w ++ [p_calculateInverseKinematics (robot_id (self w))
                                 (ee_link_id (self w)) wp (to_quat env <$> ori)
                                 (_ik_jds (self w))])).
    destruct (IH w0) as (js & w1 & Hjs & Hself & Hlen & Hdof).
    eexists (_ :: js), w1. cbn [for_append].
    rewrite (bind_returns _ _ _ _ _ (compute_ik_returns wp ori w)).
    fold w0. rewrite (bind_returns _ _ _ _ _ Hjs).
    repeat split; [done|simpl; lia|].
    intros Hik. constructor; [|by apply Hdof].
    rewrite length_take. specialize (Hik (trace w) (robot_id (self w))
      (ee_link_id (self w)) wp (to_quat env <$> ori) (_ik_jds (self w))). lia.
Qed.

Lemma set_jpos_all_physics_returns xs wait w :
  length xs = arm_dof (self w) ->
  exists b w',
    set_jpos env (PyList xs) None wait false w = (Returns b, w') /\
    self w' = self w.
Proof.
  intros Hlen. rewrite (set_jpos_all_physics _ _ _ Hlen). cbv zeta.
  destruct (negb (_step_sim_mode (self w)) && wait); by do 2 eexists.
Qed.

Lemma for_assign_set_jpos_returns js acc w :
  Forall (fun j => length j = arm_dof (self w)) js ->
  exists b w',
    for_assign (fun j => set_jpos env (PyList j) None true false) acc js w
      = (Returns b, w') /\
    self w' = self w.
Proof.
  revert acc w. induction js as [|j js IH]; intros acc w Hjs.
  - by exists acc, w.
  - apply Forall_cons in Hjs as [Hj Hjs].
    destruct (set_jpos_all_physics_returns j true w Hj) as (b & w' & Hb & Hw').
    destruct (IH b w') as (b' & w'' & Hb' & Hw''); [by rewrite Hw'|].
    exists b', w''. cbn [for_assign].
    rewrite (bind_returns _ _ _ _ _ Hb). split; [done|congruence].
Qed.

Lemma for_assign_snoc {A B} (f : A -> M B) acc l x w b w' :
  for_assign f acc l w = (Returns b, w') ->
  for_assign f acc (l ++ [x]) w = f x w'.
Proof.
  revert acc w. induction l as [|y l IH]; intros acc w; cbn [for_assign app].
  - unfold mret, M_ret, ret. intros [= <- <-].
    unfold mbind, M_bind, bind. by destruct (f x w) as [[]].
  - unfold mbind, M_bind, bind. destruct (f y w) as [[c|e] w1]; [|done].
    apply IH.
Qed.

(** C8. In realtime simulation [move_ee_xyz] reads the pose, asks inverse
    kinematics for every waypoint, then runs [set_jpos] on the solutions in
    order; what it returns, and the world it leaves, are those of the
    [set_jpos] call on the solution of the last waypoint.  The outcome [b] of
    the calls before it is dropped. *)
Theorem move_ee_xyz_returns_last delta_xyz eef_step wps w :
  let info :=
    getLinkState env (trace w) (robot_id (self w)) (ee_link_id (self w)) in
  let w0 :=
    World (self w)
      (trace w ++ [p_getLinkState (robot_id (self w)) (ee_link_id (self w))]) in
  _step_sim_mode (self w) = false ->
  linear_interpolate_path env info.1 delta_xyz eef_step = Returns wps ->
  wps <> [] ->
  (forall h r l pos o jd,
     arm_dof (self w) <= length (calculateInverseKinematics env h r l pos o jd)) ->
  exists js jl b w1 w2 r w3,
    for_append (fun wp => compute_ik env wp (Some info.2)) wps w0
      = (Returns (js ++ [jl]), w1) /\
    length (js ++ [jl]) = length wps /\
    for_assign (fun j => set_jpos env (PyList j) None true false) false js w1
      = (Returns b, w2) /\
    set_jpos env (PyList jl) None true false w2 = (Returns r, w3) /\
    move_ee_xyz env delta_xyz eef_step w = (Returns r, w3).
Proof.
  intros info w0 Hmode Hplan Hne Hik.
  destruct (for_append_compute_ik (Some info.2) wps w0)
    as (js_all & w1 & Hjs & Hself & Hlen & Hdof).
  specialize (Hdof Hik).
  destruct (exists_last (l := js_all)) as (js & jl & ->).
  { intros ->. destruct wps; [done|discriminate]. }
  apply Forall_app in Hdof as [Hdof_js Hdof_jl].
  rewrite Forall_singleton in Hdof_jl.
  destruct (for_assign_set_jpos_returns js false w1) as (b & w2 & Hb & Hw2).
  { by rewrite Hself. }
  destruct (set_jpos_all_physics_returns jl true w2) as (r & w3 & Hr & _).
  { by rewrite Hw2, Hself. }
  exists js, jl, b, w1, w2, r, w3. repeat split; try done.
  unfold move_ee_xyz. run_M. rewrite Hmode. run_M.
  rewrite get_ee_pose_returns. cbv zeta. fold info w0. run_M.
  rewrite Hplan. run_M. rewrite Hjs.
  by rewrite (for_assign_snoc _ _ _ _ _ _ _ Hb).
Qed.

End Commands.

(** ** Comparing a float with zero *)

Lemma ltb_0_not_leb_0 (step : float) :
  (0 <? step)%float = true -> (step <=? 0)%float = false.
Proof.
  rewrite ltb_spec, leb_spec.
  change (Prim2SF 0%float) with (S754_zero false).
  by destruct (Prim2SF step) as [[]|[]| |[] m e].
Qed.

(** ** The methods run on the two-joint arm *)

Lemma two_joint_arm_built step_sim flags : built (two_joint_arm step_sim flags).
Proof. unfold built. simpl. repeat constructor. Qed.

Lemma set_jtorq_mode_guard_witness :
  set_jtorq (PyList [1; 2]%float) None false (at_rest true [true; false])
    = (Raises RuntimeError, at_rest true [true; false]) /\
  set_jtorq (PyFloat 1%float) (Some "elbow_joint"%string) false
      (at_rest true [true; false])
    = (Raises RuntimeError, at_rest true [true; false]) /\
  set_jtorq (PyList [1; 2]%float) None false (at_rest true [true; true])
    = (Returns true,
       World (two_joint_arm true [true; true])
         [p_setJointMotorControlArray (Some 0%Z) [1; 3]%Z TORQUE_CONTROL None
            (PyList [1; 2]%float)]) /\
  set_jtorq (PyFloat 1%float) (Some "shoulder_pan_joint"%string) false
      (at_rest true [true; false])
    = (Returns true,
       World (two_joint_arm true [true; false])
         [p_setJointMotorControl2 (Some 0%Z) 1%Z TORQUE_CONTROL None
            (PyFloat 1%float)]).
Proof.
  destruct (set_jtorq_mode_guard (at_rest true [true; false]))
    as (_ & Hall & Hnamed & _ & Hissue).
  destruct (set_jtorq_mode_guard (at_rest true [true; true]))
    as (_ & _ & _ & Hissue_all & _).
  split; [|split; [|split]].
  - apply Hall. simpl. set_solver.
  - apply (Hnamed _ _ 1); reflexivity.
  - apply Hissue_all; [|reflexivity]. apply all_true_iff. reflexivity.
  - apply (Hissue _ _ 0 1%Z); reflexivity.
Defined.

Lemma wrong_length_goal_rejected_witness :
  set_jpos scripted (PyList [0.1]%float) None true false
      (at_rest false [false; false])
    = (Raises ValueError, at_rest false [false; false]) /\
  set_jvel scripted (PyList [0.1]%float) None true
      (at_rest false [false; false])
    = (Raises ValueError, at_rest false [false; false]).
Proof. apply wrong_length_goal_rejected. vm_compute. lia. Defined.

(** C5 as stated fails in step simulation: the velocity command is issued and
    [set_jvel] returns [False]. *)
Lemma set_jvel_no_wait_step_sim_false :
  set_jvel scripted (PyList [0.1; 0.2]%float) None false
      (at_rest true [false; false])
    = (Returns false,
       World (two_joint_arm true [false; false])
         [p_setJointMotorControlArray (Some 0%Z) [1; 3]%Z VELOCITY_CONTROL
            (Some (PyList [0.1; 0.2]%float)) (PyList [150; 28]%float)]) /\
  (set_jvel scripted (PyList [0.1; 0.2]%float) None false
     (at_rest true [false; false])).1 <> Returns true.
Proof. split; [reflexivity|]. vm_compute. discriminate. Qed.

Lemma set_jvel_no_wait_returns_witness :
  set_jvel scripted (PyList [0.1; 0.2]%float) None false
      (at_rest false [false; false])
    = (Returns true,
       World (two_joint_arm false [false; false])
         [p_setJointMotorControlArray (Some 0%Z) [1; 3]%Z VELOCITY_CONTROL
            (Some (PyList [0.1; 0.2]%float)) (PyList [150; 28]%float)]) /\
  set_jvel scripted (PyFloat 0.1%float) (Some "elbow_joint"%string) false
      (at_rest true [false; false])
    = (Returns false,
       World (two_joint_arm true [false; false])
         [p_setJointMotorControl2 (Some 0%Z) 3%Z VELOCITY_CONTROL
            (Some (PyFloat 0.1%float)) (PyFloat 28%float)]).
Proof.
  split.
  - apply (set_jvel_no_wait_returns scripted (at_rest false [false; false])).
    reflexivity.
  - apply (set_jvel_no_wait_returns scripted (at_rest true [false; false])
             ) with (i := 1); reflexivity.
Defined.

(** C4 as stated fails: when the two joints leave torque mode, the flags are
    cleared, but no command with zero velocity and zero force is among the
    calls made; the one velocity command carries the maximum torques. *)
Lemma disable_torque_control_force_not_zero :
  exists w',
    disable_torque_control scripted None (at_rest true [true; true])
      = (Returns tt, w') /\
    _in_torque_mode (self w') = [false; false] /\
    trace w' =
      [p_setJointMotorControlArray (Some 0%Z) [1; 3]%Z VELOCITY_CONTROL
         (Some (PyList [0; 0]%float)) (PyList [150; 28]%float)] /\
    existsb zero_velocity_zero_force (trace w') = false.
Proof. eexists. split; [reflexivity|]. by repeat split. Qed.

Lemma disable_torque_control_velocity_mode_witness :
  (exists w',
     disable_torque_control scripted None (at_rest true [true; true])
       = (Returns tt, w') /\
     _in_torque_mode (self w') = [false; false] /\
     trace w' =
       [p_setJointMotorControlArray (Some 0%Z) [1; 3]%Z VELOCITY_CONTROL
          (Some (PyList [0; 0]%float)) (PyList [150; 28]%float)]) /\
  (exists w',
     disable_torque_control scripted (Some "elbow_joint"%string)
         (at_rest true [true; true])
       = (Returns tt, w') /\
     _in_torque_mode (self w') !! 1 = Some false /\
     trace w' =
       [p_setJointMotorControl2 (Some 0%Z) 3%Z VELOCITY_CONTROL
          (Some (PyFloat 0%float)) (PyFloat 28%float)]).
Proof.
  destruct (disable_torque_control_velocity_mode scripted
              (at_rest true [true; true])) as [Hall Hnamed].
  split; [exact Hall|].
  apply (Hnamed "elbow_joint"%string 1 28%float 3%Z);
    [reflexivity|reflexivity|reflexivity|simpl; lia].
Defined.

Lemma set_jpos_ignore_physics_witness :
  (exists issued,
     set_jpos scripted (PyList [0.5; 1.5]%float) None true true
         (at_rest false [false; false])
       = (Returns true, World (two_joint_arm false [false; false]) issued) /\
     issued =
       [p_setJointMotorControlArray (Some 0%Z) [1; 3]%Z VELOCITY_CONTROL
          (Some (PyList [0; 0]%float)) (PyList [150; 28]%float);
        p_resetJointState (Some 0%Z) 1%Z (PyFloat 0.5%float) (PyFloat 0%float);
        p_resetJointState (Some 0%Z) 3%Z (PyFloat 1.5%float) (PyFloat 0%float)]
     /\ forallb (fun c => negb (is_wait c)) issued = true) /\
  (exists issued,
     set_jpos scripted (PyFloat 1.5%float) (Some "elbow_joint"%string) true true
         (at_rest false [false; false])
       = (Returns true, World (two_joint_arm false [false; false]) issued) /\
     issued =
       [p_setJointMotorControl2 (Some 0%Z) 3%Z VELOCITY_CONTROL
          (Some (PyFloat 0%float)) (PyFloat 28%float);
        p_resetJointState (Some 0%Z) 3%Z (PyFloat 1.5%float) (PyFloat 0%float)]
     /\ forallb (fun c => negb (is_wait c)) issued = true).
Proof.
  destruct (set_jpos_ignore_physics scripted true
              (at_rest false [false; false])) as [Hall Hnamed].
  split.
  - apply (Hall [0.5; 1.5]%float); [reflexivity|].
    apply two_joint_arm_built.
  - apply (Hnamed (PyFloat 1.5%float) "elbow_joint"%string 1 28%float 3%Z);
      reflexivity.
Defined.

Lemma set_jpos_true_only_from_waiter_witness :
  set_jpos scripted (PyList [0.5; 1.5]%float) None false false
      (at_rest false [false; false])
    = (Returns false,
       World (two_joint_arm false [false; false])
         [p_setJointMotorControlArray (Some 0%Z) [1; 3]%Z POSITION_CONTROL
            (Some (PyList [0.5; 1.5]%float)) (PyList [150; 28]%float)]) /\
  set_jpos scripted (PyFloat 1.5%float) (Some "elbow_joint"%string) true false
      (at_rest true [false; false])
    = (Returns false,
       World (two_joint_arm true [false; false])
         [p_setJointMotorControl2 (Some 0%Z) 3%Z POSITION_CONTROL
            (Some (PyFloat 1.5%float)) (PyFloat 28%float)]).
Proof.
  split.
  - apply (set_jpos_true_only_from_waiter scripted
             (at_rest false [false; false])); [reflexivity|by left].
  - apply (set_jpos_true_only_from_waiter scripted
             (at_rest true [false; false])) with (i := 1);
      [reflexivity|reflexivity|reflexivity|by right].
Defined.

Lemma torque_mode_round_trip_witness :
  exists w1 w2,
    enable_torque_control None (at_rest true [true; false])
      = (Returns tt, w1) /\
    disable_torque_control scripted None w1 = (Returns tt, w2) /\
    _in_torque_mode (self w2) = [false; false] /\
    set_jtorq (PyList [1; 2]%float) None false w2 = (Raises RuntimeError, w2).
Proof.
  apply (torque_mode_round_trip scripted (PyList [1; 2]%float) None false
           (at_rest true [true; false])).
  simpl. discriminate.
Defined.

Lemma move_ee_xyz_step_sim_witness :
  move_ee_xyz scripted [0.02; 0; 0]%float 0.005%float
      (at_rest true [false; false])
    = (Raises AssertionError, at_rest true [false; false]).
Proof. apply move_ee_xyz_step_sim. reflexivity. Defined.

Lemma move_ee_xyz_returns_last_witness :
  exists js jl b w1 w2 r w3,
    for_append (fun wp => compute_ik scripted wp (Some [0; 0; 0; 1]%float))
        [[0.31; 0; 0.5]; [0.32; 0; 0.5]]%float
        (World (two_joint_arm false [false; false])
           [p_getLinkState (Some 0%Z) 6%Z])
      = (Returns (js ++ [jl]), w1) /\
    length (js ++ [jl]) = 2 /\
    for_assign (fun j => set_jpos scripted (PyList j) None true false) false js
        w1
      = (Returns b, w2) /\
    set_jpos scripted (PyList jl) None true false w2 = (Returns r, w3) /\
    move_ee_xyz scripted [0.02; 0; 0]%float 0.005%float
        (at_rest false [false; false])
      = (Returns r, w3).
Proof.
  apply (move_ee_xyz_returns_last scripted [0.02; 0; 0]%float 0.005%float
           [[0.31; 0; 0.5]; [0.32; 0; 0.5]]%float
           (at_rest false [false; false])).
  - reflexivity.
  - reflexivity.
  - discriminate.
  - intros h r l pos o jd.
    change (2 <= length (pos ++ [0; 0]%float)).
    rewrite length_app. simpl. lia.
Defined.

(** The first waypoint of this move does not converge, the second does, and
    the move reports success. *)
Example move_ee_xyz_forgets_first_waypoint :
  (set_jpos scripted (PyList [0.31; 0]%float) None true false
     (World (two_joint_arm false [false; false])
        [p_getLinkState (Some 0%Z) 6%Z;
         p_calculateInverseKinematics (Some 0%Z) 6%Z [0.31; 0; 0.5]%float
           (Some [0; 0; 0; 1]%float) [0.0005; 0.0005; 0.0005]%float;
         p_calculateInverseKinematics (Some 0%Z) 6%Z [0.32; 0; 0.5]%float
           (Some [0; 0; 0; 1]%float) [0.0005; 0.0005; 0.0005]%float])).1
    = Returns false /\
  (move_ee_xyz scripted [0.02; 0; 0]%float 0.005%float
     (at_rest false [false; false])).1 = Returns true.
Proof. split; reflexivity. Qed.

(** ** What the commands leave alone *)

Lemma extends_refl w : extends w w.
Proof. split; [done|]. exists []. by rewrite app_nil_r. Qed.

Lemma extends_trans w1 w2 w3 : extends w1 w2 -> extends w2 w3 -> extends w1 w3.
Proof.
  intros [Hs1 [l1 Ht1]] [Hs2 [l2 Ht2]]. split; [congruence|].
  exists (l1 ++ l2). by rewrite Ht2, Ht1, app_assoc.
Qed.

Lemma keeps_ret {A} (a : A) : keeps_self (mret a).
Proof. intros w. apply extends_refl. Qed.

Lemma keeps_raise {A} e : keeps_self (raise (A := A) e).
Proof. intros w. apply extends_refl. Qed.

Lemma keeps_lift {A} (o : outcome A) : keeps_self (lift o).
Proof. intros w. apply extends_refl. Qed.

Lemma keeps_get_self : keeps_self get_self.
Proof. intros w. apply extends_refl. Qed.

Lemma keeps_history : keeps_self history.
Proof. intros w. apply extends_refl. Qed.

Lemma keeps_emit c : keeps_self (emit c).
Proof. intros w. split; [done|]. by exists [c]. Qed.

Lemma keeps_getitem {A} (l : list A) i : keeps_self (getitem l i).
Proof. intros w. unfold getitem. destruct (l !! i); apply extends_refl. Qed.

Lemma keeps_getitem_dict d k : keeps_self (getitem_dict d k).
Proof.
  intros w. unfold getitem_dict. destruct (d !! k); apply extends_refl.
Qed.

Lemma keeps_index_of l x : keeps_self (index_of l x).
Proof. intros w. unfold index_of. destruct (index l x); apply extends_refl. Qed.

Lemma keeps_bind {A B} (m : M A) (k : A -> M B) :
  keeps_self m -> (forall a, keeps_self (k a)) -> keeps_self (m ≫= k).
Proof.
  intros Hm Hk w. unfold mbind, M_bind, bind. specialize (Hm w).
  destruct (m w) as [[a|e] w1]; [|done].
  eapply extends_trans; [exact Hm|apply Hk].
Qed.

Lemma keeps_for_enumerate {A} (body : nat -> A -> M unit) idx l :
  (forall i x, keeps_self (body i x)) -> keeps_self (for_enumerate body idx l).
Proof.
  intros Hbody. revert idx. induction l as [|x l IH]; intros idx; simpl.
  - apply keeps_ret.
  - apply keeps_bind; [apply Hbody|intros _; apply IH].
Qed.

Lemma keeps_for_append {A B} (f : A -> M B) l :
  (forall x, keeps_self (f x)) -> keeps_self (for_append f l).
Proof.
  intros Hf. induction l as [|x l IH]; simpl.
  - apply keeps_ret.
  - apply keeps_bind; [apply Hf|intros y].
    apply keeps_bind; [apply IH|intros ys; apply keeps_ret].
Qed.

Lemma keeps_for_assign {A B} (f : A -> M B) acc l :
  (forall x, keeps_self (f x)) -> keeps_self (for_assign f acc l).
Proof.
  intros Hf. revert acc. induction l as [|x l IH]; intros acc; simpl.
  - apply keeps_ret.
  - apply keeps_bind; [apply Hf|intros y; apply IH].
Qed.

Ltac keeps_step :=
  lazymatch goal with
  | |- keeps_self (mret _) => apply keeps_ret
  | |- keeps_self (ret _) => apply keeps_ret
  | |- keeps_self (raise _) => apply keeps_raise
  | |- keeps_self (lift _) => apply keeps_lift
  | |- keeps_self get_self => apply keeps_get_self
  | |- keeps_self history => apply keeps_history
  | |- keeps_self (emit _) => apply keeps_emit
  | |- keeps_self (getitem _ _) => apply keeps_getitem
  | |- keeps_self (getitem_dict _ _) => apply keeps_getitem_dict
  | |- keeps_self (index_of _ _) => apply keeps_index_of
  | |- keeps_self (for_enumerate _ _ _) => apply keeps_for_enumerate; intros
  | |- keeps_self (for_append _ _) => apply keeps_for_append; intros
  | |- keeps_self (for_assign _ _ _) => apply keeps_for_assign; intros
  | |- keeps_self (_ ≫= _) => apply keeps_bind; [|intros]
  | |- keeps_self (if ?b then _ else _) => destruct b
  | |- keeps_self (match ?x with _ => _ end) => destruct x
  end.

Section Frame.
Context (env : environment).

Lemma keeps_call_wait goal joint_name get_func get_func_derv timeout max_error :
  keeps_self
    (call_wait env goal joint_name get_func get_func_derv timeout max_error).
Proof. unfold call_wait. repeat keeps_step. Qed.

Lemma keeps_set_jvel velocity joint_name wait :
  keeps_self (set_jvel env velocity joint_name wait).
Proof.
  unfold set_jvel.
  repeat lazymatch goal with
         | |- keeps_self (call_wait _ _ _ _ _ _ _) => apply keeps_call_wait
         | _ => keeps_step
         end.
Qed.

Lemma keeps_reset_joint_state jnt_name jpos jvel :
  keeps_self (reset_joint_state jnt_name jpos jvel).
Proof. unfold reset_joint_state. repeat keeps_step. Qed.

Lemma keeps_set_jpos position joint_name wait ignore_physics :
  keeps_self (set_jpos env position joint_name wait ignore_physics).
Proof.
  unfold set_jpos.
  repeat lazymatch goal with
         | |- keeps_self (call_wait _ _ _ _ _ _ _) => apply keeps_call_wait
         | |- keeps_self (set_jvel _ _ _ _) => apply keeps_set_jvel
         | |- keeps_self (reset_joint_state _ _ _) =>
             apply keeps_reset_joint_state
         | _ => keeps_step
         end.
Qed.

Lemma keeps_set_jtorq torque joint_name wait :
  keeps_self (set_jtorq torque joint_name wait).
Proof. unfold set_jtorq, _is_in_torque_mode. repeat keeps_step. Qed.

Lemma keeps_get_ee_pose : keeps_self (get_ee_pose env).
Proof. unfold get_ee_pose. repeat keeps_step. Qed.

Lemma keeps_compute_ik pos ori : keeps_self (compute_ik env pos ori).
Proof. unfold compute_ik. repeat keeps_step. Qed.

Lemma keeps_move_ee_xyz delta_xyz eef_step :
  keeps_self (move_ee_xyz env delta_xyz eef_step).
Proof.
  unfold move_ee_xyz.
  repeat lazymatch goal with
         | |- keeps_self (get_ee_pose _) => apply keeps_get_ee_pose
         | |- keeps_self (compute_ik _ _ _) => apply keeps_compute_ik
         | |- keeps_self (set_jpos _ _ _ _ _) => apply keeps_set_jpos
         | _ => keeps_step
         end.
Qed.

Lemma keeps_set_ee_pose pos ori wait :
  keeps_self (set_ee_pose env pos ori wait).
Proof.
  unfold set_ee_pose.
  repeat lazymatch goal with
         | |- keeps_self (get_ee_pose _) => apply keeps_get_ee_pose
         | |- keeps_self (compute_ik _ _ _) => apply keeps_compute_ik
         | |- keeps_self (set_jpos _ _ _ _ _) => apply keeps_set_jpos
         | _ => keeps_step
         end.
Qed.

(** X1. The commands never touch the attributes of the arm, the torque-mode
    flags among them, and never take back a call: whether [set_jvel],
    [set_jpos], [set_jtorq], [set_ee_pose] or [move_ee_xyz] returns or
    raises, the world after it has the same [self] and a trace that extends
    the one before. *)
Theorem commands_keep_attributes w :
  (forall velocity joint_name wait,
     extends w (set_jvel env velocity joint_name wait w).2) /\
  (forall position joint_name wait ignore_physics,
     extends w (set_jpos env position joint_name wait ignore_physics w).2) /\
  (forall torque joint_name wait,
     extends w (set_jtorq torque joint_name wait w).2) /\
  (forall pos ori wait, extends w (set_ee_pose env pos ori wait w).2) /\
  (forall delta_xyz eef_step,
     extends w (move_ee_xyz env delta_xyz eef_step w).2).
Proof.
  split; [|split; [|split; [|split]]]; intros.
  - apply keeps_set_jvel.
  - apply keeps_set_jpos.
  - apply keeps_set_jtorq.
  - apply keeps_set_ee_pose.
  - apply keeps_move_ee_xyz.
Qed.

(** ** Joints that are not of the arm *)

(** X2. A joint name that is not among [arm_jnt_names] is refused before
    anything is commanded: [set_jpos] and [set_jvel] raise [TypeError],
    [set_jtorq] raises [ValueError] (from [list.index], whatever the
    torque-mode flags are), and the world is as it was. *)
Theorem unknown_joint_refused name w :
  name ∉ arm_jnt_names (self w) ->
  (forall position wait ignore_physics,
     set_jpos env position (Some name) wait ignore_physics w
       = (Raises TypeError, w)) /\
  (forall velocity wait,
     set_jvel env velocity (Some name) wait w = (Raises TypeError, w)) /\
  (forall torque wait,
     set_jtorq torque (Some name) wait w = (Raises ValueError, w)).
Proof.
  intros Hname.
  assert (name ∉ arm_jnt_names_set (self w)) as Hset
    by by rewrite elem_of_arm_jnt_names_set.
  assert (index (arm_jnt_names (self w)) name = None) as Hindex.
  { destruct (index _ name) as [i|] eqn:Hi; [|done].
    by apply index_Some_elem_of in Hi. }
  split; [|split].
  - intros position wait ignore_physics. unfold set_jpos. run_M.
    rewrite decide_True by done. by run_M.
  - intros velocity wait. unfold set_jvel. run_M.
    rewrite decide_True by done. by run_M.
  - intros torque wait. unfold set_jtorq, _is_in_torque_mode. run_M.
    rewrite Hindex. by run_M.
Qed.

(** ** Waiting for a velocity *)

(** X3. With [wait=True] and a valid whole-arm goal, [set_jvel] in realtime
    simulation issues the velocity command, then asks the waiter (with
    [get_jvel], no derivative reader, the configured time limit and
    [MAX_JOINT_VEL_ERROR]) and returns its answer; in step simulation it
    issues the command, asks no one and returns [False]. *)
Theorem set_jvel_wait xs w :
  length xs = arm_dof (self w) ->
  set_jvel env (PyList xs) None true w =
    let w1 :=
      World (self w) (trace w ++ [velocity_array (self w) (PyList xs)]) in
    if _step_sim_mode (self w) then (Returns false, w1)
    else
      (Returns (wait_to_reach_jnt_goal env (trace w1) (PyList xs) None
                  get_jvel None (TIMEOUT_LIMIT (cfgs (self w)))
                  (MAX_JOINT_VEL_ERROR (cfgs (self w)))),
       World (self w)
         (trace w1 ++
          [arm_util_wait_to_reach_jnt_goal (PyList xs) None get_jvel None
             (TIMEOUT_LIMIT (cfgs (self w)))
             (MAX_JOINT_VEL_ERROR (cfgs (self w)))])).
Proof.
  intros Hlen. unfold set_jvel. run_M. simpl.
  rewrite decide_False by (by intros []). run_M. cbn [self trace].
  destruct (_step_sim_mode (self w)); [done|]. simpl.
  unfold call_wait. by run_M.
Qed.

End Frame.

Lemma unknown_joint_refused_witness :
  set_jpos scripted (PyFloat 0.5%float) (Some "finger_joint"%string) true
      false (at_rest false [true; true])
    = (Raises TypeError, at_rest false [true; true]) /\
  set_jvel scripted (PyFloat 0.5%float) (Some "finger_joint"%string) false
      (at_rest false [true; true])
    = (Raises TypeError, at_rest false [true; true]) /\
  set_jtorq (PyFloat 0.5%float) (Some "finger_joint"%string) false
      (at_rest false [true; true])
    = (Raises ValueError, at_rest false [true; true]).
Proof.
  destruct (unknown_joint_refused scripted "finger_joint"%string
              (at_rest false [true; true])) as (Hpos & Hvel & Htorq).
  { by apply (bool_decide_unpack _). }
  split; [apply Hpos|split; [apply Hvel|apply Htorq]].
Defined.

Lemma set_jvel_wait_witness :
  set_jvel scripted (PyList [0.1; 0.2]%float) None true
      (at_rest false [false; false])
    = (Returns false,
       World (two_joint_arm false [false; false])
         [p_setJointMotorControlArray (Some 0%Z) [1; 3]%Z VELOCITY_CONTROL
            (Some (PyList [0.1; 0.2]%float)) (PyList [150; 28]%float);
          arm_util_wait_to_reach_jnt_goal (PyList [0.1; 0.2]%float) None
            get_jvel None 5%float 0.05%float]).
Proof.
  apply (set_jvel_wait scripted [0.1; 0.2]%float
           (at_rest false [false; false])).
  reflexivity.
Defined.

(** ** Torque mode, joint by joint *)

Lemma with__in_torque_mode_same s :
  with__in_torque_mode s (_in_torque_mode s) = s.
Proof. by destruct s. Qed.

Lemma switched_refl w : switched w w.
Proof.
  split; [apply with__in_torque_mode_same|]. split; [done|].
  exists []. by rewrite app_nil_r.
Qed.

Lemma switched_extends w w1 : extends w w1 -> switched w w1.
Proof.
  intros [Hself Htrace]. split; [|split; [|done]].
  - rewrite Hself. apply with__in_torque_mode_same.
  - by rewrite Hself.
Qed.

Lemma switched_flags w flags issued :
  (length (_in_torque_mode (self w)) = arm_dof (self w) ->
   length flags = arm_dof (self w)) ->
  switched w (World (with__in_torque_mode (self w) flags) (trace w ++ issued)).
Proof.
  intros Hlen. split; [|split].
  - unfold same_but_flags. cbn [self]. by destruct (self w).
  - exact Hlen.
  - by exists issued.
Qed.

Section TorqueByJoint.
Context (env : environment).

Lemma enable_torque_control_named name i jid w :
  index (arm_jnt_names (self w)) name = Some i ->
  jnt_to_id (self w) !! name = Some jid ->
  i < length (_in_torque_mode (self w)) ->
  enable_torque_control (Some name) w =
    (Returns tt,
     World (with__in_torque_mode (self w)
              (<[i := true]> (_in_torque_mode (self w))))
       (trace w ++ [p_setJointMotorControl2 (robot_id (self w)) jid
                      VELOCITY_CONTROL (Some (PyFloat 0%float))
                      (PyFloat 0%float)])).
Proof.
  intros Hi Hid Hlt. unfold enable_torque_control. run_M.
  rewrite Hid. run_M. cbn [self trace]. rewrite Hi. run_M.
  unfold setitem__in_torque_mode. run_M. cbn [self trace].
  by rewrite decide_True by done.
Qed.

(** X4. Enabling torque control for one joint of the arm releases its
    velocity motor (velocity control, target 0, force 0), sets the flag of
    that joint and of no other, and a torque command for that joint is then
    issued; a torque command for the whole arm is still refused while the
    flag of another joint is [False]. *)
Theorem enable_joint_allows_its_torque torque name i jid wait w :
  index (arm_jnt_names (self w)) name = Some i ->
  jnt_to_id (self w) !! name = Some jid ->
  i < length (_in_torque_mode (self w)) ->
  exists w1,
    enable_torque_control (Some name) w = (Returns tt, w1) /\
    _in_torque_mode (self w1) = <[i := true]> (_in_torque_mode (self w)) /\
    trace w1 =
      trace w ++ [p_setJointMotorControl2 (robot_id (self w)) jid
                    VELOCITY_CONTROL (Some (PyFloat 0%float))
                    (PyFloat 0%float)] /\
    set_jtorq torque (Some name) wait w1 =
      (Returns true,
       World (self w1)
         (trace w1 ++ [p_setJointMotorControl2 (robot_id (self w)) jid
                         TORQUE_CONTROL None torque])) /\
    (forall j whole,
       j <> i -> _in_torque_mode (self w) !! j = Some false ->
       set_jtorq whole None wait w1 = (Raises RuntimeError, w1)).
Proof.
  intros Hi Hid Hlt. eexists.
  split; [by apply enable_torque_control_named|].
  split; [done|]. split; [done|]. split.
  - etrans.
    { apply (set_jtorq_named_issued torque name i jid); cbn; [done| |done].
      by apply list_lookup_insert_eq. }
    done.
  - intros j whole Hj Hoff. apply set_jtorq_refused.
    rewrite _is_in_torque_mode_all. cbn.
    rewrite all_false_elem_of; [done|].
    apply (list_elem_of_lookup_2 _ j).
    by rewrite list_lookup_insert_ne.
Qed.

(** X5. Enabling and then disabling torque control for one joint of the arm
    leaves the flags as they were but for that joint, whose flag is [False];
    a torque command for it is refused with [RuntimeError] and nothing more
    is issued. *)
Theorem enable_disable_joint torque name i max_torque jid wait w :
  index (arm_jnt_names (self w)) name = Some i ->
  _max_torques (self w) !! i = Some max_torque ->
  jnt_to_id (self w) !! name = Some jid ->
  i < length (_in_torque_mode (self w)) ->
  exists w1 w2,
    enable_torque_control (Some name) w = (Returns tt, w1) /\
    disable_torque_control env (Some name) w1 = (Returns tt, w2) /\
    _in_torque_mode (self w2) = <[i := false]> (_in_torque_mode (self w)) /\
    set_jtorq torque (Some name) wait w2 = (Raises RuntimeError, w2).
Proof.
  intros Hi Hmt Hid Hlt. do 2 eexists.
  split; [by apply enable_torque_control_named|].
  split.
  { apply (disable_torque_control_named env name i max_torque jid);
      cbn; [done|done|done|]. by rewrite length_insert. }
  split.
  { cbn. by rewrite list_insert_insert_eq. }
  apply set_jtorq_refused.
  apply (_is_in_torque_mode_named _ name i); cbn; [done|].
  apply list_lookup_insert_eq. by rewrite length_insert.
Qed.

(** X6. A joint that pybullet knows but that is not of the arm: enabling
    torque control for it first commands its motor (velocity 0, force 0) and
    only then raises [ValueError], the flags untouched; disabling raises
    [TypeError] with nothing commanded.  A joint that pybullet does not know
    makes [enable_torque_control] raise [KeyError] with nothing commanded. *)
Theorem torque_control_not_arm_joint name w :
  name ∉ arm_jnt_names (self w) ->
  (jnt_to_id (self w) !! name = None ->
   enable_torque_control (Some name) w = (Raises KeyError, w)) /\
  (forall jid,
     jnt_to_id (self w) !! name = Some jid ->
     enable_torque_control (Some name) w =
       (Raises ValueError,
        World (self w)
          (trace w ++ [p_setJointMotorControl2 (robot_id (self w)) jid
                         VELOCITY_CONTROL (Some (PyFloat 0%float))
                         (PyFloat 0%float)]))) /\
  disable_torque_control env (Some name) w = (Raises TypeError, w).
Proof.
  intros Hname.
  assert (index (arm_jnt_names (self w)) name = None) as Hindex.
  { destruct (index _ name) as [i|] eqn:Hi; [|done].
    by apply index_Some_elem_of in Hi. }
  split; [|split].
  - intros Hid. unfold enable_torque_control. run_M. rewrite Hid. by run_M.
  - intros jid Hid. unfold enable_torque_control. run_M. rewrite Hid. run_M.
    cbn [self trace]. rewrite Hindex. by run_M.
  - unfold disable_torque_control, set_jvel. run_M.
    rewrite decide_True by (by rewrite elem_of_arm_jnt_names_set). by run_M.
Qed.

(** X7. Whatever joint is named, and whether they return or raise,
    [enable_torque_control] and [disable_torque_control] change no attribute
    of the arm but the torque-mode flags, keep one flag per joint, and only
    add calls to the trace. *)
Theorem torque_switch_changes_flags_only joint_name w :
  switched w (enable_torque_control joint_name w).2 /\
  switched w (disable_torque_control env joint_name w).2.
Proof.
  split.
  - destruct joint_name as [name|].
    2:{ rewrite enable_torque_control_all. apply (switched_flags w).
        intros _. apply length_replicate. }
    unfold enable_torque_control. run_M.
    destruct (jnt_to_id (self w) !! name) as [jid|]; run_M;
      [|apply switched_refl].
    cbn [self trace].
    destruct (index (arm_jnt_names (self w)) name) as [i|]; run_M.
    2:{ apply switched_extends. split; [done|]. by eexists. }
    unfold setitem__in_torque_mode. run_M. cbn [self trace].
    destruct (decide (i < length (_in_torque_mode (self w)))); run_M.
    + cbn [self trace]. apply (switched_flags w).
      intros Hlen. by rewrite length_insert.
    + apply switched_extends. split; [done|]. by eexists.
  - destruct joint_name as [name|].
    2:{ rewrite disable_torque_control_all. apply (switched_flags w).
        intros _. apply length_replicate. }
    unfold disable_torque_control. run_M.
    pose proof (keeps_set_jvel env (PyFloat 0%float) (Some name) false w)
      as [Hself [issued Htrace]].
    destruct (set_jvel env (PyFloat 0%float) (Some name) false w)
      as [[b|e] w1]; cbn [snd] in *.
    2:{ apply switched_extends. split; [done|]. by exists issued. }
    destruct (index (arm_jnt_names (self w)) name) as [i|]; run_M.
    2:{ apply switched_extends. split; [done|]. by exists issued. }
    unfold setitem__in_torque_mode. run_M.
    destruct (decide (i < length (_in_torque_mode (self w1)))); run_M.
    + unfold set__in_torque_mode. cbn [snd].
      rewrite Hself, Htrace. apply (switched_flags w).
      intros Hlen. by rewrite length_insert.
    + apply switched_extends. split; [done|]. by exists issued.
Qed.

End TorqueByJoint.

Lemma enable_joint_allows_its_torque_witness :
  exists w1,
    enable_torque_control (Some "elbow_joint"%string)
        (at_rest true [false; false])
      = (Returns tt, w1) /\
    _in_torque_mode (self w1) = [false; true] /\
    trace w1 =
      [p_setJointMotorControl2 (Some 0%Z) 3%Z VELOCITY_CONTROL
         (Some (PyFloat 0%float)) (PyFloat 0%float)] /\
    set_jtorq (PyFloat 2%float) (Some "elbow_joint"%string) false w1 =
      (Returns true,
       World (self w1)
         (trace w1 ++ [p_setJointMotorControl2 (Some 0%Z) 3%Z TORQUE_CONTROL
                         None (PyFloat 2%float)])) /\
    (forall j whole,
       j <> 1 -> [false; false] !! j = Some false ->
       set_jtorq whole None false w1 = (Raises RuntimeError, w1)).
Proof.
  apply (enable_joint_allows_its_torque (PyFloat 2%float)
           "elbow_joint"%string 1 3%Z false (at_rest true [false; false]));
    [reflexivity|reflexivity|simpl; lia].
Defined.

Lemma enable_disable_joint_witness :
  exists w1 w2,
    enable_torque_control (Some "elbow_joint"%string)
        (at_rest true [true; false])
      = (Returns tt, w1) /\
    disable_torque_control scripted (Some "elbow_joint"%string) w1
      = (Returns tt, w2) /\
    _in_torque_mode (self w2) = [true; false] /\
    set_jtorq (PyFloat 2%float) (Some "elbow_joint"%string) false w2
      = (Raises RuntimeError, w2).
Proof.
  apply (enable_disable_joint scripted (PyFloat 2%float)
           "elbow_joint"%string 1 28%float 3%Z false
           (at_rest true [true; false]));
    [reflexivity|reflexivity|reflexivity|simpl; lia].
Defined.

Lemma torque_control_not_arm_joint_witness :
  enable_torque_control (Some "finger_joint"%string)
      (at_rest true [false; false])
    = (Raises KeyError, at_rest true [false; false]) /\
  enable_torque_control (Some "ee_tip"%string) (at_rest true [false; false])
    = (Raises ValueError,
       World (two_joint_arm true [false; false])
         [p_setJointMotorControl2 (Some 0%Z) 6%Z VELOCITY_CONTROL
            (Some (PyFloat 0%float)) (PyFloat 0%float)]) /\
  disable_torque_control scripted (Some "ee_tip"%string)
      (at_rest true [false; false])
    = (Raises TypeError, at_rest true [false; false]).
Proof.
  destruct (torque_control_not_arm_joint scripted "finger_joint"%string
              (at_rest true [false; false])) as (Hkey & _ & _).
  { by apply (bool_decide_unpack _). }
  destruct (torque_control_not_arm_joint scripted "ee_tip"%string
              (at_rest true [false; false])) as (_ & Hvalue & Htype).
  { by apply (bool_decide_unpack _). }
  split; [apply Hkey; reflexivity|].
  split; [apply (Hvalue 6%Z); reflexivity|apply Htype].
Defined.

(** ** Building the joint tables *)

Lemma foldl_insert_lookup_Some (infos : list (Z * string)) name id :
  foldl (fun d info => <[info.2 := info.1]> d) (∅ : gmap string Z) infos
    !! name = Some id ->
  (id, name) ∈ infos.
Proof.
  induction infos as [|[i n] infos IH] using rev_ind.
  - simpl. by rewrite lookup_empty.
  - rewrite foldl_app. simpl. destruct (decide (n = name)) as [->|Hne].
    + rewrite lookup_insert_eq. intros [= ->].
      apply elem_of_app. right. by apply list_elem_of_singleton.
    + rewrite lookup_insert_ne by done. intros Hin.
      apply elem_of_app. left. by apply IH.
Qed.

Lemma foldl_insert_lookup_is_Some (infos : list (Z * string)) name :
  name ∈ infos.*2 ->
  is_Some
    (foldl (fun d info => <[info.2 := info.1]> d) (∅ : gmap string Z) infos
       !! name).
Proof.
  induction infos as [|[i n] infos IH] using rev_ind.
  - intros Hin. by apply elem_of_nil in Hin.
  - rewrite fmap_app, elem_of_app, foldl_app. simpl.
    destruct (decide (n = name)) as [->|Hne].
    + intros _. by rewrite lookup_insert_eq.
    + rewrite lookup_insert_ne by done. intros [Hin|Hin]; [by apply IH|].
      apply list_elem_of_singleton in Hin. congruence.
Qed.

Lemma for_append_getitem_dict_found (d : gmap string Z) names w :
  (forall jnt, jnt ∈ names -> is_Some (d !! jnt)) ->
  exists ids,
    for_append (fun jnt => getitem_dict d jnt) names w = (Returns ids, w) /\
    Forall2 (fun jnt id => d !! jnt = Some id) names ids.
Proof.
  induction names as [|jnt names IH]; intros Hall.
  - by exists [].
  - destruct (Hall jnt) as [id Hid]; [by left|].
    destruct IH as (ids & Hids & Hrel); [intros; apply Hall; by right|].
    exists (id :: ids). split; [|by constructor].
    cbn [for_append].
    rewrite (bind_returns _ _ w id w); [|by unfold getitem_dict; rewrite Hid].
    by rewrite (bind_returns _ _ _ _ _ Hids).
Qed.

Lemma for_append_getitem_dict_missing (d : gmap string Z) names jnt w :
  jnt ∈ names -> d !! jnt = None ->
  for_append (fun jnt => getitem_dict d jnt) names w = (Raises KeyError, w).
Proof.
  intros Hin Hnone. induction names as [|jnt' names IH];
    [by apply elem_of_nil in Hin|].
  cbn [for_append].
  destruct (d !! jnt') as [id|] eqn:Hid.
  - rewrite (bind_returns _ _ w id w); [|by unfold getitem_dict; rewrite Hid].
    apply elem_of_cons in Hin as [->|Hin]; [congruence|].
    unfold mbind, M_bind, bind. by rewrite (IH Hin).
  - unfold mbind, M_bind, bind, getitem_dict. by rewrite Hid.
Qed.

(** X8. When pybullet knows the end-effector joint and every joint name of the
    arm, [_build_jnt_id] returns and leaves tables that agree: [arm_jnt_ids]
    lists, in order, the ids that [jnt_to_id] gives to [arm_jnt_names];
    [ee_link_id] is the id of the end-effector joint; [jnt_to_id] has exactly
    the joint names of pybullet, each with an id pybullet gave for it.  The
    joint names and the torque-mode flags are untouched. *)
Theorem _build_jnt_id_builds infos ee_link_jnt w :
  ee_link_jnt ∈ infos.*2 ->
  (forall jnt, jnt ∈ arm_jnt_names (self w) -> jnt ∈ infos.*2) ->
  exists w',
    _build_jnt_id infos ee_link_jnt w = (Returns tt, w') /\
    built (self w') /\
    jnt_to_id (self w') !! ee_link_jnt = Some (ee_link_id (self w')) /\
    (forall name id,
       jnt_to_id (self w') !! name = Some id -> (id, name) ∈ infos) /\
    (forall name, name ∈ infos.*2 -> is_Some (jnt_to_id (self w') !! name)) /\
    arm_jnt_names (self w') = arm_jnt_names (self w) /\
    _in_torque_mode (self w') = _in_torque_mode (self w).
Proof.
  intros Hee Hnames.
  set (d := foldl (fun d info => <[info.2 := info.1]> d) (∅ : gmap string Z)
              infos).
  destruct (foldl_insert_lookup_is_Some infos ee_link_jnt Hee) as [ee Hlook].
  fold d in Hlook.
  set (s1 := with_ee_link_id (with_jnt_to_id (self w) d) ee).
  destruct (for_append_getitem_dict_found d (arm_jnt_names (self w))
              (World s1 (trace w))) as (ids & Hids & Hrel).
  { intros jnt Hjnt. apply foldl_insert_lookup_is_Some. by apply Hnames. }
  exists (World (with_arm_jnt_ids s1 ids) (trace w)). split.
  { unfold _build_jnt_id. run_M. unfold set_self. cbv beta iota.
    cbn [self trace jnt_to_id with_jnt_to_id]. fold d. rewrite Hlook. run_M.
    cbn [self trace jnt_to_id with_jnt_to_id with_ee_link_id arm_jnt_names].
    fold s1. rewrite Hids. by run_M. }
  split; [exact Hrel|]. split; [exact Hlook|].
  split; [intros name id; apply foldl_insert_lookup_Some|].
  split; [intros name; apply foldl_insert_lookup_is_Some|]. done.
Qed.

(** X9. When pybullet does not know the end-effector joint, or some joint
    name of the arm, [_build_jnt_id] raises [KeyError]; [self.jnt_to_id] has
    been replaced by then, while [self.arm_jnt_ids] is still the old list. *)
Theorem _build_jnt_id_missing_joint infos ee_link_jnt w :
  ee_link_jnt ∉ infos.*2 \/
  (exists jnt, jnt ∈ arm_jnt_names (self w) /\ jnt ∉ infos.*2) ->
  exists w',
    _build_jnt_id infos ee_link_jnt w = (Raises KeyError, w') /\
    (forall name, name ∈ infos.*2 <-> is_Some (jnt_to_id (self w') !! name)) /\
    arm_jnt_ids (self w') = arm_jnt_ids (self w).
Proof.
  intros Hmissing.
  set (d := foldl (fun d info => <[info.2 := info.1]> d) (∅ : gmap string Z)
              infos).
  assert (forall name, name ∈ infos.*2 <-> is_Some (d !! name)) as Hdom.
  { intros name. split; [apply foldl_insert_lookup_is_Some|].
    intros [id Hid]. apply foldl_insert_lookup_Some in Hid.
    by apply (list_elem_of_fmap_2 snd) in Hid. }
  destruct (d !! ee_link_jnt) as [ee|] eqn:Hlook.
  - destruct Hmissing as [Hee|(jnt & Hjnt & Hnot)].
    { exfalso. apply Hee, Hdom. by rewrite Hlook. }
    set (s1 := with_ee_link_id (with_jnt_to_id (self w) d) ee).
    exists (World s1 (trace w)). split; [|done].
    unfold _build_jnt_id. run_M. unfold set_self. cbv beta iota.
    cbn [self trace jnt_to_id with_jnt_to_id]. fold d. rewrite Hlook. run_M.
    cbn [self trace jnt_to_id with_jnt_to_id with_ee_link_id arm_jnt_names].
    fold s1.
    rewrite (for_append_getitem_dict_missing d _ jnt); [done|done|].
    destruct (d !! jnt) eqn:Hd; [|done].
    exfalso. apply Hnot, Hdom. by rewrite Hd.
  - exists (World (with_jnt_to_id (self w) d) (trace w)). split; [|done].
    unfold _build_jnt_id. run_M. unfold set_self. cbv beta iota.
    cbn [self trace jnt_to_id with_jnt_to_id]. fold d. rewrite Hlook.
    by run_M.
Qed.

Lemma _build_jnt_id_builds_witness :
  exists w',
    _build_jnt_id
      [(0%Z, "world_joint"); (2%Z, "shoulder_pan_joint");
       (4%Z, "elbow_joint"); (7%Z, "ee_tip")]%string
      "ee_tip"%string (at_rest true [false; false]) = (Returns tt, w') /\
    built (self w') /\
    jnt_to_id (self w') !! "ee_tip"%string = Some (ee_link_id (self w')).
Proof.
  destruct (_build_jnt_id_builds
              [(0%Z, "world_joint"); (2%Z, "shoulder_pan_joint");
               (4%Z, "elbow_joint"); (7%Z, "ee_tip")]%string
              "ee_tip"%string (at_rest true [false; false]))
    as (w' & Hrun & Hbuilt & Hee & _).
  { by apply (bool_decide_unpack _). }
  { apply Forall_forall. by apply (bool_decide_unpack _). }
  by exists w'.
Defined.

Lemma _build_jnt_id_missing_joint_witness :
  exists w',
    _build_jnt_id
      [(0%Z, "world_joint"); (2%Z, "shoulder_pan_joint"); (7%Z, "ee_tip")]%string
      "ee_tip"%string (at_rest true [false; false]) = (Raises KeyError, w') /\
    arm_jnt_ids (self w') = [1; 3]%Z.
Proof.
  destruct (_build_jnt_id_missing_joint
              [(0%Z, "world_joint"); (2%Z, "shoulder_pan_joint");
               (7%Z, "ee_tip")]%string
              "ee_tip"%string (at_rest true [false; false]))
    as (w' & Hrun & _ & Hids).
  { right. exists "elbow_joint"%string.
    split; by apply (bool_decide_unpack _). }
  by exists w'.
Defined.

(** ** Moving the end effector *)

Section EndEffector.
Context (env : environment).

Lemma set_jpos_all_wrong_length xs wait ignore_physics w :
  length xs <> arm_dof (self w) ->
  set_jpos env (PyList xs) None wait ignore_physics w = (Raises ValueError, w).
Proof.
  intros Hlen. unfold set_jpos. run_M. simpl.
  rewrite decide_True by done. by run_M.
Qed.

(** X10. [set_ee_pose] reads the pose only when no position is given, and
    then aims at the position read; it asks inverse kinematics once.  When the
    solver answers fewer values than the arm has joints, it raises
    [ValueError] and no joint was commanded.  Otherwise it commands the first
    [arm_dof] values of the answer as a position goal for the whole arm, and
    returns [False] unless it runs in realtime with [wait], where it returns
    the verdict of the waiter. *)
Theorem set_ee_pose_commands pos ori wait w :
  let s := self w in
  let w0 :=
    match pos with
    | None => World s (trace w ++ [p_getLinkState (robot_id s) (ee_link_id s)])
    | Some _ => w
    end in
  let target :=
    match pos with
    | None => (getLinkState env (trace w) (robot_id s) (ee_link_id s)).1
    | Some pos => pos
    end in
  let answer :=
    calculateInverseKinematics env (trace w0) (robot_id s) (ee_link_id s)
      target (to_quat env <$> ori) (_ik_jds s) in
  let goal := PyList (take (arm_dof s) answer) in
  let w1 :=
    World s
      (trace w0 ++ [p_calculateInverseKinematics (robot_id s) (ee_link_id s)
                      target (to_quat env <$> ori) (_ik_jds s)]) in
  let w2 := World s (trace w1 ++ [position_array s goal]) in
  (length answer < arm_dof s ->
   set_ee_pose env pos ori wait w = (Raises ValueError, w1)) /\
  (arm_dof s <= length answer ->
   set_ee_pose env pos ori wait w =
     if negb (_step_sim_mode s) && wait
     then
       (Returns (wait_to_reach_jnt_goal env (trace w2) goal None get_jpos
                   (Some get_jvel) (TIMEOUT_LIMIT (cfgs s))
                   (MAX_JOINT_ERROR (cfgs s))),
        World s (trace w2 ++ [wait_jpos s goal None]))
     else (Returns false, w2)).
Proof.
  intros s w0 target answer goal w1 w2.
  assert (set_ee_pose env pos ori wait w
          = set_jpos env goal None wait false w1) as ->.
  { unfold set_ee_pose. destruct pos as [pos|].
    - rewrite (bind_returns _ _ w pos w eq_refl).
      by rewrite (bind_returns _ _ _ _ _ (compute_ik_returns env pos ori w)).
    - assert ((pose ← get_ee_pose env; mret pose.1.1.1) w
              = (Returns target, w0)) as Hpos by done.
      rewrite (bind_returns _ _ _ _ _ Hpos).
      by rewrite (bind_returns _ _ _ _ _
                    (compute_ik_returns env target ori w0)). }
  split; intros Hlen.
  - apply set_jpos_all_wrong_length. rewrite length_take.
    unfold w1. cbn [self]. lia.
  - unfold goal. rewrite set_jpos_all_physics; [done|].
    rewrite length_take. unfold w1. cbn [self]. lia.
Qed.

Lemma for_append_compute_ik_trace ori wps w :
  exists js,
    for_append (fun wp => compute_ik env wp ori) wps w =
      (Returns js,
       World (self w)
         (trace w ++
            ((fun wp =>
                p_calculateInverseKinematics (robot_id (self w))
                  (ee_link_id (self w)) wp (to_quat env <$> ori)
                  (_ik_jds (self w))) <$> wps))).
Proof.
  revert w. induction wps as [|wp wps IH]; intros w.
  - exists []. cbn [for_append fmap list_fmap]. rewrite app_nil_r.
    by rewrite world_eta.
  - pose (w0 := World (self w)
                  (trace w ++ [p_calculateInverseKinematics (robot_id (self w))
                                 (ee_link_id (self w)) wp (to_quat env <$> ori)
                                 (_ik_jds (self w))])).
    destruct (IH w0) as (js & Hjs). eexists (_ :: js). cbn [for_append].
    rewrite (bind_returns _ _ _ _ _ (compute_ik_returns env wp ori w)).
    fold w0. rewrite (bind_returns _ _ _ _ _ Hjs).
    unfold w0. cbn [self trace]. rewrite fmap_cons, <- app_assoc. done.
Qed.

Lemma for_assign_set_jpos_motions js acc w :
  exists o motions,
    for_assign (fun j => set_jpos env (PyList j) None true false) acc js w
      = (o, World (self w) (trace w ++ motions)) /\
    Forall (fun c => is_motion c = true) motions.
Proof.
  revert acc w. induction js as [|j js IH]; intros acc w.
  - exists (Returns acc), []. rewrite app_nil_r, world_eta. by split.
  - cbn [for_assign].
    destruct (decide (length j = arm_dof (self w))) as [Hlen|Hlen].
    + pose proof (set_jpos_all_physics env j true w Hlen) as Hset.
      cbv zeta in Hset.
      destruct (negb (_step_sim_mode (self w)) && true).
      * rewrite (bind_returns _ _ _ _ _ Hset).
        edestruct IH as (o & motions & -> & Hmotions).
        exists o, (position_array (self w) (PyList j)
                     :: wait_jpos (self w) (PyList j) None :: motions).
        cbn [self trace]. rewrite <- !app_assoc. split; [done|].
        by repeat constructor.
      * rewrite (bind_returns _ _ _ _ _ Hset).
        edestruct IH as (o & motions & -> & Hmotions).
        exists o, (position_array (self w) (PyList j) :: motions).
        cbn [self trace]. rewrite <- !app_assoc. split; [done|].
        by repeat constructor.
    + exists (Raises ValueError), [].
      unfold mbind, M_bind, bind.
      rewrite (set_jpos_all_wrong_length j true false w Hlen).
      rewrite app_nil_r, world_eta. by split.
Qed.

(** X11. In realtime simulation, whatever [move_ee_xyz] does after planning,
    its calls are in this order: the pose read, then one inverse-kinematics
    request per waypoint, in the order of the plan and each with the
    orientation read at the start, then only position commands to the whole
    arm and calls of the waiter.  No solution is asked for once the arm has
    been commanded. *)
Theorem move_ee_xyz_solves_first delta_xyz eef_step wps w :
  let s := self w in
  let info := getLinkState env (trace w) (robot_id s) (ee_link_id s) in
  _step_sim_mode s = false ->
  linear_interpolate_path env info.1 delta_xyz eef_step = Returns wps ->
  exists motions,
    trace (move_ee_xyz env delta_xyz eef_step w).2 =
      trace w ++ [p_getLinkState (robot_id s) (ee_link_id s)] ++
      ((fun wp =>
          p_calculateInverseKinematics (robot_id s) (ee_link_id s) wp
            (Some (to_quat env info.2)) (_ik_jds s)) <$> wps) ++
      motions /\
    Forall (fun c => is_motion c = true) motions /\
    self (move_ee_xyz env delta_xyz eef_step w).2 = s.
Proof.
  intros s info Hmode Hplan.
  pose (w0 := World s (trace w ++ [p_getLinkState (robot_id s) (ee_link_id s)])).
  destruct (for_append_compute_ik_trace (Some info.2) wps w0) as (js & Hjs).
  match type of Hjs with _ = (_, ?w1') => set (w1 := w1') in Hjs end.
  destruct (for_assign_set_jpos_motions js false w1)
    as (o & motions & Hrun & Hmotions).
  exists motions.
  assert (move_ee_xyz env delta_xyz eef_step w
          = (o, World (self w1) (trace w1 ++ motions))) as ->.
  { unfold move_ee_xyz. run_M. fold s. rewrite Hmode. run_M.
    rewrite get_ee_pose_returns. cbv zeta. fold s info w0. run_M.
    rewrite Hplan. run_M. rewrite Hjs. exact Hrun. }
  unfold w1, w0. cbn [snd self trace]. by rewrite <- !app_assoc.
Qed.

(** X12. In realtime simulation, when the planner raises, [move_ee_xyz]
    raises the same exception, and when the plan is empty it returns
    [False]; in both cases the pose was read and nothing else was called:
    no solution was asked for and no joint was commanded. *)
Theorem move_ee_xyz_without_waypoints delta_xyz eef_step w :
  let s := self w in
  let info := getLinkState env (trace w) (robot_id s) (ee_link_id s) in
  let w0 := World s (trace w ++ [p_getLinkState (robot_id s) (ee_link_id s)]) in
  _step_sim_mode s = false ->
  (forall e,
     linear_interpolate_path env info.1 delta_xyz eef_step = Raises e ->
     move_ee_xyz env delta_xyz eef_step w = (Raises e, w0)) /\
  (linear_interpolate_path env info.1 delta_xyz eef_step = Returns [] ->
   move_ee_xyz env delta_xyz eef_step w = (Returns false, w0)).
Proof.
  intros s info w0 Hmode. split; [intros e|]; intros Hplan.
  all: unfold move_ee_xyz; run_M; fold s; rewrite Hmode; run_M.
  all: rewrite get_ee_pose_returns; cbv zeta; fold s info w0; run_M.
  all: by rewrite Hplan.
Qed.

End EndEffector.

Lemma set_ee_pose_commands_witness :
  (set_ee_pose one_value_solver (Some [0.3; 0; 0.5]%float) None true
     (at_rest false [false; false])).1 = Raises ValueError /\
  (set_ee_pose scripted None None false (at_rest false [false; false])).1
    = Returns false.
Proof.
  destruct (set_ee_pose_commands one_value_solver (Some [0.3; 0; 0.5]%float)
              None true (at_rest false [false; false])) as [Hshort _].
  destruct (set_ee_pose_commands scripted None None false
              (at_rest false [false; false])) as [_ Hlong].
  split.
  - rewrite Hshort; [reflexivity|]. vm_compute. lia.
  - rewrite Hlong; [reflexivity|]. vm_compute. lia.
Defined.

Lemma move_ee_xyz_solves_first_witness :
  exists motions,
    length (trace (move_ee_xyz scripted [0.1; 0; 0]%float 0.005%float
                     (at_rest false [false; false])).2)
      = 3 + length motions /\
    Forall (fun c => is_motion c = true) motions.
Proof.
  destruct (move_ee_xyz_solves_first scripted [0.1; 0; 0]%float 0.005%float
              _ (at_rest false [false; false]) eq_refl eq_refl)
    as (motions & Htrace & Hmotions & _).
  exists motions. split; [|exact Hmotions]. rewrite Htrace. reflexivity.
Defined.

Lemma move_ee_xyz_without_waypoints_witness :
  (move_ee_xyz (scripted_plan (Raises ValueError)) [0.1; 0; 0]%float 0%float
     (at_rest false [false; false])).1 = Raises ValueError /\
  (move_ee_xyz (scripted_plan (Returns [])) [0; 0; 0]%float 0.005%float
     (at_rest false [false; false])).1 = Returns false.
Proof.
  destruct (move_ee_xyz_without_waypoints (scripted_plan (Raises ValueError))
              [0.1; 0; 0]%float 0%float (at_rest false [false; false])
              eq_refl) as [Hraises _].
  destruct (move_ee_xyz_without_waypoints (scripted_plan (Returns []))
              [0; 0; 0]%float 0.005%float (at_rest false [false; false])
              eq_refl) as [_ Hempty].
  split.
  - by rewrite (Hraises ValueError eq_refl).
  - by rewrite (Hempty eq_refl).
Defined.

(** ** The simulation mode *)

Section SimulationMode.
Context (env : environment).

Lemma with__step_sim_mode_twice s a b :
  with__step_sim_mode (with__step_sim_mode s a) b = with__step_sim_mode s b.
Proof. done. Qed.

Lemma with__step_sim_mode_same s :
  with__step_sim_mode s (_step_sim_mode s) = s.
Proof. by destruct s. Qed.

Lemma foldl_realtime_simulation ons ss :
  let ss' := foldl (fun ss on => realtime_simulation on ss) ss ons in
  HAS_EETOOL ss' = HAS_EETOOL ss /\
  pb_util.RENDER (pb ss') = pb_util.RENDER (pb ss) /\
  pb_util.PB_CLIENT (pb ss') = pb_util.PB_CLIENT (pb ss) /\
  trace (arm ss') = trace (arm ss) /\
  with__step_sim_mode (self (arm ss')) (_step_sim_mode (self (arm ss)))
    = self (arm ss) /\
  (HAS_EETOOL ss = false ->
   eetool__step_sim_mode ss' = eetool__step_sim_mode ss) /\
  pb_util.calls (pb ss') =
    pb_util.calls (pb ss) ++
      (if pb_util.RENDER (pb ss)
       then (fun on : bool =>
               pb_util.p_setRealTimeSimulation (if on then 1 else 0)
                 (pb_util.PB_CLIENT (pb ss))) <$> ons
       else []).
Proof.
  induction ons as [|on ons IH] using rev_ind.
  - cbn. rewrite with__step_sim_mode_same.
    repeat split. destruct (pb_util.RENDER (pb ss)); by rewrite app_nil_r.
  - rewrite foldl_app. cbn [foldl]. cbv zeta in IH.
    destruct IH
      as (Htool & Hrender & Hclient & Htrace & Hself & Hmode & Hcalls).
    set (ss1 := foldl (fun ss on => realtime_simulation on ss) ss ons) in *.
    cbv zeta. unfold realtime_simulation.
    cbn [HAS_EETOOL pb arm self trace eetool__step_sim_mode].
    rewrite with__step_sim_mode_twice.
    repeat split; try done.
    + unfold pb_util.set_step_sim. cbn.
      by destruct (pb_util.RENDER (pb ss1)), on.
    + unfold pb_util.set_step_sim. cbn.
      by destruct (pb_util.RENDER (pb ss1)), on.
    + intros Hno. rewrite Htool, Hno. by apply Hmode.
    + unfold pb_util.set_step_sim. cbn. rewrite Hcalls, <- Hrender, Hclient.
      destruct (pb_util.RENDER (pb ss1)), on; cbn;
        by rewrite ?fmap_app, ?app_nil_r, <- ?app_assoc.
Qed.

(** X13. After any series of calls of [realtime_simulation], the last of
    them with [on], the arm, the [pb_util] module and, when there is one, the
    end-effector tool agree on the mode: each is in step simulation exactly
    when [on] is false.  Under the GUI pybullet was told of every call, in
    order, with [setRealTimeSimulation(1)] for realtime and [0] for step
    simulation; without GUI no call was made.  The other attributes of the
    arm and its trace are as before. *)
Theorem realtime_simulation_sync ons on ss :
  let ss' := foldl (fun ss on => realtime_simulation on ss) ss (ons ++ [on]) in
  _step_sim_mode (self (arm ss')) = negb on /\
  pb_util.STEP_SIM_MODE (pb ss') = negb on /\
  eetool__step_sim_mode ss' =
    (if HAS_EETOOL ss then negb on
     else eetool__step_sim_mode ss) /\
  pb_util.calls (pb ss') =
    pb_util.calls (pb ss) ++
      (if pb_util.RENDER (pb ss)
       then (fun on : bool =>
               pb_util.p_setRealTimeSimulation (if on then 1 else 0)
                 (pb_util.PB_CLIENT (pb ss))) <$> (ons ++ [on])
       else []) /\
  with__step_sim_mode (self (arm ss')) (_step_sim_mode (self (arm ss)))
    = self (arm ss) /\
  trace (arm ss') = trace (arm ss).
Proof.
  intros ss'.
  destruct (foldl_realtime_simulation (ons ++ [on]) ss)
    as (_ & _ & _ & Htrace & Hself & _ & Hcalls).
  fold ss' in Htrace, Hself, Hcalls.
  destruct (foldl_realtime_simulation ons ss)
    as (Htool & _ & _ & _ & _ & Hmode & _).
  assert (ss' = realtime_simulation on
                  (foldl (fun ss on => realtime_simulation on ss) ss ons))
    as Hlast by (unfold ss'; by rewrite foldl_app).
  set (ss1 := foldl (fun ss on => realtime_simulation on ss) ss ons) in *.
  clearbody ss1 ss'. subst ss'.
  unfold realtime_simulation, pb_util.set_step_sim in *. cbn in *.
  split; [done|]. split; [by destruct (pb_util.RENDER (pb ss1)), on|].
  split; [|done].
  rewrite Htool. destruct (HAS_EETOOL ss); [done|]. by apply Hmode.
Qed.

(** X14. Once [realtime_simulation(False)] has been called, the commands do
    not wait, whatever [wait] says: a valid whole-arm goal makes [set_jpos]
    and [set_jvel] issue their one command and return [False] without a call
    of the waiter, and [move_ee_xyz] raises [AssertionError] without any
    call. *)
Theorem step_simulation_never_waits ss xs wait delta_xyz eef_step :
  let w := arm (realtime_simulation false ss) in
  length xs = arm_dof (self (arm ss)) ->
  set_jpos env (PyList xs) None wait false w =
    (Returns false,
     World (self w)
       (trace (arm ss) ++ [position_array (self w) (PyList xs)])) /\
  set_jvel env (PyList xs) None wait w =
    (Returns false,
     World (self w)
       (trace (arm ss) ++ [velocity_array (self w) (PyList xs)])) /\
  move_ee_xyz env delta_xyz eef_step w = (Raises AssertionError, w).
Proof.
  intros w Hlen. split; [|split].
  - rewrite set_jpos_all_physics; [done|]. exact Hlen.
  - unfold set_jvel. run_M. simpl. rewrite decide_False; [by run_M|].
    intros Hne. by apply Hne.
  - unfold move_ee_xyz. by run_M.
Qed.

End SimulationMode.

Lemma step_simulation_never_waits_witness :
  (set_jpos scripted (PyList [0.5; 1]%float) None true false
     (arm (realtime_simulation false
             (Session (at_rest false [false; false]) true false
                (pb_util.State (Some 0%Z) false true []))))).1
    = Returns false.
Proof.
  destruct (step_simulation_never_waits scripted
              (Session (at_rest false [false; false]) true false
                 (pb_util.State (Some 0%Z) false true []))
              [0.5; 1]%float true [0.1; 0; 0]%float 0.005%float eq_refl)
    as (Hpos & _ & _).
  by rewrite Hpos.
Defined.

(** ** Loading models *)

Lemma is_nan_not_leb_0 (x : float) :
  PrimFloat.is_nan x = true -> (x <=? 0)%float = false.
Proof.
  unfold PrimFloat.is_nan. rewrite FloatAxioms.eqb_spec, leb_spec.
  change (Prim2SF 0%float) with (S754_zero false).
  destruct (Prim2SF x) as [[]|[]| |[] m e]; try done.
  all: unfold SFeqb, SFcompare.
  all: by rewrite Z.compare_refl, Pos.compare_refl.
Qed.

(** X15. [load_urdf] and [load_sdf] refuse a scaling that compares [<= 0]
    with [ValueError] before any call to pybullet: the module is as it was.
    A positive scaling, and also a NaN, is accepted: the model is loaded with
    that scaling (and, for [load_urdf], position [0,0,0] and orientation
    [0,0,0,1] where none is given), gravity is set to [(0, 0, -9.8)] right
    after, and the id given by pybullet is returned.  [load_mjcf] does the
    same without a check. *)
Theorem load_scaling_guard loaded filename base_pos base_ori scaling st :
  let client := pb_util.PB_CLIENT st in
  let after c :=
    pb_util.State client (pb_util.STEP_SIM_MODE st) (pb_util.RENDER st)
      (pb_util.calls st ++
         [c; pb_util.p_setGravity 0 0 (-9.8) client]) in
  ((scaling <=? 0)%float = true ->
   pb_util.load_urdf loaded filename base_pos base_ori scaling st
     = (Raises ValueError, st) /\
   pb_util.load_sdf loaded filename scaling st = (Raises ValueError, st)) /\
  ((0 <? scaling)%float = true \/ PrimFloat.is_nan scaling = true ->
   pb_util.load_urdf loaded filename base_pos base_ori scaling st
     = (Returns (loaded (pb_util.calls st)),
        after (pb_util.p_loadURDF filename
                 (default [0; 0; 0]%float base_pos)
                 (default [0; 0; 0; 1]%float base_ori) scaling client)) /\
   pb_util.load_sdf loaded filename scaling st
     = (Returns (loaded (pb_util.calls st)),
        after (pb_util.p_loadSDF filename scaling client))) /\
  pb_util.load_mjcf loaded filename st
    = (Returns (loaded (pb_util.calls st)),
       after (pb_util.p_loadMJCF filename client)).
Proof.
  intros client after. unfold pb_util.load_urdf, pb_util.load_sdf,
    pb_util.load_mjcf, pb_util.set_gravity, pb_util.called. cbn.
  split; [by intros ->|]. split.
  - intros Hok.
    assert ((scaling <=? 0)%float = false) as ->
      by (destruct Hok; [by apply ltb_0_not_leb_0|by apply is_nan_not_leb_0]).
    unfold after. by rewrite <- !app_assoc.
  - unfold after. by rewrite <- !app_assoc.
Qed.

Lemma load_scaling_guard_witness :
  pb_util.load_urdf (fun _ => 4%Z) "table.urdf" None None 0%float
    (pb_util.State (Some 0%Z) false false [])
    = (Raises ValueError, pb_util.State (Some 0%Z) false false []) /\
  (pb_util.load_urdf (fun _ => 4%Z) "table.urdf" None None nan
     (pb_util.State (Some 0%Z) false false [])).1 = Returns 4%Z /\
  (pb_util.load_sdf (fun _ => 4%Z) "table.sdf" 2%float
     (pb_util.State (Some 0%Z) false false [])).1 = Returns 4%Z.
Proof.
  destruct (load_scaling_guard (fun _ => 4%Z) "table.urdf" None None 0%float
              (pb_util.State (Some 0%Z) false false [])) as (Hzero & _ & _).
  destruct (load_scaling_guard (fun _ => 4%Z) "table.urdf" None None nan
              (pb_util.State (Some 0%Z) false false [])) as (_ & Hnan & _).
  destruct (load_scaling_guard (fun _ => 4%Z) "table.sdf" None None 2%float
              (pb_util.State (Some 0%Z) false false [])) as (_ & Htwo & _).
  split; [apply Hzero; reflexivity|]. split.
  - destruct Hnan as [-> _]; [right; reflexivity|reflexivity].
  - destruct Htwo as [_ ->]; [left; reflexivity|reflexivity].
Defined.

(** ** URScript programs *)

Lemma append_assoc (a b c : string) : (a +:+ b) +:+ c = a +:+ b +:+ c.
Proof.
  induction a as [|x a IH]; [done|].
  change (String x ((a +:+ b) +:+ c) = String x (a +:+ b +:+ c)).
  by rewrite IH.
Qed.

Lemma append_nil_r (s : string) : s +:+ EmptyString = s.
Proof.
  induction s as [|x s IH]; [done|].
  change (String x (s +:+ EmptyString) = String x s). by rewrite IH.
Qed.

Lemma append_eq_nil (a b : string) :
  a +:+ b = EmptyString -> a = EmptyString /\ b = EmptyString.
Proof. by destruct a. Qed.

Lemma add_lines_program lines self :
  let self' :=
    foldl (fun s line => urscript_util._add_line_to_program line s) self
      lines in
  urscript_util.program self' =
    urscript_util.program self +:+ urscript_util.lines_text lines /\
  urscript_util.header self' = urscript_util.header self.
Proof.
  revert self. induction lines as [|line lines IH]; intros self; cbn.
  - by rewrite append_nil_r.
  - destruct (IH (urscript_util._add_line_to_program line self)) as [-> ->].
    cbn. by rewrite !append_assoc.
Qed.

Lemma add_headers_program headers self :
  urscript_util.program
    (foldl (fun s line => urscript_util._add_header_to_program line s) self
       headers)
  = urscript_util.program self.
Proof.
  revert self. induction headers as [|h headers IH]; intros self; [done|].
  cbn [foldl]. by rewrite IH.
Qed.

Lemma call_add_lines lines self :
  lines <> [] ->
  urscript_util.__call__
    (foldl (fun s line => urscript_util._add_line_to_program line s) self
       lines)
  = (if decide (urscript_util.header self = EmptyString) then EmptyString
     else urscript_util.header self +:+ urscript_util.nl +:+ urscript_util.nl)
    +:+ "def myProg():" +:+ urscript_util.program self +:+
    urscript_util.lines_text lines +:+ urscript_util.nl +:+ "end".
Proof.
  intros Hlines. unfold urscript_util.__call__.
  destruct (add_lines_program lines self) as [-> ->].
  rewrite decide_False.
  2:{ intros Hnil. apply append_eq_nil in Hnil as [_ Hnil].
      destruct lines as [|line lines]; [done|]. discriminate. }
  cbv zeta. rewrite !append_assoc.
  by destruct (decide (urscript_util.header self = EmptyString)),
    (decide (urscript_util.header self <> EmptyString)).
Qed.

(** X16. A script without program lines renders as the empty string, also
    when header lines were added: the header alone is never sent.  Once
    lines have been added, the script is the header followed by an empty
    line, if there is a header, then [def myProg():], the program with each
    added line on a line of its own after a tab, in the order added, and
    [end] on the last line. *)
Theorem __call___renders self headers lines :
  urscript_util.__call__
    (foldl (fun s line => urscript_util._add_header_to_program line s)
       (urscript_util.reset self) headers) = EmptyString /\
  (lines <> [] ->
   urscript_util.__call__
     (foldl (fun s line => urscript_util._add_line_to_program line s) self
        lines)
   = (if decide (urscript_util.header self = EmptyString) then EmptyString
      else urscript_util.header self +:+ urscript_util.nl +:+ urscript_util.nl)
     +:+ "def myProg():" +:+ urscript_util.program self +:+
     urscript_util.lines_text lines +:+ urscript_util.nl +:+ "end").
Proof.
  split; [|apply call_add_lines].
  unfold urscript_util.__call__. by rewrite add_headers_program.
Qed.

Lemma constrain_unsigned_char_Int z :
  urscript_util.constrain_unsigned_char (urscript_util.Int z)
  = Returns (Z.max 0 (Z.min 255 z)).
Proof.
  unfold urscript_util.constrain_unsigned_char.
  destruct (Z.ltb_spec z 0); [f_equal; lia|].
  rewrite Z.gtb_ltb. destruct (Z.ltb_spec 255 z); f_equal; lia.
Qed.

(** X17. The setters of the gripper saturate: for an integer request they
    write its value clamped to [0, 255] (so every request above 255 gives the
    program of 255, every negative one that of 0, and one in range is written
    as it is), as one [socket_set_var] line for [POS], [SPE] or [FOR] on the
    socket of the gripper followed by a [sync()] line.  A request that is not
    an integer raises [AssertionError]. *)
Theorem gripper_setters_saturate z s self :
  let c := Z.max 0 (Z.min 255 z) in
  let written var :=
    Returns
      (urscript_util.with_script self
         (foldl (fun s line => urscript_util._add_line_to_program line s)
            (urscript_util.script self)
            [urscript_util.set_var_line var c (urscript_util.socket_name self);
             "sync()"])) in
  (0 <= c <= 255)%Z /\
  ((0 <= z <= 255)%Z -> c = z) /\
  urscript_util.set_gripper_position (urscript_util.Int z) self
    = written "POS" /\
  urscript_util.set_gripper_speed (urscript_util.Int z) self
    = written "SPE" /\
  urscript_util.set_gripper_force (urscript_util.Int z) self
    = written "FOR" /\
  urscript_util.set_gripper_position (urscript_util.Str s) self
    = Raises AssertionError /\
  urscript_util.set_gripper_speed (urscript_util.Str s) self
    = Raises AssertionError /\
  urscript_util.set_gripper_force (urscript_util.Str s) self
    = Raises AssertionError.
Proof.
  intros c written. split; [lia|]. split; [lia|].
  unfold urscript_util.set_gripper_position, urscript_util.set_gripper_speed,
    urscript_util.set_gripper_force.
  rewrite constrain_unsigned_char_Int. by repeat split.
Qed.

(** X18. A gripper script that is constructed, activated and given a
    position renders, without header, as [def myProg():], then the lines that
    close the socket, open it on the host and port, set [ACT] to 1, [sync()],
    set [POS] to the clamped position, [sync()], and [end]. *)
Theorem gripper_script_renders host port name z :
  exists g,
    urscript_util.set_gripper_position (urscript_util.Int z)
      (urscript_util.set_activate
         (urscript_util.Robotiq2F140URScript__init__ host port name))
    = Returns g /\
    urscript_util.__call__ (urscript_util.script g) =
      "def myProg():" +:+
      urscript_util.lines_text
        ["socket_close(" +:+ urscript_util.dq +:+ urscript_util.format name
           +:+ urscript_util.dq +:+ ")";
         "socket_open(" +:+ urscript_util.dq +:+ urscript_util.format host
           +:+ urscript_util.dq +:+ "," +:+ urscript_util.format port +:+ ","
           +:+ urscript_util.dq +:+ urscript_util.format name
           +:+ urscript_util.dq +:+ ")";
         urscript_util.set_var_line "ACT" 1 name;
         "sync()";
         urscript_util.set_var_line "POS" (Z.max 0 (Z.min 255 z)) name;
         "sync()"]
      +:+ urscript_util.nl +:+ "end".
Proof.
  unfold urscript_util.set_gripper_position.
  rewrite constrain_unsigned_char_Int. eexists. split; [reflexivity|].
  cbn [urscript_util.script urscript_util.with_script
       urscript_util.set_activate urscript_util.Robotiq2F140URScript__init__
       urscript_util.socket_name].
  etrans.
  { apply (call_add_lines
             ["socket_close(" +:+ urscript_util.dq +:+ urscript_util.format name
                +:+ urscript_util.dq +:+ ")";
              "socket_open(" +:+ urscript_util.dq +:+ urscript_util.format host
                +:+ urscript_util.dq +:+ "," +:+ urscript_util.format port
                +:+ "," +:+ urscript_util.dq +:+ urscript_util.format name
                +:+ urscript_util.dq +:+ ")";
              urscript_util.set_var_line "ACT" 1 name;
              "sync()";
              urscript_util.set_var_line "POS" (Z.max 0 (Z.min 255 z)) name;
              "sync()"] urscript_util.__init__). done. }
  done.
Qed.

Lemma __call___renders_witness :
  urscript_util.__call__
    (foldl (fun s line => urscript_util._add_line_to_program line s)
       urscript_util.__init__ ["sleep(2)"; "sync()"])
  = "def myProg():" +:+ urscript_util.nl +:+ urscript_util.tab +:+ "sleep(2)"
    +:+ urscript_util.nl +:+ urscript_util.tab +:+ "sync()"
    +:+ urscript_util.nl +:+ "end".
Proof.
  destruct (__call___renders urscript_util.__init__ []
              ["sleep(2)"; "sync()"]) as [_ Hlines].
  rewrite Hlines by done. reflexivity.
Defined.

Lemma gripper_setters_saturate_witness :
  Z.max 0 (Z.min 255 128) = 128%Z /\
  urscript_util.set_gripper_position (urscript_util.Int 300)
    (urscript_util.Robotiq2F140URScript__init__
       (urscript_util.Str "127.0.0.1") (urscript_util.Int 63352)
       (urscript_util.Str "gripper_socket"))
  = urscript_util.set_gripper_position (urscript_util.Int 255)
      (urscript_util.Robotiq2F140URScript__init__
         (urscript_util.Str "127.0.0.1") (urscript_util.Int 63352)
         (urscript_util.Str "gripper_socket")).
Proof.
  destruct (gripper_setters_saturate 128 "x"
              (urscript_util.Robotiq2F140URScript__init__
                 (urscript_util.Str "127.0.0.1") (urscript_util.Int 63352)
                 (urscript_util.Str "gripper_socket")))
    as (_ & Hrange & _).
  destruct (gripper_setters_saturate 300 "x"
              (urscript_util.Robotiq2F140URScript__init__
                 (urscript_util.Str "127.0.0.1") (urscript_util.Int 63352)
                 (urscript_util.Str "gripper_socket")))
    as (_ & _ & Hhigh & _).
  destruct (gripper_setters_saturate 255 "x"
              (urscript_util.Robotiq2F140URScript__init__
                 (urscript_util.Str "127.0.0.1") (urscript_util.Int 63352)
                 (urscript_util.Str "gripper_socket")))
    as (_ & _ & Htop & _).
  split; [apply Hrange; lia|]. rewrite Hhigh, Htop. reflexivity.
Defined.

(** ** Loading a geometry *)

Lemma load_geom_args_raises shape_type size visualfile collifile mesh_scale e :
  pb_util.load_geom_args shape_type size visualfile collifile mesh_scale
    = Raises e ->
  e = TypeError \/ e = ValueError.
Proof.
  unfold pb_util.load_geom_args. intros Hargs.
  repeat case_match; simplify_eq; auto.
Qed.

Lemma load_geom_args_shapeType shape_type size visualfile collifile mesh_scale
    collision_args visual_args :
  pb_util.load_geom_args shape_type size visualfile collifile mesh_scale
    = Returns (collision_args, visual_args) ->
  exists g,
    pb_util.pb_shape_types !! shape_type = Some g /\
    collision_args !! "shapeType"%string = Some (pb_util.OGeom g) /\
    visual_args !! "shapeType"%string = Some (pb_util.OGeom g).
Proof.
  unfold pb_util.load_geom_args. intros Hargs.
  destruct (pb_util.pb_shape_types !! shape_type) as [g|]; [|done].
  exists g. split; [done|].
  repeat case_match; simplify_eq; by simplify_map_eq.
Qed.

(** X19. [load_geom] checks everything before it touches pybullet.  When it
    raises, the exception is [TypeError] or [ValueError] and no call was
    made.  When it returns, it has made exactly six calls: rendering off,
    [createVisualShape], [createCollisionShape], [createMultiBody] with the
    ids of the two shapes, rendering on again, and [setGravity(0, 0, -9.8)];
    it returns the id of the body.  Both shapes are created with the shape
    type named by [shape_type] and with the client of the module, the visual
    shape with the colours given, and the globals of the module are as
    before. *)
Theorem load_geom_checks_first created shape_type size mass visualfile
    collifile mesh_scale rgba specular shift_pos shift_ori base_pos base_ori
    st :
  let client := pb_util.PB_CLIENT st in
  match pb_util.load_geom created shape_type size mass visualfile collifile
          mesh_scale rgba specular shift_pos shift_ori base_pos base_ori st
  with
  | (Raises e, st') => st' = st /\ (e = TypeError \/ e = ValueError)
  | (Returns body_id, st') =>
      exists g visual_args collision_args,
        let off := pb_util.p_configureDebugVisualizer_RENDERING 0 client in
        let visual := pb_util.p_createVisualShape visual_args in
        let collision := pb_util.p_createCollisionShape collision_args in
        let vs_id := created (pb_util.calls st ++ [off]) in
        let cs_id := created (pb_util.calls st ++ [off; visual]) in
        let body :=
          pb_util.p_createMultiBody mass shift_pos shift_ori cs_id vs_id
            base_pos base_ori client in
        st' =
          pb_util.State client (pb_util.STEP_SIM_MODE st) (pb_util.RENDER st)
            (pb_util.calls st ++
               [off; visual; collision; body;
                pb_util.p_configureDebugVisualizer_RENDERING 1 client;
                pb_util.p_setGravity 0 0 (-9.8) client]) /\
        body_id = created (pb_util.calls st ++ [off; visual; collision]) /\
        pb_util.pb_shape_types !! shape_type = Some g /\
        visual_args !! "shapeType"%string = Some (pb_util.OGeom g) /\
        collision_args !! "shapeType"%string = Some (pb_util.OGeom g) /\
        visual_args !! "physicsClientId"%string
          = Some (pb_util.client_obj client) /\
        collision_args !! "physicsClientId"%string
          = Some (pb_util.client_obj client) /\
        visual_args !! "rgbaColor"%string = Some rgba /\
        visual_args !! "specularColor"%string = Some specular
  end.
Proof.
  intros client. unfold pb_util.load_geom.
  destruct (pb_util.load_geom_args shape_type size visualfile collifile
              mesh_scale) as [[collision_args visual_args]|e] eqn:Hargs.
  - destruct (load_geom_args_shapeType _ _ _ _ _ _ _ Hargs)
      as (g & Hg & Hcollision & Hvisual).
    eexists g, _, _. cbv zeta.
    unfold pb_util.set_gravity, pb_util.called. cbn.
    rewrite <- !app_assoc. cbn.
    split; [reflexivity|]. split; [reflexivity|]. split; [done|].
    by simplify_map_eq.
  - split; [done|]. by eapply load_geom_args_raises.
Qed.

Lemma load_geom_outcome created shape_type size mass visualfile collifile
    mesh_scale rgba specular shift_pos shift_ori base_pos base_ori st :
  match pb_util.load_geom_args shape_type size visualfile collifile mesh_scale
  with
  | Raises e =>
      pb_util.load_geom created shape_type size mass visualfile collifile
        mesh_scale rgba specular shift_pos shift_ori base_pos base_ori st
      = (Raises e, st)
  | Returns _ =>
      exists id,
        (pb_util.load_geom created shape_type size mass visualfile collifile
           mesh_scale rgba specular shift_pos shift_ori base_pos base_ori st).1
        = Returns id
  end.
Proof.
  unfold pb_util.load_geom.
  destruct (pb_util.load_geom_args _ _ _ _ _) as [[c v]|e]; [|done].
  by eexists.
Qed.

Lemma load_geom_args_sphere size visualfile collifile mesh_scale :
  pb_util.load_geom_args "sphere" size visualfile collifile mesh_scale =
    if negb (pb_util.is_None size) &&
       negb (pb_util.is_float size && pb_util.gt_0 size)
    then Raises TypeError
    else
      let radius :=
        if pb_util.is_None size then pb_util.OFloat 0.5 else size in
      Returns
        (<["radius"%string := radius]>
           (<["shapeType"%string := pb_util.OGeom pb_util.GEOM_SPHERE]> ∅),
         <["radius"%string := radius]>
           (<["shapeType"%string := pb_util.OGeom pb_util.GEOM_SPHERE]> ∅)).
Proof. reflexivity. Qed.

Lemma load_geom_args_box size visualfile collifile mesh_scale :
  pb_util.load_geom_args "box" size visualfile collifile mesh_scale =
    match
      (if pb_util.is_float size
       then Returns (pb_util.OList [size; size; size])
       else if pb_util.is_list size then
         if decide (pb_util.olen size <> 3) then Raises ValueError
         else Returns size
       else if negb (pb_util.is_None size) then Raises TypeError
       else Returns size)
    with
    | Raises e => Raises e
    | Returns size =>
        let halfExtents :=
          if pb_util.is_None size
          then pb_util.OList [pb_util.OInt 1; pb_util.OInt 1; pb_util.OInt 1]
          else size in
        Returns
          (<["halfExtents"%string := halfExtents]>
             (<["shapeType"%string := pb_util.OGeom pb_util.GEOM_BOX]> ∅),
           <["halfExtents"%string := halfExtents]>
             (<["shapeType"%string := pb_util.OGeom pb_util.GEOM_BOX]> ∅))
    end.
Proof. reflexivity. Qed.

Lemma load_geom_args_capsule shape_type g size visualfile collifile
    mesh_scale :
  shape_type = "capsule"%string /\ g = pb_util.GEOM_CAPSULE \/
  shape_type = "cylinder"%string /\ g = pb_util.GEOM_CYLINDER ->
  pb_util.load_geom_args shape_type size visualfile collifile mesh_scale =
    if negb (pb_util.is_None size) &&
       (negb (pb_util.is_list size) || bool_decide (pb_util.olen size <> 2))
    then Raises TypeError
    else if negb (pb_util.is_None size) &&
            existsb (fun si => negb (pb_util.is_Number si) || pb_util.le_0 si)
              (pb_util.items size)
    then Raises TypeError
    else
      let radius :=
        if pb_util.is_None size then pb_util.OFloat 0.5
        else pb_util.oget size 0 in
      let height :=
        if pb_util.is_None size then pb_util.OFloat 1
        else pb_util.oget size 1 in
      Returns
        (<["height"%string := height]>
           (<["radius"%string := radius]>
              (<["shapeType"%string := pb_util.OGeom g]> ∅)),
         <["length"%string := height]>
           (<["radius"%string := radius]>
              (<["shapeType"%string := pb_util.OGeom g]> ∅))).
Proof. by intros [[-> ->]|[-> ->]]. Qed.

(** X20. What [load_geom] accepts as [size].  A sphere takes no size, or a
    float that is [> 0]: an integer, also a positive one, and a NaN are
    refused with [TypeError].  A box takes no size, any float whatever its
    sign, or a list of three items whatever they are; a list of another
    length raises [ValueError] and anything else [TypeError].  A capsule or
    a cylinder takes no size, or a list of two numbers, integers or floats,
    none of which is [<= 0] (a NaN passes); everything else, a list of
    another length too, raises [TypeError]. *)
Theorem load_geom_size_checks created size mass visualfile collifile
    mesh_scale rgba specular shift_pos shift_ori base_pos base_ori st :
  let run shape_type :=
    (pb_util.load_geom created shape_type size mass visualfile collifile
       mesh_scale rgba specular shift_pos shift_ori base_pos base_ori st).1 in
  let returns shape_type := exists id, run shape_type = Returns id in
  match size with
  | pb_util.ONone => returns "sphere"%string
  | pb_util.OFloat x =>
      if (0 <? x)%float then returns "sphere"%string
      else run "sphere"%string = Raises TypeError
  | _ => run "sphere"%string = Raises TypeError
  end /\
  match size with
  | pb_util.ONone | pb_util.OFloat _ => returns "box"%string
  | pb_util.OList l =>
      if decide (length l = 3) then returns "box"%string
      else run "box"%string = Raises ValueError
  | _ => run "box"%string = Raises TypeError
  end /\
  (forall shape_type,
     shape_type = "capsule"%string \/ shape_type = "cylinder"%string ->
     match size with
     | pb_util.ONone => returns shape_type
     | pb_util.OList [r; h] =>
         if pb_util.is_Number r && negb (pb_util.le_0 r) &&
            pb_util.is_Number h && negb (pb_util.le_0 h)
         then returns shape_type
         else run shape_type = Raises TypeError
     | _ => run shape_type = Raises TypeError
     end).
Proof.
  intros run returns. unfold returns, run. clear run returns.
  split; [|split].
  - pose proof (load_geom_outcome created "sphere" size mass visualfile
                  collifile mesh_scale rgba specular shift_pos shift_ori
                  base_pos base_ori st) as Hrun.
    rewrite load_geom_args_sphere in Hrun.
    destruct size as [|x|z|s|l|g]; cbn in Hrun; try by rewrite Hrun.
    + done.
    + destruct (0 <? x)%float; cbn in Hrun; [done|by rewrite Hrun].
  - pose proof (load_geom_outcome created "box" size mass visualfile
                  collifile mesh_scale rgba specular shift_pos shift_ori
                  base_pos base_ori st) as Hrun.
    rewrite load_geom_args_box in Hrun.
    destruct size as [|x|z|s|l|g]; cbn in Hrun; try by rewrite Hrun.
    + done.
    + done.
    + unfold pb_util.olen in Hrun. cbn in Hrun.
      destruct (decide (length l = 3)) as [Hlen|Hlen].
      * by rewrite decide_False in Hrun by (by intros []).
      * rewrite decide_True in Hrun by done. by rewrite Hrun.
  - intros shape_type Hshape.
    pose proof (load_geom_outcome created shape_type size mass visualfile
                  collifile mesh_scale rgba specular shift_pos shift_ori
                  base_pos base_ori st) as Hrun.
    rewrite (load_geom_args_capsule shape_type
               (if decide (shape_type = "capsule"%string)
                then pb_util.GEOM_CAPSULE else pb_util.GEOM_CYLINDER))
      in Hrun by (by destruct Hshape as [-> | ->]; [left|right]).
    destruct size as [|x|z|s|l|g]; cbn in Hrun; try by rewrite Hrun.
    + done.
    + destruct l as [|r [|h [|]]]; cbn in Hrun; try by rewrite Hrun.
      rewrite !orb_false_r in Hrun.
      destruct (pb_util.is_Number r), (pb_util.le_0 r),
        (pb_util.is_Number h), (pb_util.le_0 h); cbn in *;
        try done; by rewrite Hrun.
Qed.

Lemma load_geom_shapes created shape_type size mass visualfile collifile
    mesh_scale rgba specular shift_pos shift_ori base_pos base_ori st
    collision_args visual_args :
  pb_util.load_geom_args shape_type size visualfile collifile mesh_scale
    = Returns (collision_args, visual_args) ->
  pb_util.shapes_created st
    (pb_util.load_geom created shape_type size mass visualfile collifile
       mesh_scale rgba specular shift_pos shift_ori base_pos base_ori st)
    (<["physicsClientId"%string := pb_util.client_obj (pb_util.PB_CLIENT st)]>
       (<["visualFrameOrientation"%string := shift_ori]>
          (<["visualFramePosition"%string := shift_pos]>
             (<["specularColor"%string := specular]>
                (<["rgbaColor"%string := rgba]> visual_args)))))
    (<["physicsClientId"%string := pb_util.client_obj (pb_util.PB_CLIENT st)]>
       (<["collisionFrameOrientation"%string := shift_ori]>
          (<["collisionFramePosition"%string := shift_pos]> collision_args))).
Proof.
  intros Hargs. unfold pb_util.shapes_created, pb_util.load_geom.
  rewrite Hargs. unfold pb_util.set_gravity, pb_util.called. cbn.
  rewrite <- !app_assoc. cbn. split; [by eexists|].
  split.
  - rewrite lookup_app_r by lia.
    by replace (length (pb_util.calls st) + 1 - length (pb_util.calls st))
      with 1 by lia.
  - rewrite lookup_app_r by lia.
    by replace (length (pb_util.calls st) + 2 - length (pb_util.calls st))
      with 2 by lia.
Qed.


Lemma load_geom_args_mesh size visualfile collifile mesh_scale :
  pb_util.load_geom_args "mesh" size visualfile collifile mesh_scale =
    if pb_util.is_None visualfile && pb_util.is_None collifile
    then Raises ValueError
    else
      let files :=
        if pb_util.is_None visualfile then (collifile, collifile)
        else if pb_util.is_None collifile then (visualfile, visualfile)
        else (visualfile, collifile) in
      if negb (pb_util.is_str files.1) then Raises TypeError
      else if negb (pb_util.is_str files.2) then Raises TypeError
      else
        match
          (if pb_util.is_float mesh_scale
           then Returns (pb_util.OList [mesh_scale; mesh_scale; mesh_scale])
           else if pb_util.is_list mesh_scale then
             if decide (pb_util.olen mesh_scale <> 3) then Raises ValueError
             else Returns mesh_scale
           else if negb (pb_util.is_None mesh_scale) then Raises TypeError
           else Returns mesh_scale)
        with
        | Raises e => Raises e
        | Returns mesh_scale =>
            let meshScale :=
              if pb_util.is_None mesh_scale
              then pb_util.OList
                     [pb_util.OInt 1; pb_util.OInt 1; pb_util.OInt 1]
              else mesh_scale in
            Returns
              (<["meshScale"%string := meshScale]>
                 (<["fileName"%string := files.2]>
                    (<["shapeType"%string := pb_util.OGeom pb_util.GEOM_MESH]>
                       ∅)),
               <["meshScale"%string := meshScale]>
                 (<["fileName"%string := files.1]>
                    (<["shapeType"%string := pb_util.OGeom pb_util.GEOM_MESH]>
                       ∅)))
        end.
Proof. reflexivity. Qed.

Lemma load_geom_raises created shape_type size mass visualfile collifile
    mesh_scale rgba specular shift_pos shift_ori base_pos base_ori st e :
  pb_util.load_geom_args shape_type size visualfile collifile mesh_scale
    = Raises e ->
  pb_util.load_geom created shape_type size mass visualfile collifile
    mesh_scale rgba specular shift_pos shift_ori base_pos base_ori st
  = (Raises e, st).
Proof. intros Hargs. unfold pb_util.load_geom. by rewrite Hargs. Qed.

(** X22. A mesh needs a file: with neither [visualfile] nor [collifile]
    [load_geom] raises [ValueError].  A missing one is replaced by the other,
    so that both shapes are created; a file that is not a string raises
    [TypeError].  The scale of the mesh is [1, 1, 1] when none is given, a
    float is used for all three axes, a list must have three items
    ([ValueError] otherwise), and anything else raises [TypeError].
    Whenever it raises, no call was made.  The [size] plays no part. *)
Theorem load_geom_mesh_files created size mass visualfile collifile mesh_scale
    rgba specular shift_pos shift_ori base_pos base_ori st :
  let vfile :=
    if pb_util.is_None visualfile then collifile else visualfile in
  let cfile :=
    if pb_util.is_None collifile then visualfile else collifile in
  let r :=
    pb_util.load_geom created "mesh" size mass visualfile collifile
      mesh_scale rgba specular shift_pos shift_ori base_pos base_ori st in
  let created_with scale :=
    exists v c,
      pb_util.shapes_created st r v c /\
      v !! "fileName"%string = Some vfile /\
      c !! "fileName"%string = Some cfile /\
      v !! "meshScale"%string = Some scale /\
      c !! "meshScale"%string = Some scale in
  if pb_util.is_None visualfile && pb_util.is_None collifile
  then r = (Raises ValueError, st)
  else if negb (pb_util.is_str vfile && pb_util.is_str cfile)
  then r = (Raises TypeError, st)
  else
    match mesh_scale with
    | pb_util.ONone =>
        created_with
          (pb_util.OList [pb_util.OInt 1; pb_util.OInt 1; pb_util.OInt 1])
    | pb_util.OFloat x =>
        created_with
          (pb_util.OList
             [pb_util.OFloat x; pb_util.OFloat x; pb_util.OFloat x])
    | pb_util.OList l =>
        if decide (length l = 3) then created_with (pb_util.OList l)
        else r = (Raises ValueError, st)
    | _ => r = (Raises TypeError, st)
    end.
Proof.
  intros vfile cfile r created_with.
  unfold created_with, r, vfile, cfile. clear vfile cfile r created_with.
  pose proof (load_geom_args_mesh size visualfile collifile mesh_scale)
    as Hargs.
  destruct (pb_util.is_None visualfile && pb_util.is_None collifile) eqn:Hnone.
  { by apply load_geom_raises. }
  cbv zeta in Hargs.
  assert ((if pb_util.is_None visualfile then (collifile, collifile)
           else if pb_util.is_None collifile then (visualfile, visualfile)
           else (visualfile, collifile))
          = (if pb_util.is_None visualfile then collifile else visualfile,
             if pb_util.is_None collifile then visualfile else collifile))
    as Hfiles.
  { destruct visualfile, collifile; done. }
  rewrite Hfiles in Hargs. cbn [fst snd] in Hargs.
  set (vfile := if pb_util.is_None visualfile then collifile else visualfile)
    in *.
  set (cfile := if pb_util.is_None collifile then visualfile else collifile)
    in *.
  destruct (pb_util.is_str vfile); cbn in Hargs |- *;
    [|by apply load_geom_raises].
  destruct (pb_util.is_str cfile); cbn in Hargs |- *;
    [|by apply load_geom_raises].
  destruct mesh_scale as [|x|z|s|l|g]; cbn in Hargs;
    try by apply load_geom_raises.
  - do 2 eexists. split; [by apply load_geom_shapes|]. by simplify_map_eq.
  - do 2 eexists. split; [by apply load_geom_shapes|]. by simplify_map_eq.
  - unfold pb_util.olen in Hargs. cbn in Hargs.
    destruct (decide (length l = 3)) as [Hlen|Hlen].
    + rewrite decide_False in Hargs by (by intros []).
      do 2 eexists. split; [by apply load_geom_shapes|]. by simplify_map_eq.
    + rewrite decide_True in Hargs by done. by apply load_geom_raises.
Qed.

Lemma load_geom_size_checks_witness :
  (exists id,
     (pb_util.load_geom (fun _ => 7%Z) "capsule"
        (pb_util.OList [pb_util.OFloat nan; pb_util.OInt 2])
        (pb_util.OFloat 0.5) pb_util.ONone pb_util.ONone pb_util.ONone
        pb_util.ONone pb_util.ONone pb_util.ONone pb_util.ONone pb_util.ONone
        pb_util.ONone (pb_util.State None false false [])).1 = Returns id) /\
  (exists id,
     (pb_util.load_geom (fun _ => 7%Z) "cylinder"
        (pb_util.OList [pb_util.OGeom pb_util.GEOM_BOX; pb_util.OFloat 1])
        (pb_util.OFloat 0.5) pb_util.ONone pb_util.ONone pb_util.ONone
        pb_util.ONone pb_util.ONone pb_util.ONone pb_util.ONone pb_util.ONone
        pb_util.ONone (pb_util.State None false false [])).1 = Returns id) /\
  (pb_util.load_geom (fun _ => 7%Z) "cylinder"
     (pb_util.OList [pb_util.OInt 0; pb_util.OFloat 1])
     (pb_util.OFloat 0.5) pb_util.ONone pb_util.ONone pb_util.ONone
     pb_util.ONone pb_util.ONone pb_util.ONone pb_util.ONone pb_util.ONone
     pb_util.ONone (pb_util.State None false false [])).1 = Raises TypeError.
Proof.
  destruct (load_geom_size_checks (fun _ => 7%Z)
              (pb_util.OList [pb_util.OFloat nan; pb_util.OInt 2])
              (pb_util.OFloat 0.5) pb_util.ONone pb_util.ONone pb_util.ONone
              pb_util.ONone pb_util.ONone pb_util.ONone pb_util.ONone
              pb_util.ONone pb_util.ONone (pb_util.State None false false []))
    as (_ & _ & Hcapsule).
  destruct (load_geom_size_checks (fun _ => 7%Z)
              (pb_util.OList [pb_util.OGeom pb_util.GEOM_BOX; pb_util.OFloat 1])
              (pb_util.OFloat 0.5) pb_util.ONone pb_util.ONone pb_util.ONone
              pb_util.ONone pb_util.ONone pb_util.ONone pb_util.ONone
              pb_util.ONone pb_util.ONone (pb_util.State None false false []))
    as (_ & _ & Hconstant).
  destruct (load_geom_size_checks (fun _ => 7%Z)
              (pb_util.OList [pb_util.OInt 0; pb_util.OFloat 1])
              (pb_util.OFloat 0.5) pb_util.ONone pb_util.ONone pb_util.ONone
              pb_util.ONone pb_util.ONone pb_util.ONone pb_util.ONone
              pb_util.ONone pb_util.ONone (pb_util.State None false false []))
    as (_ & _ & Hzero).
  split; [exact (Hcapsule "capsule"%string (or_introl eq_refl))|].
  split; [exact (Hconstant "cylinder"%string (or_intror eq_refl))|].
  exact (Hzero "cylinder"%string (or_intror eq_refl)).
Defined.


(** ** Textures *)

Section Textures.
Context (lib : TextureModder.libraries).

Lemma _check_link_has_tex_getitem body_id link_id sc :
  TextureModder._check_link_has_tex body_id link_id sc = true <->
  exists entry,
    TextureModder.getitem_texture body_id link_id sc = Returns entry.
Proof.
  unfold TextureModder._check_link_has_tex, TextureModder.getitem_texture.
  destruct (TextureModder.texture_dict sc !! body_id) as [links|].
  - destruct (links !! link_id) as [entry|].
    + rewrite decide_False by done. split; [by eexists|done].
    + rewrite decide_True by done. split; [done|by intros [? ?]].
  - split; [done|by intros [? ?]].
Qed.

Lemma set_texture_getitem body_id link_id texture_file sc b l :
  TextureModder.getitem_texture b l
    (TextureModder.set_texture lib body_id link_id texture_file sc)
  = if decide (b = body_id /\ l = link_id)
    then Returns
           (TextureModder.loadTexture lib
              (pb_util.calls (TextureModder.module sc)) texture_file,
            (TextureModder.imread lib texture_file).1,
            (TextureModder.imread lib texture_file).2)
    else TextureModder.getitem_texture b l sc.
Proof.
  unfold TextureModder.getitem_texture, TextureModder.set_texture.
  cbn [TextureModder.texture_dict].
  set (d := TextureModder.texture_dict sc).
  destruct (decide (b = body_id)) as [->|Hb].
  - rewrite lookup_insert_eq.
    assert (default ∅
              ((if decide (d !! body_id = None)
                then <[body_id := ∅]> d else d) !! body_id)
            = default ∅ (d !! body_id)) as ->.
    { destruct (decide (d !! body_id = None)) as [Hnone|Hsome]; [|done].
      by rewrite lookup_insert_eq, Hnone. }
    destruct (decide (l = link_id)) as [->|Hl].
    + rewrite lookup_insert_eq. by rewrite decide_True.
    + rewrite lookup_insert_ne by done.
      rewrite decide_False by (by intros [_ ?]).
      destruct (d !! body_id) as [links|]; [done|].
      cbn. by rewrite lookup_empty.
  - rewrite lookup_insert_ne by done.
    rewrite (decide_False (P := b = body_id /\ l = link_id))
      by (by intros [? _]).
    destruct (decide (d !! body_id = None)); [|done].
    by rewrite lookup_insert_ne.
Qed.

(** X23. [set_texture] loads the texture, applies it to the link, and
    records the link: afterwards the link has a texture, the record of every
    other link is as before, and a texture set earlier on the same link is
    replaced.  A following [set_gradient] on the link, with colours of three
    components, repaints the texture just loaded: it calls [changeTexture]
    with the id that [loadTexture] gave, then the width and then the height
    of the image read ([img.shape[1]] and [img.shape[0]]). *)
Theorem set_texture_round_trip body_id link_id texture_file rgb1 rgb2
    vertical sc :
  let sc' := TextureModder.set_texture lib body_id link_id texture_file sc in
  let tex_id :=
    TextureModder.loadTexture lib (pb_util.calls (TextureModder.module sc))
      texture_file in
  let height := (TextureModder.imread lib texture_file).1 in
  let width := (TextureModder.imread lib texture_file).2 in
  TextureModder.getitem_texture body_id link_id sc'
    = Returns (tex_id, height, width) /\
  TextureModder._check_link_has_tex body_id link_id sc' = true /\
  (forall b l,
     ~ (b = body_id /\ l = link_id) ->
     TextureModder.getitem_texture b l sc'
       = TextureModder.getitem_texture b l sc) /\
  pb_util.calls (TextureModder.module sc') =
    pb_util.calls (TextureModder.module sc) ++
      [pb_util.p_loadTexture texture_file;
       pb_util.p_changeVisualShape_textureUniqueId body_id link_id tex_id] /\
  (length rgb1 = 3 -> length rgb2 = 3 ->
   TextureModder.set_gradient lib body_id link_id rgb1 rgb2 vertical sc' =
     (Returns tt,
      TextureModder.Scene (TextureModder.texture_dict sc')
        (pb_util.called
           (pb_util.p_changeTexture tex_id
              (TextureModder.gradient_pixels lib rgb1 rgb2 vertical height
                 width)
              width height (pb_util.PB_CLIENT (TextureModder.module sc)))
           (TextureModder.module sc')))).
Proof.
  intros sc' tex_id height width.
  assert (TextureModder.getitem_texture body_id link_id sc'
          = Returns (tex_id, height, width)) as Hentry.
  { unfold sc'. rewrite set_texture_getitem. by rewrite decide_True. }
  assert (TextureModder._check_link_has_tex body_id link_id sc' = true)
    as Hcheck by (apply _check_link_has_tex_getitem; by eexists).
  split; [done|]. split; [done|]. split.
  { intros b l Hother. unfold sc'. rewrite set_texture_getitem.
    by rewrite decide_False. }
  split.
  { unfold sc', TextureModder.set_texture, pb_util.called. cbn.
    by rewrite <- app_assoc. }
  intros Hrgb1 Hrgb2. unfold TextureModder.set_gradient.
  rewrite !decide_False by (by intros []).
  by rewrite Hcheck, Hentry.
Qed.

(** X24. On a link without a recorded texture, as every link is after
    [__init__], [set_noise] returns without a call, whatever the colours, and
    so does [set_gradient] when both colours have three components; with a
    colour of another length [set_gradient] raises [ValueError], texture or
    not.  Nothing is changed in either case. *)
Theorem no_texture_no_change body_id link_id rgb1 rgb2 vertical fraction sc :
  (forall st,
     TextureModder._check_link_has_tex body_id link_id
       (TextureModder.__init__ st) = false) /\
  (TextureModder._check_link_has_tex body_id link_id sc = false ->
   TextureModder.set_noise lib body_id link_id rgb1 rgb2 fraction sc
     = (Returns tt, sc) /\
   (length rgb1 = 3 -> length rgb2 = 3 ->
    TextureModder.set_gradient lib body_id link_id rgb1 rgb2 vertical sc
      = (Returns tt, sc))) /\
  (length rgb1 <> 3 \/ length rgb2 <> 3 ->
   TextureModder.set_gradient lib body_id link_id rgb1 rgb2 vertical sc
     = (Raises ValueError, sc)).
Proof.
  split; [done|]. split.
  - intros Hcheck. unfold TextureModder.set_noise, TextureModder.set_gradient.
    rewrite Hcheck. split; [done|]. intros Hrgb1 Hrgb2.
    by rewrite !decide_False by (by intros []).
  - intros Hlen. unfold TextureModder.set_gradient.
    destruct (decide (length rgb1 <> 3)); [done|].
    destruct (decide (length rgb2 <> 3)); [done|]. by destruct Hlen.
Qed.

Lemma foldl_set_rgba body_id links sc :
  foldl (fun sc i => TextureModder.set_rgba body_id i TextureModder.white sc)
    sc links
  = TextureModder.Scene (TextureModder.texture_dict sc)
      (pb_util.State (pb_util.PB_CLIENT (TextureModder.module sc))
         (pb_util.STEP_SIM_MODE (TextureModder.module sc))
         (pb_util.RENDER (TextureModder.module sc))
         (pb_util.calls (TextureModder.module sc) ++
            ((fun i =>
                pb_util.p_changeVisualShape_rgbaColor body_id i
                  TextureModder.white
                  (pb_util.PB_CLIENT (TextureModder.module sc))) <$> links))).
Proof.
  revert sc. induction links as [|i links IH]; intros [d [client mode render calls]].
  - cbn. by rewrite app_nil_r.
  - cbn [foldl]. rewrite IH. cbn. by rewrite <- app_assoc.
Qed.

(** X25. [whiten_materials] of one body paints white the link [-1] alone
    when the body has no joint, and otherwise the links [0] to
    [num_jnts - 1], in order, and not the base link [-1]; with a link given
    it paints that link alone.  Each is one [changeVisualShape] call with
    [rgbaColor=[1, 1, 1, 1]] and the client of the module; the recorded
    textures and the globals of the module are as before. *)
Theorem whiten_materials_links body_id sc :
  let st := TextureModder.module sc in
  let num_jnts := TextureModder.getNumJoints lib (pb_util.calls st) body_id in
  let painted links :=
    TextureModder.Scene (TextureModder.texture_dict sc)
      (pb_util.State (pb_util.PB_CLIENT st) (pb_util.STEP_SIM_MODE st)
         (pb_util.RENDER st)
         (pb_util.calls st ++
            ((fun i =>
                pb_util.p_changeVisualShape_rgbaColor body_id i
                  TextureModder.white (pb_util.PB_CLIENT st)) <$> links))) in
  TextureModder.whiten_materials lib (Some body_id) None sc
    = painted (if decide (num_jnts = 0%Z) then [(-1)%Z]
               else seqZ 0 num_jnts) /\
  (forall link_id,
     TextureModder.whiten_materials lib (Some body_id) (Some link_id) sc
       = painted [link_id]).
Proof.
  intros st num_jnts painted. split; [|done].
  unfold TextureModder.whiten_materials, TextureModder.whiten_links.
  rewrite foldl_set_rgba. fold st num_jnts. unfold painted, TextureModder.range.
  destruct (decide (num_jnts = 0%Z)) as [->|Hn]; [done|].
  by rewrite Z.sub_0_r.
Qed.

Lemma whiten_links_calls body_id sc :
  let st := TextureModder.module sc in
  let num_jnts := TextureModder.getNumJoints lib (pb_util.calls st) body_id in
  TextureModder.whiten_links lib body_id sc =
    TextureModder.Scene (TextureModder.texture_dict sc)
      (pb_util.State (pb_util.PB_CLIENT st) (pb_util.STEP_SIM_MODE st)
         (pb_util.RENDER st)
         (pb_util.calls st ++
            ((fun i =>
                pb_util.p_changeVisualShape_rgbaColor body_id i
                  TextureModder.white (pb_util.PB_CLIENT st))
               <$> (if decide (num_jnts = 0%Z) then [(-1)%Z]
                    else seqZ 0 num_jnts)))).
Proof.
  intros st num_jnts. unfold TextureModder.whiten_links.
  rewrite foldl_set_rgba. fold st num_jnts. unfold TextureModder.range.
  destruct (decide (num_jnts = 0%Z)) as [->|Hn]; [done|].
  by rewrite Z.sub_0_r.
Qed.

Lemma filter_on_body_paint b body_id client links :
  filter (fun c => TextureModder.on_body b c = true)
    ((fun i =>
        pb_util.p_changeVisualShape_rgbaColor body_id i TextureModder.white
          client) <$> links)
  = if decide (body_id = b)
    then (fun i =>
            pb_util.p_changeVisualShape_rgbaColor body_id i
              TextureModder.white client) <$> links
    else [].
Proof.
  induction links as [|i links IH]; [by destruct (decide (body_id = b))|].
  rewrite fmap_cons. destruct (decide (body_id = b)) as [Hb|Hb].
  - rewrite filter_cons_True by (cbn; by rewrite bool_decide_true).
    by rewrite IH.
  - rewrite filter_cons_False; [done|].
    cbn. by rewrite bool_decide_false.
Qed.

Lemma filter_on_body_none b added :
  Forall (fun c => TextureModder.on_body b c = false) added ->
  filter (fun c => TextureModder.on_body b c = true) added = [].
Proof.
  induction 1 as [|c added Hc _ IH]; [done|].
  rewrite filter_cons_False; [done|]. by rewrite Hc.
Qed.

Lemma whiten_bodies_calls bodies sc :
  let client := pb_util.PB_CLIENT (TextureModder.module sc) in
  let sc' :=
    foldl
      (fun sc body_idx =>
         if negb (TextureModder._check_body_exist lib body_idx sc) then sc
         else TextureModder.whiten_links lib body_idx sc)
      sc bodies in
  TextureModder.texture_dict sc' = TextureModder.texture_dict sc /\
  pb_util.PB_CLIENT (TextureModder.module sc') = client /\
  exists added,
    pb_util.calls (TextureModder.module sc') =
      pb_util.calls (TextureModder.module sc) ++ added /\
    Forall
      (fun c =>
         exists body_id link_id,
           c = pb_util.p_changeVisualShape_rgbaColor body_id link_id
                 TextureModder.white client /\
           body_id ∈ bodies)
      added /\
    (forall b,
       (forall h, TextureModder.getBodyInfo_succeeds lib h b = false) ->
       Forall (fun c => TextureModder.on_body b c = false) added) /\
    (forall b n,
       NoDup bodies -> b ∈ bodies ->
       (forall h, TextureModder.getBodyInfo_succeeds lib h b = true) ->
       (forall h, TextureModder.getNumJoints lib h b = n) ->
       filter (fun c => TextureModder.on_body b c = true) added =
         (fun i =>
            pb_util.p_changeVisualShape_rgbaColor b i TextureModder.white
              client)
           <$> (if decide (n = 0%Z) then [(-1)%Z] else seqZ 0 n)).
Proof.
  revert sc. induction bodies as [|b0 bodies IH]; intros sc.
  - cbn. repeat split. exists []. rewrite app_nil_r.
    repeat split; try done. intros b n _ Hb. by apply elem_of_nil in Hb.
  - cbn [foldl].
    destruct (TextureModder._check_body_exist lib b0 sc) eqn:Hexist;
      cbn [negb].
    + rewrite (whiten_links_calls b0 sc). cbv zeta.
      set (st := TextureModder.module sc).
      set (block := _ <$> _).
      set (sc1 := TextureModder.Scene _ _).
      destruct (IH sc1)
        as (Hdict & Hclient & added & Hcalls & Hadded & Hskip & Hall).
      split; [exact Hdict|]. split; [exact Hclient|].
      exists (block ++ added). split.
      { rewrite Hcalls. unfold sc1. cbn. by rewrite <- app_assoc. }
      split.
      { apply Forall_app. split.
        - apply Forall_fmap, Forall_forall. intros i _.
          exists b0, i. split; [done|by left].
        - eapply Forall_impl; [exact Hadded|].
          intros c (b & i & -> & Hb). exists b, i. split; [done|by right]. }
      split.
      { intros b Hfails. apply Forall_app. split; [|by apply Hskip].
        apply Forall_fmap, Forall_forall. intros i _. cbn.
        apply bool_decide_eq_false. intros ->.
        unfold TextureModder._check_body_exist in Hexist.
        by rewrite Hfails in Hexist. }
      intros b n Hnodup Hb Hsucceeds Hjoints.
      apply NoDup_cons in Hnodup as [Hb0 Hnodup].
      rewrite filter_app. unfold block. rewrite filter_on_body_paint.
      destruct (decide (b0 = b)) as [->|Hne].
      * rewrite Hjoints. rewrite filter_on_body_none; [by rewrite app_nil_r|].
        eapply Forall_impl; [exact Hadded|].
        intros c (b' & i & -> & Hb'). cbn.
        apply bool_decide_eq_false. by intros ->.
      * apply elem_of_cons in Hb as [Hb|Hb]; [congruence|].
        by apply Hall.
    + destruct (IH sc)
        as (Hdict & Hclient & added & Hcalls & Hadded & Hskip & Hall).
      split; [exact Hdict|]. split; [exact Hclient|].
      exists added. split; [exact Hcalls|]. split.
      { eapply Forall_impl; [exact Hadded|].
        intros c (b & i & -> & Hb). exists b, i. split; [done|by right]. }
      split; [exact Hskip|].
      intros b n Hnodup Hb Hsucceeds Hjoints.
      apply NoDup_cons in Hnodup as [Hb0 Hnodup].
      apply elem_of_cons in Hb as [->|Hb]; [|by apply Hall].
      unfold TextureModder._check_body_exist in Hexist.
      by rewrite Hsucceeds in Hexist.
Qed.

(** X26. [whiten_materials] without a body only paints links white: every
    call it adds is a [changeVisualShape] with [rgbaColor=[1, 1, 1, 1]] and
    the client of the module, on a body index from [0] up to the number of
    bodies read at the start; the recorded textures are as before.  A body
    whose [getBodyInfo] fails is skipped: no call is made on it.  A body in
    that range whose [getBodyInfo] succeeds is painted as
    [whiten_materials(body_id)] paints it: the link [-1] alone when it has
    no joint, and otherwise the links [0] to [num_jnts - 1], in order.  The
    [link_id] is not looked at. *)
Theorem whiten_materials_all link_id sc :
  let st := TextureModder.module sc in
  let body_num := TextureModder.getNumBodies lib (pb_util.calls st) in
  let sc' := TextureModder.whiten_materials lib None link_id sc in
  sc' = TextureModder.whiten_materials lib None None sc /\
  TextureModder.texture_dict sc' = TextureModder.texture_dict sc /\
  exists added,
    pb_util.calls (TextureModder.module sc') = pb_util.calls st ++ added /\
    Forall (TextureModder.whitens (pb_util.PB_CLIENT st) body_num) added /\
    (forall b,
       (forall h, TextureModder.getBodyInfo_succeeds lib h b = false) ->
       Forall (fun c => TextureModder.on_body b c = false) added) /\
    (forall b n,
       (0 <= b < body_num)%Z ->
       (forall h, TextureModder.getBodyInfo_succeeds lib h b = true) ->
       (forall h, TextureModder.getNumJoints lib h b = n) ->
       filter (fun c => TextureModder.on_body b c = true) added =
         (fun i =>
            pb_util.p_changeVisualShape_rgbaColor b i TextureModder.white
              (pb_util.PB_CLIENT st))
           <$> (if decide (n = 0%Z) then [(-1)%Z] else seqZ 0 n)).
Proof.
  intros st body_num sc'. split; [done|].
  destruct (whiten_bodies_calls (TextureModder.range 0 body_num) sc)
    as (Hdict & _ & added & Hcalls & Hadded & Hskip & Hall).
  split; [exact Hdict|]. exists added. split; [exact Hcalls|]. split.
  { eapply Forall_impl; [exact Hadded|].
    intros c (b & i & -> & Hb). exists b, i. split; [done|].
    unfold TextureModder.range in Hb. apply elem_of_seqZ in Hb. lia. }
  split; [exact Hskip|].
  intros b n Hb Hsucceeds Hjoints. apply Hall; try done.
  - apply NoDup_seqZ.
  - unfold TextureModder.range. apply elem_of_seqZ. lia.
Qed.

End Textures.

Lemma set_texture_round_trip_witness :
  pb_util.calls
    (TextureModder.module
       (TextureModder.set_gradient studio 1 0 [1; 0; 0]%float [0; 0; 1]%float
          true
          (TextureModder.set_texture studio 1 0 "wood.png"
             (TextureModder.__init__ (pb_util.State None false false [])))).2)
  = [pb_util.p_loadTexture "wood.png";
     pb_util.p_changeVisualShape_textureUniqueId 1 0 0;
     pb_util.p_changeTexture 0 [] 640 480 None].
Proof.
  destruct (set_texture_round_trip studio 1 0 "wood.png" [1; 0; 0]%float
              [0; 0; 1]%float true
              (TextureModder.__init__ (pb_util.State None false false [])))
    as (_ & _ & _ & _ & Hgradient).
  rewrite Hgradient by reflexivity. reflexivity.
Defined.

Lemma no_texture_no_change_witness :
  TextureModder.set_noise studio 1 0 [1; 0]%float [0; 0; 1]%float 0.9%float
    (TextureModder.__init__ (pb_util.State None false false []))
  = (Returns tt, TextureModder.__init__ (pb_util.State None false false []))
  /\
  TextureModder.set_gradient studio 1 0 [1; 0]%float [0; 0; 1]%float true
    (TextureModder.__init__ (pb_util.State None false false []))
  = (Raises ValueError,
     TextureModder.__init__ (pb_util.State None false false [])) /\
  TextureModder.set_gradient studio 1 0 [1; 0; 0]%float [0; 0; 1]%float true
    (TextureModder.__init__ (pb_util.State None false false []))
  = (Returns tt, TextureModder.__init__ (pb_util.State None false false [])).
Proof.
  destruct (no_texture_no_change studio 1 0 [1; 0]%float [0; 0; 1]%float true
              0.9%float
              (TextureModder.__init__ (pb_util.State None false false [])))
    as (_ & Hquiet & Hshort).
  destruct (no_texture_no_change studio 1 0 [1; 0; 0]%float [0; 0; 1]%float
              true 0.9%float
              (TextureModder.__init__ (pb_util.State None false false [])))
    as (_ & Hthree & _).
  split; [apply Hquiet; reflexivity|].
  split; [apply Hshort; left; simpl; lia|].
  by apply Hthree.
Defined.

(** ** Enabling the joints one by one *)

Lemma index_NoDup names i name :
  NoDup names -> names !! i = Some name -> index names name = Some i.
Proof.
  intros Hnodup. revert i.
  induction Hnodup as [|n names Hn Hnodup IH]; intros [|i]; simpl; try done.
  - intros [= ->]. by rewrite decide_True.
  - intros Hi. rewrite decide_False.
    + by rewrite (IH i Hi).
    + intros ->. apply Hn. by eapply list_elem_of_lookup_2.
Qed.

Lemma enable_each_joint names k w :
  (forall name,
     name ∈ names ->
     name ∈ arm_jnt_names (self w) /\ is_Some (jnt_to_id (self w) !! name)) ->
  length (_in_torque_mode (self w)) = arm_dof (self w) ->
  exists flags issued,
    for_enumerate (fun _ name => enable_torque_control (Some name)) k names w
      = (Returns tt,
         World (with__in_torque_mode (self w) flags) (trace w ++ issued)) /\
    length flags = arm_dof (self w) /\
    (forall i, _in_torque_mode (self w) !! i = Some true ->
               flags !! i = Some true) /\
    (forall name i,
       name ∈ names -> index (arm_jnt_names (self w)) name = Some i ->
       flags !! i = Some true) /\
    Forall2
      (fun name c =>
         exists jid,
           jnt_to_id (self w) !! name = Some jid /\
           c = p_setJointMotorControl2 (robot_id (self w)) jid
                 VELOCITY_CONTROL (Some (PyFloat 0%float)) (PyFloat 0%float))
      names issued.
Proof.
  revert k w. induction names as [|name names IH]; intros k w Hnames Hlen.
  - exists (_in_torque_mode (self w)), [].
    rewrite app_nil_r, with__in_torque_mode_same, world_eta.
    repeat split; try done. intros name i Hin. by apply elem_of_nil in Hin.
  - destruct (Hnames name) as [Hin [jid Hjid]]; [by left|].
    destruct (elem_of_index _ _ Hin) as [i Hi].
    pose proof (index_Some_lt _ _ _ Hi) as Hlt.
    assert (i < length (_in_torque_mode (self w))) as Hlt'
      by (rewrite Hlen; exact Hlt).
    pose proof (enable_torque_control_named name i jid w Hi Hjid Hlt') as Hrun.
    match type of Hrun with _ = (_, ?w1') => set (w1 := w1') in Hrun end.
    destruct (IH (S k) w1) as (flags & issued & Hrest & Hflags & Hmono & Hset
                               & Hissued).
    { intros n Hn. apply Hnames. by right. }
    { unfold w1. cbn. by rewrite length_insert. }
    exists flags, (p_setJointMotorControl2 (robot_id (self w)) jid
                     VELOCITY_CONTROL (Some (PyFloat 0%float))
                     (PyFloat 0%float) :: issued).
    split.
    { cbn [for_enumerate]. unfold mbind, M_bind, bind. rewrite Hrun, Hrest.
      unfold w1. cbn. by rewrite <- app_assoc. }
    split; [done|]. split.
    { intros j Hj. apply Hmono. unfold w1. cbn.
      destruct (decide (j = i)) as [->|Hne].
      - by apply list_lookup_insert_eq.
      - by rewrite list_lookup_insert_ne. }
    split.
    { intros n j Hn Hj. apply elem_of_cons in Hn as [->|Hn].
      - apply Hmono. unfold w1. cbn. assert (j = i) as -> by congruence.
        by apply list_lookup_insert_eq.
      - by apply (Hset n). }
    constructor; [by exists jid|done].
Qed.

(** X27. When the joint names of the arm are distinct and all known to
    [jnt_to_id], enabling torque control for each joint by name, one after
    the other, puts the whole arm in torque mode: every flag is set, one
    zero-velocity zero-force command was issued per joint, in order, and a
    whole-arm [set_jtorq] of the right length is then accepted. *)
Theorem enable_every_joint torque wait w :
  NoDup (arm_jnt_names (self w)) ->
  (forall name,
     name ∈ arm_jnt_names (self w) -> is_Some (jnt_to_id (self w) !! name)) ->
  length (_in_torque_mode (self w)) = arm_dof (self w) ->
  length torque = arm_dof (self w) ->
  exists w1 issued,
    for_enumerate (fun _ name => enable_torque_control (Some name)) 0
      (arm_jnt_names (self w)) w = (Returns tt, w1) /\
    _in_torque_mode (self w1) = replicate (arm_dof (self w)) true /\
    same_but_flags (self w) (self w1) /\
    trace w1 = trace w ++ issued /\
    Forall2
      (fun name c =>
         exists jid,
           jnt_to_id (self w) !! name = Some jid /\
           c = p_setJointMotorControl2 (robot_id (self w)) jid
                 VELOCITY_CONTROL (Some (PyFloat 0%float)) (PyFloat 0%float))
      (arm_jnt_names (self w)) issued /\
    set_jtorq (PyList torque) None wait w1 =
      (Returns true,
       World (self w1)
         (trace w1 ++ [p_setJointMotorControlArray (robot_id (self w))
                         (arm_jnt_ids (self w)) TORQUE_CONTROL None
                         (PyList torque)])).
Proof.
  intros Hnodup Hknown Hlen Htorque.
  destruct (enable_each_joint (arm_jnt_names (self w)) 0 w)
    as (flags & issued & Hrun & Hflags & _ & Hset & Hissued); [by auto|done|].
  assert (flags = replicate (arm_dof (self w)) true) as ->.
  { apply list_eq. intros i. destruct (decide (i < arm_dof (self w))) as [Hi|Hi].
    - rewrite lookup_replicate_2 by done.
      destruct (lookup_lt_is_Some_2 (arm_jnt_names (self w)) i Hi)
        as [name Hname].
      apply (Hset name).
      + by eapply list_elem_of_lookup_2.
      + by apply index_NoDup.
    - rewrite !lookup_ge_None_2; [done| |]; rewrite ?length_replicate; lia. }
  do 2 eexists. split; [exact Hrun|]. split; [done|].
  split; [unfold same_but_flags; cbn [self]; by destruct (self w)|].
  split; [done|].
  split; [done|].
  etrans.
  { apply set_jtorq_all_issued; cbn; [|done]. apply all_true_iff.
    intros b Hb. by apply elem_of_replicate in Hb as [-> _]. }
  done.
Qed.

Lemma enable_every_joint_witness :
  exists w1,
    for_enumerate (fun _ name => enable_torque_control (Some name)) 0
      ["shoulder_pan_joint"; "elbow_joint"]%string
      (at_rest true [false; false]) = (Returns tt, w1) /\
    _in_torque_mode (self w1) = [true; true].
Proof.
  destruct (enable_every_joint [1; 2]%float false (at_rest true [false; false]))
    as (w1 & issued & Hrun & Hflags & _).
  { by apply (bool_decide_unpack _). }
  { apply Forall_forall. by apply (bool_decide_unpack _). }
  { reflexivity. }
  { reflexivity. }
  by exists w1.
Defined.

Lemma whiten_materials_all_witness :
  exists added,
    pb_util.calls
      (TextureModder.module
         (TextureModder.whiten_materials studio None (Some 5%Z)
            (TextureModder.__init__ (pb_util.State None false false []))))
    = added /\
    Forall (fun c => TextureModder.on_body 1 c = false) added /\
    filter (fun c => TextureModder.on_body 0 c = true) added
    = [pb_util.p_changeVisualShape_rgbaColor 0 (-1) TextureModder.white None].
Proof.
  destruct (whiten_materials_all studio (Some 5%Z)
              (TextureModder.__init__ (pb_util.State None false false [])))
    as (_ & _ & added & Hcalls & _ & Hskip & Hall).
  exists added. split; [exact Hcalls|]. split.
  - apply Hskip. reflexivity.
  - apply (Hall 0%Z 0%Z); [cbn; lia|reflexivity|reflexivity].
Defined.
